(** * Jarvis crypto assistant: a shallow embedding of [src/App.tsx]

    The development follows the one React component of the repository.
    JavaScript strings are modelled as [string] (ASCII text), JavaScript
    numbers as primitive binary64 floats, the [symbolMap] object literal as
    a finite map over its own keys together with the names it inherits from
    [Object.prototype], and the asynchronous handlers as a step function
    over an explicit world (component state, ref cells, the state of the
    browser capabilities and the log of calls made to them).  A second
    layer adds the transcript held by the speech-recognition hook and the
    renders that decide when the command effect runs. *)

From Stdlib Require Import Floats.PrimFloat Floats.SpecFloat Floats.FloatOps Strings.Ascii.
From stdpp Require Import base strings list gmap pretty.

Local Open Scope string_scope.

(** ** JavaScript string primitives used by the component *)

Module Js.

Definition is_upper (c : ascii) : bool :=
  let n := nat_of_ascii c in (65 <=? n)%nat && (n <=? 90)%nat.

Definition is_digit (c : ascii) : bool :=
  let n := nat_of_ascii c in (48 <=? n)%nat && (n <=? 57)%nat.

(** The ASCII members of the [\s] class: TAB, LF, VT, FF, CR and space. *)
Definition is_space (c : ascii) : bool :=
  let n := nat_of_ascii c in ((9 <=? n)%nat && (n <=? 13)%nat) || (n =? 32)%nat.

Definition lower_char (c : ascii) : ascii :=
  if is_upper c then ascii_of_nat (nat_of_ascii c + 32) else c.

(** [String.prototype.toLowerCase] *)
Fixpoint toLowerCase (s : string) : string :=
  match s with
  | EmptyString => EmptyString
  | String c s' => String (lower_char c) (toLowerCase s')
  end.

(** [String.prototype.startsWith] *)
Fixpoint startsWith (s p : string) : bool :=
  match p, s with
  | EmptyString, _ => true
  | String _ _, EmptyString => false
  | String a p', String b s' => if Ascii.eqb a b then startsWith s' p' else false
  end.

(** [String.prototype.includes] *)
Fixpoint includes (s sub : string) : bool :=
  startsWith s sub ||
  match s with
  | EmptyString => false
  | String _ s' => includes s' sub
  end.

Fixpoint trimStart (s : string) : string :=
  match s with
  | EmptyString => EmptyString
  | String c s' => if is_space c then trimStart s' else s
  end.

Fixpoint trimEnd (s : string) : string :=
  match s with
  | EmptyString => EmptyString
  | String c s' =>
      match trimEnd s' with
      | EmptyString => if is_space c then EmptyString else String c EmptyString
      | t => String c t
      end
  end.

(** [String.prototype.trim] *)
Definition trim (s : string) : string := trimEnd (trimStart s).

(** [String.prototype.replace] with a string pattern: first occurrence only. *)
Fixpoint replaceFirst (s pat rep : string) : string :=
  if startsWith s pat then rep ++ String.substring (String.length pat) (String.length s) s
  else match s with
       | EmptyString => EmptyString
       | String c s' => String c (replaceFirst s' pat rep)
       end.

(** [replace(/c/g, rep)] for a one-character pattern. *)
Fixpoint replaceChar (c : ascii) (rep : string) (s : string) : string :=
  match s with
  | EmptyString => EmptyString
  | String a s' =>
      if Ascii.eqb a c then rep ++ replaceChar c rep s' else String a (replaceChar c rep s')
  end.

(** Every character of [s] satisfies [p]. *)
Fixpoint all (p : ascii -> bool) (s : string) : bool :=
  match s with
  | EmptyString => true
  | String c s' => p c && all p s'
  end.

(** Truthiness of a string value: only the empty string is falsy. *)
Definition truthy (s : string) : bool :=
  match s with EmptyString => false | _ => true end.

End Js.

(** ** Symbol alias resolver: [normalizeSymbol] *)

(** The entries of the [symbolMap] object literal, in source order. *)
Definition symbolEntries : list (string * string) :=
  [ ("bitcoin", "BTCUSDT"); ("btc", "BTCUSDT");
    ("ethereum", "ETHUSDT"); ("eth", "ETHUSDT");
    ("binance coin", "BNBUSDT"); ("bnb", "BNBUSDT");
    ("cardano", "ADAUSDT"); ("ada", "ADAUSDT");
    ("solana", "SOLUSDT"); ("sol", "SOLUSDT");
    ("ripple", "XRPUSDT"); ("xrp", "XRPUSDT");
    ("dogecoin", "DOGEUSDT"); ("doge", "DOGEUSDT");
    ("polkadot", "DOTUSDT"); ("dot", "DOTUSDT");
    ("avalanche", "AVAXUSDT"); ("avax", "AVAXUSDT");
    ("shiba inu", "SHIBUSDT"); ("shib", "SHIBUSDT");
    ("litecoin", "LTCUSDT"); ("ltc", "LTCUSDT");
    ("chainlink", "LINKUSDT"); ("link", "LINKUSDT");
    ("polygon", "MATICUSDT"); ("matic", "MATICUSDT") ].

(** The own properties of the object.  What a read of the object gives for
    the names it inherits from [Object.prototype] is in [symbolMapGet]
    below. *)
Definition symbolMap : gmap string string := list_to_map symbolEntries.

(** [symbolMap[normalizedInput] || null], as far as it is a string: the
    market pair that is returned, if one is.  [normalizeSymbolValue] below
    has every value that can come back ([normalizeSymbol_own] relates the
    two); the handlers call the resolver on keywords only. *)
Definition normalizeSymbol (input : string) : option string :=
  let normalizedInput := Js.trim (Js.toLowerCase input) in
  match symbolMap !! normalizedInput with
  | Some v => if Js.truthy v then Some v else None
  | None => None
  end.

(** ** Command classification: the cascade of [processCommand] *)

(** The array scanned by the [for ... of] loop of [processCommand]. *)
Definition cryptoKeywords : list string :=
  [ "bitcoin"; "btc"; "ethereum"; "eth"; "binance coin"; "bnb";
    "cardano"; "ada"; "solana"; "sol"; "ripple"; "xrp";
    "dogecoin"; "doge"; "polkadot"; "dot"; "avalanche"; "avax";
    "shiba inu"; "shib"; "litecoin"; "ltc"; "chainlink"; "link";
    "polygon"; "matic" ].

(** The condition of the first [if] of [processCommand]
    ("Check for conversation queries first"). *)
Definition conversationQuery (lowerTranscript : string) : bool :=
  Js.includes lowerTranscript "who are you" ||
  Js.includes lowerTranscript "what are you" ||
  Js.includes lowerTranscript "how are you" ||
  Js.includes lowerTranscript "what can you do" ||
  Js.includes lowerTranscript "your name" ||
  Js.includes lowerTranscript "what time" ||
  Js.includes lowerTranscript "what day" ||
  Js.includes lowerTranscript "weather" ||
  Js.includes lowerTranscript "joke" ||
  Js.includes lowerTranscript "funny" ||
  Js.includes lowerTranscript "goodbye" ||
  Js.includes lowerTranscript "bye" ||
  Js.includes lowerTranscript "see you".

(** The literal substrings tested by [conversationQuery]. *)
Definition conversationKeywords : list string :=
  [ "who are you"; "what are you"; "how are you"; "what can you do";
    "your name"; "what time"; "what day"; "weather"; "joke"; "funny";
    "goodbye"; "bye"; "see you" ].

(** Topics of a conversational reply.  [Greeting] and [Help] are answered by
    [processCommand] itself, the others by [handleConversation]. *)
Inductive Topic :=
  | Identity | Wellbeing | Capabilities | TimeDate | Weather | Joke
  | Thanks | Farewell | Greeting | Help | Unrecognized.

(** The branch conditions of [handleConversation], in source order. *)
Module Conv.

Definition identity (lowerText : string) : bool :=
  Js.includes lowerText "who are you" ||
  Js.includes lowerText "what are you" ||
  Js.includes lowerText "your name" ||
  (Js.includes lowerText "who" && Js.includes lowerText "jarvis").

Definition wellbeing (lowerText : string) : bool :=
  Js.includes lowerText "how are you" ||
  Js.includes lowerText "how do you feel" ||
  Js.includes lowerText "how's it going".

Definition capabilities (lowerText : string) : bool :=
  Js.includes lowerText "what can you do" ||
  Js.includes lowerText "your capabilities" ||
  Js.includes lowerText "help me".

Definition timeDate (lowerText : string) : bool :=
  Js.includes lowerText "what time" ||
  Js.includes lowerText "what day" ||
  Js.includes lowerText "what is the date".

Definition weather (lowerText : string) : bool :=
  Js.includes lowerText "weather" || Js.includes lowerText "temperature".

Definition joke (lowerText : string) : bool :=
  Js.includes lowerText "joke" || Js.includes lowerText "funny".

Definition thanks (lowerText : string) : bool :=
  Js.includes lowerText "thank you" || Js.includes lowerText "thanks".

Definition farewell (lowerText : string) : bool :=
  Js.includes lowerText "goodbye" ||
  Js.includes lowerText "bye" ||
  Js.includes lowerText "see you".

(** The [if / else if / else] chain of [handleConversation]. *)
Definition topic (lowerText : string) : Topic :=
  if identity lowerText then Identity
  else if wellbeing lowerText then Wellbeing
  else if capabilities lowerText then Capabilities
  else if timeDate lowerText then TimeDate
  else if weather lowerText then Weather
  else if joke lowerText then Joke
  else if thanks lowerText then Thanks
  else if farewell lowerText then Farewell
  else Unrecognized.

End Conv.

(** The conditions of the "Handle other commands" chain of [processCommand]. *)
Definition greetingCommand (lowerTranscript : string) : bool :=
  Js.includes lowerTranscript "hello jarvis" ||
  Js.includes lowerTranscript "hi jarvis" ||
  Js.includes lowerTranscript "hello" ||
  Js.includes lowerTranscript "hi".

Definition thanksCommand (lowerTranscript : string) : bool :=
  Js.includes lowerTranscript "thank you" || Js.includes lowerTranscript "thanks".

Definition helpCommand (lowerTranscript : string) : bool :=
  Js.includes lowerTranscript "help".

Definition stopCommand (lowerTranscript : string) : bool :=
  Js.includes lowerTranscript "stop listening".

(** The first keyword of [cryptoKeywords], in array order, that the
    transcript includes: the [for ... of] loop with its early [return]. *)
Definition firstKeyword (lowerTranscript : string) : option string :=
  List.find (fun keyword => Js.includes lowerTranscript keyword) cryptoKeywords.

(** Which branch of [processCommand] runs on a lower-cased transcript. *)
Inductive Branch :=
  | BConversation            (* handleConversation(lowerTranscript) *)
  | BCrypto (keyword : string) (* fetchCryptoData(keyword) *)
  | BGreeting
  | BThanks
  | BHelp
  | BStop
  | BNone.                   (* the chain ends without an else *)

Definition branch (lowerTranscript : string) : Branch :=
  if conversationQuery lowerTranscript then BConversation
  else match firstKeyword lowerTranscript with
       | Some keyword => BCrypto keyword
       | None =>
           if greetingCommand lowerTranscript then BGreeting
           else if thanksCommand lowerTranscript then BThanks
           else if helpCommand lowerTranscript then BHelp
           else if stopCommand lowerTranscript then BStop
           else BNone
       end.

(** The commands of the specification's data model, as a view of the
    branch taken.  The wake word is not a branch: [processCommand] records
    it and goes on to the cascade. *)
Inductive Command :=
  | Conversational (topic : Topic)
  | CryptoQuery (aliasText : string)
  | StopListening.

Definition classify (transcript : string) : option Command :=
  let lowerTranscript := Js.toLowerCase transcript in
  match branch lowerTranscript with
  | BConversation => Some (Conversational (Conv.topic (Js.toLowerCase lowerTranscript)))
  | BCrypto keyword => Some (CryptoQuery keyword)
  | BGreeting => Some (Conversational Greeting)
  | BThanks => Some (Conversational Thanks)
  | BHelp => Some (Conversational Help)
  | BStop => Some StopListening
  | BNone => None
  end.

(** ** Market analysis: [speakAnalysis] and [generateAdvice] *)

Local Open Scope float_scope.

(** [trend] after the two assignments of [speakAnalysis]: the sign test reads
    [priceChangeNum], the stability test reads [priceChangePercentNum]. *)
Definition trendOf (priceChangeNum priceChangePercentNum : float) : string :=
  let trend := if 0 <? priceChangeNum then "upward" else "downward" in
  if abs priceChangePercentNum <? 0.5 then "relatively stable" else trend.

Definition sentimentOf (priceChangeNum priceChangePercentNum : float) : string :=
  let sentiment := if 0 <? priceChangeNum then "positive" else "negative" in
  if abs priceChangePercentNum <? 0.5 then "neutral" else sentiment.

Definition adviceSignificantUp : string :=
  "Be cautious as this significant upward movement might be followed by a correction.".
Definition adviceSignificantDown : string :=
  "This significant drop might present a buying opportunity, but be aware that the downtrend might continue.".
Definition adviceConsolidating : string :=
  "The market appears to be consolidating. This might be a period of accumulation before the next significant move.".
Definition adviceGeneric : string :=
  "Consider your investment strategy based on your risk tolerance and long-term outlook.".

Definition generateAdvice (priceChangePercent : float) (trend : string) : string :=
  if 5 <? abs priceChangePercent then
    if 0 <? priceChangePercent then adviceSignificantUp else adviceSignificantDown
  else if String.eqb trend "relatively stable" then adviceConsolidating
  else adviceGeneric.

Local Close Scope float_scope.

(** ** Speech text normalisation: the [replace] chain of [speakText] *)

Module Speech.

(** Longest prefix of decimal digits, and what follows it. *)
Fixpoint spanDigits (s : string) : string * string :=
  match s with
  | EmptyString => (EmptyString, EmptyString)
  | String c s' =>
      if Js.is_digit c then
        let '(d, r) := spanDigits s' in (String c d, r)
      else (EmptyString, s)
  end.

(** A match of [(\d+)\.(\d+)] anchored at the head of [s]: both groups are
    greedy, and giving digits back never helps because a digit is not a dot. *)
Definition matchDecimal (s : string) : option (string * string) :=
  match spanDigits s with
  | (EmptyString, _) => None
  | (whole, String "." r) =>
      match spanDigits r with
      | (EmptyString, _) => None
      | (decimal, _) => Some (whole, decimal)
      end
  | _ => None
  end.

(** The replacer callback; [text] is the argument of [speakText], captured
    by the closure, and [match] is the matched substring. *)
Definition decimalReplacer (text whole decimal : string) : string :=
  let match_ := whole ++ "." ++ decimal in
  if Js.includes match_ "$" ||
     Js.includes (Js.toLowerCase text) "price" ||
     Js.includes (Js.toLowerCase text) "dollar"
  then whole ++ " dollars and " ++ decimal ++ " cents"
  else whole ++ " point " ++ decimal.

(** [replace(/(\d+)\.(\d+)/g, replacer)]: matches are found left to right and
    do not overlap; [skip] counts the characters of the current match that are
    still to be consumed. *)
Fixpoint replaceDecimalsFrom (text : string) (skip : nat) (s : string) : string :=
  match s with
  | EmptyString => EmptyString
  | String c s' =>
      match skip with
      | S k => replaceDecimalsFrom text k s'
      | O =>
          match matchDecimal s with
          | Some (whole, decimal) =>
              decimalReplacer text whole decimal ++
              replaceDecimalsFrom text (String.length whole + String.length decimal) s'
          | None => String c (replaceDecimalsFrom text 0 s')
          end
      end
  end.

Definition replaceDecimals (text s : string) : string := replaceDecimalsFrom text 0 s.

(** [replace(/\s+/g, ' ')] *)
Fixpoint collapseSpaces (inRun : bool) (s : string) : string :=
  match s with
  | EmptyString => EmptyString
  | String c s' =>
      if Js.is_space c then
        if inRun then collapseSpaces true s' else String " " (collapseSpaces true s')
      else String c (collapseSpaces false s')
  end.

Definition newline : ascii := ascii_of_nat 10.

Definition replaceDollar (s : string) : string := Js.replaceChar "$" " dollars " s.
Definition replacePercent (s : string) : string := Js.replaceChar "%" " percent " s.
Definition replaceNewline (s : string) : string := Js.replaceChar newline ". " s.

(** [formattedText] *)
Definition formatText (text : string) : string :=
  collapseSpaces false
    (replaceNewline
       (replaceDecimals text
          (replacePercent
             (replaceDollar text)))).

End Speech.

(** ** The component as a state machine *)

(** The [CryptoData] interface. *)
Record CryptoData := {
  symbol : string;
  priceChange : string;
  priceChangePercent : string;
  lastPrice : string;
  volume : string;
  highPrice : string;
  lowPrice : string
}.

(** The [HistoricalPrice] interface. *)
Record HistoricalPrice := {
  time : Z;
  price : float
}.

(** The JSON body of the 24-hour ticker, as far as the component reads it. *)
Record TickerData := {
  t_priceChange : string;
  t_priceChangePercent : string;
  t_lastPrice : string;
  t_volume : string;
  t_highPrice : string;
  t_lowPrice : string
}.

(** One row of the klines body: [item[0]] and [item[4]]. *)
Record Kline := {
  openTime : Z;
  close : string
}.

(** A value caught by a [catch] clause: an [Error] with its message, or
    anything else. *)
Inductive Thrown :=
  | ErrorObject (message : string)
  | OtherValue.

(** How [await fetch(...)] followed by [await response.json()] settles.
    [Rejected] also stands for a body that makes the code reading it throw
    (a field of [null], [map] on what is not an array). *)
Inductive Settled (A : Type) :=
  | Rejected (err : Thrown)      (* the fetch or the JSON decoding throws *)
  | NotOk                        (* [response.ok] is false *)
  | Body (data : A).
Arguments Rejected {A} err.
Arguments NotOk {A}.
Arguments Body {A} data.

(** Calls made to the browser and to the speech-recognition library
    ([console.log] traces are not recorded). *)
Inductive Call :=
  | startListening
  | stopListening
  | resetTranscript
  | speechCancel
  | speechSpeak (formattedText : string)
  | fetchTicker (normalizedSymbol : string)
  | fetchKlines (normalizedSymbol : string) (startTime endTime : Z)
  | setTimeout (id : nat)
  | clearTimeout (id : nat)
  | consoleError (label : string).

(** [fetchCryptoData] parked at one of its two [await]s. *)
Inductive Pending :=
  | AwaitTicker (symbol normalizedSymbol : string)
  | AwaitKlines (symbol normalizedSymbol : string) (data : TickerData).

Record World := {
  (* React state of [App] *)
  autoListening : bool;
  listening : bool;
  cryptoData : option CryptoData;
  historicalPrices : list HistoricalPrice;
  loading : bool;
  speaking : bool;
  error : option string;
  wakeWordDetected : bool;
  lastInteraction : string;
  (* ref cells *)
  wakeWordTimer : option nat;
  processingCommand : bool;
  (* the browser *)
  speechSynthesisInWindow : bool;
  browserSupportsSpeechRecognition : bool;
  recognizing : bool;
  utterance : option string;
  timeout : option nat;
  timerIds : nat;
  (* the handler parked at an [await], and the calls made so far *)
  suspended : option Pending;
  calls : list Call
}.

(** Field updates. *)
Definition set_autoListening (v : bool) (w : World) : World :=
  {| autoListening := v; listening := listening w; cryptoData := cryptoData w;
     historicalPrices := historicalPrices w; loading := loading w;
     speaking := speaking w; error := error w; wakeWordDetected := wakeWordDetected w;
     lastInteraction := lastInteraction w; wakeWordTimer := wakeWordTimer w;
     processingCommand := processingCommand w;
     speechSynthesisInWindow := speechSynthesisInWindow w;
     browserSupportsSpeechRecognition := browserSupportsSpeechRecognition w;
     recognizing := recognizing w; utterance := utterance w; timeout := timeout w;
     timerIds := timerIds w; suspended := suspended w; calls := calls w |}.

Definition set_listening (v : bool) (w : World) : World :=
  {| autoListening := autoListening w; listening := v; cryptoData := cryptoData w;
     historicalPrices := historicalPrices w; loading := loading w;
     speaking := speaking w; error := error w; wakeWordDetected := wakeWordDetected w;
     lastInteraction := lastInteraction w; wakeWordTimer := wakeWordTimer w;
     processingCommand := processingCommand w;
     speechSynthesisInWindow := speechSynthesisInWindow w;
     browserSupportsSpeechRecognition := browserSupportsSpeechRecognition w;
     recognizing := recognizing w; utterance := utterance w; timeout := timeout w;
     timerIds := timerIds w; suspended := suspended w; calls := calls w |}.

Definition set_cryptoData (v : option CryptoData) (w : World) : World :=
  {| autoListening := autoListening w; listening := listening w; cryptoData := v;
     historicalPrices := historicalPrices w; loading := loading w;
     speaking := speaking w; error := error w; wakeWordDetected := wakeWordDetected w;
     lastInteraction := lastInteraction w; wakeWordTimer := wakeWordTimer w;
     processingCommand := processingCommand w;
     speechSynthesisInWindow := speechSynthesisInWindow w;
     browserSupportsSpeechRecognition := browserSupportsSpeechRecognition w;
     recognizing := recognizing w; utterance := utterance w; timeout := timeout w;
     timerIds := timerIds w; suspended := suspended w; calls := calls w |}.

Definition set_historicalPrices (v : list HistoricalPrice) (w : World) : World :=
  {| autoListening := autoListening w; listening := listening w;
     cryptoData := cryptoData w; historicalPrices := v; loading := loading w;
     speaking := speaking w; error := error w; wakeWordDetected := wakeWordDetected w;
     lastInteraction := lastInteraction w; wakeWordTimer := wakeWordTimer w;
     processingCommand := processingCommand w;
     speechSynthesisInWindow := speechSynthesisInWindow w;
     browserSupportsSpeechRecognition := browserSupportsSpeechRecognition w;
     recognizing := recognizing w; utterance := utterance w; timeout := timeout w;
     timerIds := timerIds w; suspended := suspended w; calls := calls w |}.

Definition set_loading (v : bool) (w : World) : World :=
  {| autoListening := autoListening w; listening := listening w;
     cryptoData := cryptoData w; historicalPrices := historicalPrices w; loading := v;
     speaking := speaking w; error := error w; wakeWordDetected := wakeWordDetected w;
     lastInteraction := lastInteraction w; wakeWordTimer := wakeWordTimer w;
     processingCommand := processingCommand w;
     speechSynthesisInWindow := speechSynthesisInWindow w;
     browserSupportsSpeechRecognition := browserSupportsSpeechRecognition w;
     recognizing := recognizing w; utterance := utterance w; timeout := timeout w;
     timerIds := timerIds w; suspended := suspended w; calls := calls w |}.

Definition set_speaking (v : bool) (w : World) : World :=
  {| autoListening := autoListening w; listening := listening w;
     cryptoData := cryptoData w; historicalPrices := historicalPrices w;
     loading := loading w; speaking := v; error := error w;
     wakeWordDetected := wakeWordDetected w; lastInteraction := lastInteraction w;
     wakeWordTimer := wakeWordTimer w; processingCommand := processingCommand w;
     speechSynthesisInWindow := speechSynthesisInWindow w;
     browserSupportsSpeechRecognition := browserSupportsSpeechRecognition w;
     recognizing := recognizing w; utterance := utterance w; timeout := timeout w;
     timerIds := timerIds w; suspended := suspended w; calls := calls w |}.

Definition set_error (v : option string) (w : World) : World :=
  {| autoListening := autoListening w; listening := listening w;
     cryptoData := cryptoData w; historicalPrices := historicalPrices w;
     loading := loading w; speaking := speaking w; error := v;
     wakeWordDetected := wakeWordDetected w; lastInteraction := lastInteraction w;
     wakeWordTimer := wakeWordTimer w; processingCommand := processingCommand w;
     speechSynthesisInWindow := speechSynthesisInWindow w;
     browserSupportsSpeechRecognition := browserSupportsSpeechRecognition w;
     recognizing := recognizing w; utterance := utterance w; timeout := timeout w;
     timerIds := timerIds w; suspended := suspended w; calls := calls w |}.

Definition set_wakeWordDetected (v : bool) (w : World) : World :=
  {| autoListening := autoListening w; listening := listening w;
     cryptoData := cryptoData w; historicalPrices := historicalPrices w;
     loading := loading w; speaking := speaking w; error := error w;
     wakeWordDetected := v; lastInteraction := lastInteraction w;
     wakeWordTimer := wakeWordTimer w; processingCommand := processingCommand w;
     speechSynthesisInWindow := speechSynthesisInWindow w;
     browserSupportsSpeechRecognition := browserSupportsSpeechRecognition w;
     recognizing := recognizing w; utterance := utterance w; timeout := timeout w;
     timerIds := timerIds w; suspended := suspended w; calls := calls w |}.

Definition set_lastInteraction (v : string) (w : World) : World :=
  {| autoListening := autoListening w; listening := listening w;
     cryptoData := cryptoData w; historicalPrices := historicalPrices w;
     loading := loading w; speaking := speaking w; error := error w;
     wakeWordDetected := wakeWordDetected w; lastInteraction := v;
     wakeWordTimer := wakeWordTimer w; processingCommand := processingCommand w;
     speechSynthesisInWindow := speechSynthesisInWindow w;
     browserSupportsSpeechRecognition := browserSupportsSpeechRecognition w;
     recognizing := recognizing w; utterance := utterance w; timeout := timeout w;
     timerIds := timerIds w; suspended := suspended w; calls := calls w |}.

Definition set_wakeWordTimer (v : option nat) (w : World) : World :=
  {| autoListening := autoListening w; listening := listening w;
     cryptoData := cryptoData w; historicalPrices := historicalPrices w;
     loading := loading w; speaking := speaking w; error := error w;
     wakeWordDetected := wakeWordDetected w; lastInteraction := lastInteraction w;
     wakeWordTimer := v; processingCommand := processingCommand w;
     speechSynthesisInWindow := speechSynthesisInWindow w;
     browserSupportsSpeechRecognition := browserSupportsSpeechRecognition w;
     recognizing := recognizing w; utterance := utterance w; timeout := timeout w;
     timerIds := timerIds w; suspended := suspended w; calls := calls w |}.

Definition set_processingCommand (v : bool) (w : World) : World :=
  {| autoListening := autoListening w; listening := listening w;
     cryptoData := cryptoData w; historicalPrices := historicalPrices w;
     loading := loading w; speaking := speaking w; error := error w;
     wakeWordDetected := wakeWordDetected w; lastInteraction := lastInteraction w;
     wakeWordTimer := wakeWordTimer w; processingCommand := v;
     speechSynthesisInWindow := speechSynthesisInWindow w;
     browserSupportsSpeechRecognition := browserSupportsSpeechRecognition w;
     recognizing := recognizing w; utterance := utterance w; timeout := timeout w;
     timerIds := timerIds w; suspended := suspended w; calls := calls w |}.

Definition set_recognizing (v : bool) (w : World) : World :=
  {| autoListening := autoListening w; listening := listening w;
     cryptoData := cryptoData w; historicalPrices := historicalPrices w;
     loading := loading w; speaking := speaking w; error := error w;
     wakeWordDetected := wakeWordDetected w; lastInteraction := lastInteraction w;
     wakeWordTimer := wakeWordTimer w; processingCommand := processingCommand w;
     speechSynthesisInWindow := speechSynthesisInWindow w;
     browserSupportsSpeechRecognition := browserSupportsSpeechRecognition w;
     recognizing := v; utterance := utterance w; timeout := timeout w;
     timerIds := timerIds w; suspended := suspended w; calls := calls w |}.

Definition set_utterance (v : option string) (w : World) : World :=
  {| autoListening := autoListening w; listening := listening w;
     cryptoData := cryptoData w; historicalPrices := historicalPrices w;
     loading := loading w; speaking := speaking w; error := error w;
     wakeWordDetected := wakeWordDetected w; lastInteraction := lastInteraction w;
     wakeWordTimer := wakeWordTimer w; processingCommand := processingCommand w;
     speechSynthesisInWindow := speechSynthesisInWindow w;
     browserSupportsSpeechRecognition := browserSupportsSpeechRecognition w;
     recognizing := recognizing w; utterance := v; timeout := timeout w;
     timerIds := timerIds w; suspended := suspended w; calls := calls w |}.

Definition set_timeout (v : option nat) (w : World) : World :=
  {| autoListening := autoListening w; listening := listening w;
     cryptoData := cryptoData w; historicalPrices := historicalPrices w;
     loading := loading w; speaking := speaking w; error := error w;
     wakeWordDetected := wakeWordDetected w; lastInteraction := lastInteraction w;
     wakeWordTimer := wakeWordTimer w; processingCommand := processingCommand w;
     speechSynthesisInWindow := speechSynthesisInWindow w;
     browserSupportsSpeechRecognition := browserSupportsSpeechRecognition w;
     recognizing := recognizing w; utterance := utterance w; timeout := v;
     timerIds := timerIds w; suspended := suspended w; calls := calls w |}.

Definition set_timerIds (v : nat) (w : World) : World :=
  {| autoListening := autoListening w; listening := listening w;
     cryptoData := cryptoData w; historicalPrices := historicalPrices w;
     loading := loading w; speaking := speaking w; error := error w;
     wakeWordDetected := wakeWordDetected w; lastInteraction := lastInteraction w;
     wakeWordTimer := wakeWordTimer w; processingCommand := processingCommand w;
     speechSynthesisInWindow := speechSynthesisInWindow w;
     browserSupportsSpeechRecognition := browserSupportsSpeechRecognition w;
     recognizing := recognizing w; utterance := utterance w; timeout := timeout w;
     timerIds := v; suspended := suspended w; calls := calls w |}.

Definition set_suspended (v : option Pending) (w : World) : World :=
  {| autoListening := autoListening w; listening := listening w;
     cryptoData := cryptoData w; historicalPrices := historicalPrices w;
     loading := loading w; speaking := speaking w; error := error w;
     wakeWordDetected := wakeWordDetected w; lastInteraction := lastInteraction w;
     wakeWordTimer := wakeWordTimer w; processingCommand := processingCommand w;
     speechSynthesisInWindow := speechSynthesisInWindow w;
     browserSupportsSpeechRecognition := browserSupportsSpeechRecognition w;
     recognizing := recognizing w; utterance := utterance w; timeout := timeout w;
     timerIds := timerIds w; suspended := v; calls := calls w |}.

Definition set_calls (v : list Call) (w : World) : World :=
  {| autoListening := autoListening w; listening := listening w;
     cryptoData := cryptoData w; historicalPrices := historicalPrices w;
     loading := loading w; speaking := speaking w; error := error w;
     wakeWordDetected := wakeWordDetected w; lastInteraction := lastInteraction w;
     wakeWordTimer := wakeWordTimer w; processingCommand := processingCommand w;
     speechSynthesisInWindow := speechSynthesisInWindow w;
     browserSupportsSpeechRecognition := browserSupportsSpeechRecognition w;
     recognizing := recognizing w; utterance := utterance w; timeout := timeout w;
     timerIds := timerIds w; suspended := suspended w; calls := v |}.

(** Record one call to the outside. *)
Definition call (c : Call) (w : World) : World := set_calls (calls w ++ [c]) w.

(** Values drawn from the environment while a transcript is processed:
    the index computed from [Math.random()] and the two strings formatted
    from [new Date()]. *)
Record Oracle := {
  random : nat;
  timeString : string;
  dateString : string
}.

(** [arr[Math.floor(Math.random() * arr.length)]] *)
Definition pick (o : Oracle) (arr : list string) : string :=
  nth (random o mod length arr) arr "".

Module Reply.

Definition identity : string :=
  "I am Jarvis, an AI cryptocurrency analysis assistant developed by Eser Software. I was designed to help you track and analyze cryptocurrency markets in real-time. I can provide you with price information, market trends, and basic investment insights for various cryptocurrencies.".

Definition wellbeing : list string :=
  [ "I'm functioning optimally, thank you for asking. How can I assist you with cryptocurrency analysis today?";
    "I'm operating at peak efficiency. Ready to analyze any cryptocurrency you're interested in.";
    "All systems are running smoothly. I'm ready to provide you with crypto market insights whenever you need them." ].

Definition capabilities : string :=
  "I can provide real-time cryptocurrency analysis. Just mention a cryptocurrency like Bitcoin or Ethereum, and I'll fetch the latest market data including price, 24-hour changes, trading volume, and a 7-day price chart. I can also offer basic market insights based on recent price movements. Feel free to ask me about any major cryptocurrency.".

Definition timeDate (o : Oracle) : string :=
  "The current time is " ++ timeString o ++ " and today is " ++ dateString o ++ ".".

Definition weather : string :=
  "I'm sorry, I don't have access to weather information. I specialize in cryptocurrency analysis. Is there a specific cryptocurrency you'd like information about?".

Definition jokes : list string :=
  [ "Why don't Bitcoin investors want to go to heaven? They hate it when things go up and never come back down.";
    "Why was the cryptocurrency investor always calm? Because they were HODLing their breath.";
    "What do you call a cryptocurrency investor who finally sells? Bitconned.";
    "I told my wife I was investing all our money in crypto. She was so shocked, she was speechless for a whole Bitcoin transaction confirmation time." ].

Definition thanks : list string :=
  [ "You're welcome. I'm here anytime you need cryptocurrency insights.";
    "Happy to help. Feel free to ask about any cryptocurrency you're interested in.";
    "My pleasure. I'm always ready to provide market analysis when you need it." ].

Definition farewell : list string :=
  [ "Goodbye. I'll be here when you need more cryptocurrency analysis.";
    "Until next time. Remember, markets change quickly, so check back for updated analysis.";
    "Farewell. I'll keep monitoring the crypto markets while you're away." ].

Definition unrecognized : string :=
  "I'm not sure I understand. I'm specialized in cryptocurrency analysis. You can ask me about Bitcoin, Ethereum, or other major cryptocurrencies, or ask me who I am or how I'm doing.".

(** The replies spoken by [processCommand] itself. *)
Definition hello : string :=
  "Hello, I am Jarvis, your cryptocurrency analysis assistant. You can ask me about various cryptocurrencies like Bitcoin or Ethereum, or ask me questions like 'How are you?' or 'Who are you?'".

Definition welcome : string :=
  "You're welcome. I'm here to help with your cryptocurrency analysis needs.".

Definition help : string :=
  "I can provide you with 24-hour analysis of various cryptocurrencies. Just say a cryptocurrency name like Bitcoin or Ethereum, and I'll fetch the latest data and provide an analysis. You can also ask me general questions like 'How are you?' or 'Who are you?'".

Definition stopped : string :=
  "I've stopped listening. Click the microphone button when you want me to listen again.".

(** What [handleConversation] says on each of its branches. *)
Definition conversation (o : Oracle) (t : Topic) : string :=
  match t with
  | Identity => identity
  | Wellbeing => pick o wellbeing
  | Capabilities => capabilities
  | TimeDate => timeDate o
  | Weather => weather
  | Joke => pick o jokes
  | Thanks => pick o thanks
  | Farewell => pick o farewell
  | Greeting | Help | Unrecognized => unrecognized
  end.

End Reply.

(** The two numeric built-ins the component calls: the global [parseFloat]
    and [Number.prototype.toFixed] at two digits.  The handlers are written
    against this interface. *)
Class Builtins := {
  parseFloat : string -> float;
  toFixed2 : float -> string
}.

Section Handlers.

Context `{Builtins}.

(** [speakText]: without [speechSynthesis] nothing happens at all. *)
Definition speakText (text : string) (w : World) : World :=
  if speechSynthesisInWindow w then
    let formattedText := Speech.formatText text in
    let w := set_speaking true w in
    let w := call speechCancel w in
    let w := call (speechSpeak formattedText) w in
    set_utterance (Some formattedText) w
  else w.

(** [utterance.onend] *)
Definition onend (w : World) : World :=
  set_utterance None (set_processingCommand false (set_speaking false w)).

(** The template string of [speakAnalysis]. *)
Definition analysisText (data : CryptoData) : string :=
  let readableSymbol := Js.replaceFirst (symbol data) "USDT" "" in
  let priceChangeNum := parseFloat (priceChange data) in
  let priceChangePercentNum := parseFloat (priceChangePercent data) in
  let lastPriceNum := parseFloat (lastPrice data) in
  let trend := trendOf priceChangeNum priceChangePercentNum in
  let sentiment := sentimentOf priceChangeNum priceChangePercentNum in
  "Here's my analysis for " ++ readableSymbol ++ ". " ++
  "The current price is $" ++ toFixed2 lastPriceNum ++ " US dollars. " ++
  "In the last 24 hours, the price has changed by $" ++ toFixed2 priceChangeNum ++ " dollars, " ++
  "which is a " ++ toFixed2 (abs priceChangePercentNum) ++ "% " ++
  (if (0 <? priceChangeNum)%float then "increase" else "decrease") ++ ". " ++
  "The highest price reached was $" ++ toFixed2 (parseFloat (highPrice data)) ++ " dollars, " ++
  "while the lowest was $" ++ toFixed2 (parseFloat (lowPrice data)) ++ " dollars. " ++
  "The trading volume is approximately " ++
  toFixed2 (parseFloat (volume data) / 1000000)%float ++ " million dollars. " ++
  "Overall, " ++ readableSymbol ++ " is showing a " ++ trend ++ " trend with " ++
  sentiment ++ " momentum in the last 24 hours. " ++
  generateAdvice priceChangePercentNum trend.

Definition speakAnalysis (data : CryptoData) (w : World) : World :=
  speakText (analysisText data) w.

(** [handleConversation] *)
Definition handleConversation (o : Oracle) (text : string) (w : World) : World :=
  let w := set_processingCommand true w in
  let w := set_speaking true w in
  let w := set_lastInteraction "conversation" w in
  let lowerText := Js.toLowerCase text in
  speakText (Reply.conversation o (Conv.topic lowerText)) w.

(** The object built twice by [fetchCryptoData] from the ticker body. *)
Definition cryptoDataOf (normalizedSymbol : string) (data : TickerData) : CryptoData :=
  {| symbol := normalizedSymbol;
     priceChange := t_priceChange data;
     priceChangePercent := t_priceChangePercent data;
     lastPrice := t_lastPrice data;
     volume := t_volume data;
     highPrice := t_highPrice data;
     lowPrice := t_lowPrice data |}.

(** [fetchCryptoData] has returned: [processCommand] resumes after its
    [await] and resets the transcript. *)
Definition fetchCryptoData_returned (w : World) : World :=
  call resetTranscript (set_suspended None w).

(** The [catch] and [finally] clauses of [fetchCryptoData]. *)
Definition fetchCryptoData_catch (symbol : string) (err : Thrown) (w : World) : World :=
  let w := call (consoleError "Error fetching crypto data:") w in
  let w := set_error (Some match err with
                           | ErrorObject message => message
                           | OtherValue => "An unknown error occurred"
                           end) w in
  let w := speakText ("I'm sorry, I couldn't retrieve data for " ++ symbol ++ ". " ++
                      match err with
                      | ErrorObject message => message
                      | OtherValue => "Please try again."
                      end) w in
  let w := set_loading false w in
  fetchCryptoData_returned w.

(** [fetchCryptoData] from its entry to the first [await], as
    [processCommand] calls it (on a keyword): where the call returns,
    [fetchCryptoData_returned] goes on with what [processCommand] does after
    its [await]. *)
Definition fetchCryptoData (symbol : string) (w : World) : World :=
  let w := set_loading true w in
  let w := set_error None w in
  let w := set_speaking true w in
  let w := set_lastInteraction "crypto" w in
  match normalizeSymbol symbol with
  | None =>
      fetchCryptoData_catch symbol
        (ErrorObject ("Could not recognize cryptocurrency: " ++ symbol)) w
  | Some normalizedSymbol =>
      let w := call (fetchTicker normalizedSymbol) w in
      set_suspended (Some (AwaitTicker symbol normalizedSymbol)) w
  end.

(** [fetchCryptoData] after [fetchHistoricalPrices] has returned. *)
Definition fetchCryptoData_speak (normalizedSymbol : string) (data : TickerData)
    (w : World) : World :=
  let w := speakAnalysis (cryptoDataOf normalizedSymbol data) w in
  let w := set_loading false w in
  fetchCryptoData_returned w.

(** [fetchHistoricalPrices] from its entry to its [await]; [now] is the
    value of [Date.now()]. *)
Definition fetchHistoricalPrices (symbol : string) (now : Z)
    (normalizedSymbol : string) (data : TickerData) (w : World) : World :=
  match normalizeSymbol symbol with
  | None => fetchCryptoData_speak normalizedSymbol data w
  | Some historySymbol =>
      let endTime := now in
      let startTime := (endTime - 7 * 24 * 60 * 60 * 1000)%Z in
      let w := call (fetchKlines historySymbol startTime endTime) w in
      set_suspended (Some (AwaitKlines symbol normalizedSymbol data)) w
  end.

(** [fetchCryptoData] resumed when the ticker request settles. *)
Definition tickerSettled (symbol normalizedSymbol : string)
    (r : Settled TickerData) (now : Z) (w : World) : World :=
  match r with
  | Rejected err => fetchCryptoData_catch symbol err w
  | NotOk =>
      fetchCryptoData_catch symbol
        (ErrorObject ("Failed to fetch data for " ++ normalizedSymbol)) w
  | Body data =>
      let w := set_cryptoData (Some (cryptoDataOf normalizedSymbol data)) w in
      fetchHistoricalPrices symbol now normalizedSymbol data w
  end.

(** [fetchHistoricalPrices] resumed when the klines request settles: a
    failure is logged by its own [catch] and goes no further. *)
Definition klinesSettled (normalizedSymbol : string) (data : TickerData)
    (r : Settled (list Kline)) (w : World) : World :=
  let w :=
    match r with
    | Body rows =>
        let prices :=
          map (fun item => {| time := openTime item; price := parseFloat (close item) |}) rows in
        set_historicalPrices prices w
    | Rejected _ | NotOk =>
        call (consoleError "Error fetching historical price data:") w
    end in
  fetchCryptoData_speak normalizedSymbol data w.

(** The wake-word block of [processCommand]. *)
Definition wakeWord (lowerTranscript : string) (w : World) : World :=
  if Js.includes lowerTranscript "jarvis" then
    let w := set_wakeWordDetected true w in
    let w :=
      match wakeWordTimer w with
      | Some id =>
          let w := call (clearTimeout id) w in
          if decide (timeout w = Some id) then set_timeout None w else w
      | None => w
      end in
    let id := timerIds w in
    let w := call (setTimeout id) w in
    let w := set_timerIds (S id) w in
    let w := set_timeout (Some id) w in
    set_wakeWordTimer (Some id) w
  else w.

(** [SpeechRecognition.stopListening()] and [startListening(...)]. *)
Definition stopRecognition (w : World) : World :=
  set_recognizing false (call stopListening w).

Definition startRecognition (w : World) : World :=
  set_recognizing true (call startListening w).

(** [processCommand], up to its first [await] or to its end. *)
Definition processCommand (o : Oracle) (transcript : string) (w : World) : World :=
  let lowerTranscript := Js.toLowerCase transcript in
  let w := wakeWord lowerTranscript w in
  match branch lowerTranscript with
  | BConversation =>
      let w := handleConversation o lowerTranscript w in
      call resetTranscript w
  | BCrypto keyword =>
      let w := set_processingCommand true w in
      fetchCryptoData keyword w
  | BGreeting =>
      let w := set_processingCommand true w in
      let w := set_lastInteraction "conversation" w in
      let w := speakText Reply.hello w in
      call resetTranscript w
  | BThanks =>
      let w := set_processingCommand true w in
      let w := set_lastInteraction "conversation" w in
      let w := speakText Reply.welcome w in
      call resetTranscript w
  | BHelp =>
      let w := set_processingCommand true w in
      let w := set_lastInteraction "conversation" w in
      let w := speakText Reply.help w in
      call resetTranscript w
  | BStop =>
      let w := set_processingCommand true w in
      let w := set_lastInteraction "conversation" w in
      let w := set_autoListening false w in
      let w := stopRecognition w in
      let w := set_listening false w in
      let w := speakText Reply.stopped w in
      call resetTranscript w
  | BNone => w
  end.

(** [toggleListening] *)
Definition toggleListening (w : World) : World :=
  if listening w then
    let w := stopRecognition w in
    let w := set_listening false w in
    set_autoListening false w
  else
    let w := startRecognition w in
    let w := set_listening true w in
    let w := set_autoListening true w in
    call resetTranscript w.

(** The body of the effect that depends on [autoListening]. *)
Definition autoListeningEffect (w : World) : World :=
  if autoListening w && browserSupportsSpeechRecognition w then
    set_listening true (startRecognition w)
  else w.

(** After a handler has run React re-renders; if [autoListening] changed,
    the clean-up of that effect runs and then its body. *)
Definition rerender (previous : bool) (w : World) : World :=
  if Bool.eqb previous (autoListening w) then w
  else autoListeningEffect (stopRecognition w).

(** What can happen to the mounted component. *)
Inductive Event :=
  | Transcript (transcript : string) (o : Oracle) (* the command effect runs *)
  | TickerSettled (r : Settled TickerData) (now : Z)
  | KlinesSettled (r : Settled (list Kline))
  | SpeechEnd                                     (* [end] of the utterance *)
  | TimerFired                                    (* the 10 s timer elapses *)
  | Toggle.                                       (* the microphone button *)

(** One handler of the component runs.  [Transcript] is one run of the
    command effect on the transcript it finds; which transcript that is, and
    when the effect runs, is decided by the renders ([render] below). *)
Definition step (w : World) (e : Event) : World :=
  match e with
  | Transcript transcript o =>
      if negb (listening w) || negb (Js.truthy transcript) then w
      else if processingCommand w then w
      else rerender (autoListening w) (processCommand o transcript w)
  | TickerSettled r now =>
      match suspended w with
      | Some (AwaitTicker symbol normalizedSymbol) =>
          tickerSettled symbol normalizedSymbol r now w
      | _ => w
      end
  | KlinesSettled r =>
      match suspended w with
      | Some (AwaitKlines _ normalizedSymbol data) =>
          klinesSettled normalizedSymbol data r w
      | _ => w
      end
  | SpeechEnd =>
      match utterance w with
      | Some _ => onend w
      | None => w
      end
  | TimerFired =>
      match timeout w with
      | Some _ => set_wakeWordDetected false (set_timeout None w)
      | None => w
      end
  | Toggle =>
      (* the button is rendered only when recognition is supported *)
      if browserSupportsSpeechRecognition w
      then rerender (autoListening w) (toggleListening w)
      else w
  end.

Definition run (w : World) (es : list Event) : World := foldl step w es.

(** The component before its effects have run, and once mounted.  The
    effect that loads the voices reads [window.speechSynthesis] without a
    guard, so the component stays mounted only where [synthesis] is [true];
    worlds with [synthesis = false] are kept for the guard of [speakText]
    and only widen [reachable]. *)
Definition initial (synthesis recognition : bool) : World :=
  {| autoListening := true; listening := false; cryptoData := None;
     historicalPrices := []; loading := false; speaking := false; error := None;
     wakeWordDetected := false; lastInteraction := ""; wakeWordTimer := None;
     processingCommand := false; speechSynthesisInWindow := synthesis;
     browserSupportsSpeechRecognition := recognition; recognizing := false;
     utterance := None; timeout := None; timerIds := 0; suspended := None;
     calls := [] |}.

Definition mounted (synthesis recognition : bool) : World :=
  autoListeningEffect (initial synthesis recognition).

(** Worlds the mounted component can be in. *)
Inductive reachable : World -> Prop :=
  | reachable_mounted synthesis recognition :
      reachable (mounted synthesis recognition)
  | reachable_step w e : reachable w -> reachable (step w e).

(** A command is in flight: a request is outstanding or an utterance is
    being rendered. *)
Definition inFlight (w : World) : Prop :=
  suspended w <> None \/ utterance w <> None.

End Handlers.

(** ** A decimal implementation of the two built-ins *)

Module Host.

(** The number written by a string of decimal digits. *)
Fixpoint digitsValue (acc : N) (digits : string) : N :=
  match digits with
  | EmptyString => acc
  | String c rest => digitsValue (acc * 10 + N.of_nat (nat_of_ascii c - 48)) rest
  end.

(** The binary64 value nearest to [digits * 10 ^ scale], ties to even. *)
Definition roundDecimal (negative : bool) (digits : N) (scale : Z) : float :=
  match digits with
  | N0 => if negative then PrimFloat.neg_zero else PrimFloat.zero
  | Npos d =>
      SF2Prim
        match scale with
        | Z0 => binary_round prec emax negative d 0
        | Zpos k => binary_round prec emax negative (d * 10 ^ k) 0
        | Zneg k =>
            SFdiv prec emax (S754_finite negative d 0) (S754_finite false (10 ^ k) 0)
        end
  end.

(** The [ExponentPart] at the head of [s], if there is a complete one. *)
Definition exponentPart (s : string) : Z :=
  match s with
  | String c r =>
      if Ascii.eqb c "e" || Ascii.eqb c "E" then
        let '(negative, r) :=
          match r with
          | String "-" r' => (true, r')
          | String "+" r' => (false, r')
          | _ => (false, r)
          end in
        match Speech.spanDigits r with
        | (EmptyString, _) => 0%Z
        | (digits, _) =>
            let e := Z.of_N (digitsValue 0 digits) in
            if negative then (- e)%Z else e
        end
      else 0%Z
  | EmptyString => 0%Z
  end.

(** The global [parseFloat]: leading white space is skipped and the longest
    prefix that is a decimal literal is read; when there is none the result is
    [NaN]. *)
Definition parseFloat (s : string) : float :=
  let s := Js.trimStart s in
  let '(negative, s) :=
    match s with
    | String "-" r => (true, r)
    | String "+" r => (false, r)
    | _ => (false, s)
    end in
  if Js.startsWith s "Infinity" then
    if negative then neg_infinity else infinity
  else
    let '(whole, r1) := Speech.spanDigits s in
    let '(fraction, r2) :=
      match r1 with
      | String "." r => Speech.spanDigits r
      | _ => (EmptyString, r1)
      end in
    match whole ++ fraction with
    | EmptyString => nan
    | digits =>
        roundDecimal negative (digitsValue 0 digits)
          (exponentPart r2 - Z.of_nat (String.length fraction))
    end.

(** [Number.prototype.toFixed(2)] for magnitudes below [1e21]: the integer
    [n] nearest to a hundred times the exact value of the number, the larger
    one on a tie, written with a point before its last two digits.  (From
    [1e21] on JavaScript switches to exponent notation, which is not
    reproduced here.) *)
Definition toFixed2 (x : float) : string :=
  match Prim2SF x with
  | S754_nan => "NaN"
  | S754_infinity negative => if negative then "-Infinity" else "Infinity"
  | S754_zero _ => "0.00"
  | S754_finite negative m e =>
      let n :=
        match e with
        | Zneg k => ((200 * Zpos m + 2 ^ Zpos k) / 2 ^ (Zpos k + 1))%Z
        | _ => (100 * Zpos m * 2 ^ e)%Z
        end in
      let cents := Z.to_N (n mod 100) in
      (if negative then "-" else "") ++ pretty (Z.to_N (n / 100)) ++ "." ++
      (if (cents <? 10)%N then "0" else "") ++ pretty cents
  end.

End Host.

(** The built-ins as implemented above. *)
Definition decimal : Builtins :=
  {| parseFloat := Host.parseFloat; toFixed2 := Host.toFixed2 |}.

(** ** Invariants of the state machine and data for scenarios *)

(** Two worlds agree on what the single-flight argument is about. *)
Definition sameFlight (w' w : World) : Prop :=
  processingCommand w' = processingCommand w /\
  suspended w' = suspended w /\
  utterance w' = utterance w.

Definition sameMic (w' w : World) : Prop :=
  listening w' = listening w /\ autoListening w' = autoListening w.

(** What holds of every world the component can be in: with the flag down
    nothing is outstanding; an utterance is never rendered while a request
    is outstanding; and [listening] implies [autoListening]. *)
Definition invariant (w : World) : Prop :=
  (processingCommand w = false -> suspended w = None /\ utterance w = None) /\
  (suspended w = None \/ utterance w = None) /\
  (listening w = true -> autoListening w = true).

(** Sample inputs. *)
Definition oracle0 : Oracle :=
  {| random := 0; timeString := "9:41 AM"; dateString := "Monday, November 2, 2026" |}.

Definition btcTicker : TickerData :=
  {| t_priceChange := "500.00"; t_priceChangePercent := "0.77";
     t_lastPrice := "65000.00"; t_volume := "15000000";
     t_highPrice := "66000.00"; t_lowPrice := "64000.00" |}.

Definition ethTicker : TickerData :=
  {| t_priceChange := "-120.50"; t_priceChangePercent := "-5.25";
     t_lastPrice := "2174.75"; t_volume := "820000.5";
     t_highPrice := "2310.00"; t_lowPrice := "2150.25" |}.

Definition btcKlines : list Kline :=
  [ {| openTime := 1793491200000; close := "64500.10" |};
    {| openTime := 1793577600000; close := "65000.00" |} ].

(** A bitcoin query answered in full, followed by an ethereum query whose
    ticker request succeeds and whose klines request is refused. *)
Definition bitcoinThenEthereum : list Event :=
  [ Transcript "bitcoin" oracle0;
    TickerSettled (Body btcTicker) 1793600000000;
    KlinesSettled (Body btcKlines);
    SpeechEnd;
    Transcript "ethereum" oracle0;
    TickerSettled (Body ethTicker) 1793600100000;
    KlinesSettled NotOk ].

(** The world once the bitcoin query is over, and the world in which the
    ethereum query waits for its klines. *)
Definition afterBitcoin : World :=
  @run decimal (mounted true true) (take 4 bitcoinThenEthereum).

Definition awaitingKlines : World :=
  @run decimal (mounted true true) (take 6 bitcoinThenEthereum).

(** ** Voice selection: the [voices] block of [speakText] *)

Module Synth.

(** What the component reads of a [SpeechSynthesisVoice]. *)
Record Voice := {
  lang : string;
  name : string
}.

(** The predicate of [voices.filter]. *)
Definition english (voice : Voice) : bool :=
  Js.includes (lang voice) "en-" && negb (Js.includes (name voice) "Microsoft").

(** The predicate of [englishVoices.find]. *)
Definition google (voice : Voice) : bool := Js.includes (name voice) "Google".

(** The voice assigned to the utterance; [None] when the assignment is
    skipped and the engine keeps its default voice. *)
Definition selectVoice (voices : list Voice) : option Voice :=
  let englishVoices := List.filter english voices in
  match englishVoices with
  | [] => None
  | first :: _ =>
      match List.find google englishVoices with
      | Some googleVoice => Some googleVoice
      | None => Some first
      end
  end.

End Synth.

(** ** What is rendered: the conditions of the JSX *)

Module View.

(** A state cell holding an object or [null], used as a condition. *)
Definition present {A} (x : option A) : bool :=
  match x with Some _ => true | None => false end.

(** The early [return] of the unsupported-browser message. *)
Definition unsupported (w : World) : bool := negb (browserSupportsSpeechRecognition w).

(** The animation, shown while speaking. *)
Definition animation (w : World) : bool := speaking w.

(** The invitation to say a cryptocurrency name. *)
Definition invitation (w : World) : bool :=
  negb (speaking w) && negb (loading w) && negb (present (cryptoData w)) &&
  negb (String.eqb (lastInteraction w) "conversation").

(** The "Fetching data..." spinner. *)
Definition spinner (w : World) : bool := loading w.

(** The analysis card with the figures of the snapshot. *)
Definition analysis (w : World) : bool :=
  negb (speaking w) && negb (loading w) && present (cryptoData w) &&
  String.eqb (lastInteraction w) "crypto".

(** The 7-day chart, inside the analysis card. *)
Definition chart (w : World) : bool :=
  analysis w && (0 <? length (historicalPrices w))%nat.

(** The assistant card shown after a conversation. *)
Definition assistant (w : World) : bool :=
  negb (speaking w) && negb (loading w) &&
  String.eqb (lastInteraction w) "conversation" && negb (present (cryptoData w)).

(** The error banner: [error] is a string or [null]. *)
Definition banner (w : World) : bool :=
  match error w with Some message => Js.truthy message | None => false end.

(** The transcript box and the state of the microphone button. *)
Definition transcriptBox (w : World) : bool := listening w.

(** The "Wake word detected" label of the header. *)
Definition wakeLabel (w : World) : bool := wakeWordDetected w.

(** The label of the chart's data set. *)
Definition chartLabel (w : World) : string :=
  match cryptoData w with
  | Some data => Js.replaceFirst (symbol data) "USDT" "" ++ " Price (USD)"
  | None => "Price"
  end.

(** The points of the chart's data set. *)
Definition chartPoints (w : World) : list float := map price (historicalPrices w).

End View.

(** ** Further invariants of the state machine *)

(** The texts handed to [speechSynthesis.speak], oldest first. *)
Definition spoken (cs : list Call) : list string :=
  flat_map (fun c => match c with speechSpeak text => [text] | _ => [] end) cs.

(** The microphone state agrees with the recogniser. *)
Definition micInvariant (w : World) : Prop :=
  listening w = recognizing w /\
  (browserSupportsSpeechRecognition w = true -> autoListening w = listening w) /\
  (browserSupportsSpeechRecognition w = false -> listening w = false).

(** The spinner is on exactly while a request is outstanding, and whatever
    is in flight shows as speaking. *)
Definition busyInvariant (w : World) : Prop :=
  loading w = View.present (suspended w) /\
  (suspended w <> None -> speaking w = true /\ processingCommand w = true) /\
  (utterance w <> None -> speaking w = true /\ speechSynthesisInWindow w = true) /\
  (speechSynthesisInWindow w = true ->
   speaking w = processingCommand w /\
   (processingCommand w = true -> suspended w <> None \/ utterance w <> None)).

(** The wake-word label is on exactly while its timer is pending, and the
    pending timer is the one the ref cell holds. *)
Definition wakeInvariant (w : World) : Prop :=
  wakeWordDetected w = View.present (timeout w) /\
  (forall id, timeout w = Some id -> wakeWordTimer w = Some id /\ id < timerIds w) /\
  (forall id, wakeWordTimer w = Some id -> id < timerIds w).

(** The fields each of these invariants speaks of, and the two constants of
    the browser. *)
Definition micState (w : World) : bool * bool * bool :=
  (listening w, recognizing w, autoListening w).

Definition busyState (w : World) : bool * option Pending * bool * bool * option string :=
  (loading w, suspended w, speaking w, processingCommand w, utterance w).

Definition wakeState (w : World) : bool * option nat * option nat * nat :=
  (wakeWordDetected w, timeout w, wakeWordTimer w, timerIds w).

Definition hostState (w : World) : bool * bool :=
  (speechSynthesisInWindow w, browserSupportsSpeechRecognition w).

(** The two phases of a command that has been taken up. *)

(** An utterance is being rendered and it is the only one since [w0]. *)
Definition talking (w0 w1 : World) : Prop :=
  suspended w1 = None /\ is_Some (utterance w1) /\
  exists text, spoken (calls w1) = (spoken (calls w0) ++ [text])%list.

(** A request is outstanding and nothing has been said since [w0]. *)
Definition waiting (w0 w1 : World) : Prop :=
  is_Some (suspended w1) /\ utterance w1 = None /\
  spoken (calls w1) = spoken (calls w0).

(** What is awaited was resolved from the name that was said, and a
    snapshot, once stored, is the snapshot of a pair of the table. *)
Definition queryInvariant (w : World) : Prop :=
  (forall data, cryptoData w = Some data ->
     exists keyword, normalizeSymbol keyword = Some (symbol data)) /\
  match suspended w with
  | Some (AwaitTicker symbol normalizedSymbol) =>
      normalizeSymbol symbol = Some normalizedSymbol
  | Some (AwaitKlines symbol normalizedSymbol data) =>
      normalizeSymbol symbol = Some normalizedSymbol /\
      cryptoData w = Some (cryptoDataOf normalizedSymbol data)
  | None => True
  end.


(** ** The object literal as JavaScript reads it *)

(** The property names an object literal inherits from [Object.prototype]. *)
Definition objectPrototypeNames : list string :=
  [ "constructor"; "__defineGetter__"; "__defineSetter__"; "hasOwnProperty";
    "__lookupGetter__"; "__lookupSetter__"; "isPrototypeOf";
    "propertyIsEnumerable"; "toString"; "valueOf"; "__proto__";
    "toLocaleString" ].

(** What the read [symbolMap[key]] gives when it is not [undefined]: the
    string of an own property, or a member of the prototype (a function, or
    for [__proto__] the prototype object), which is not a string and is
    truthy. *)
Inductive Read :=
  | OwnValue (value : string)
  | Inherited (name : string).

(** [symbolMap[key]]: own properties first, then the prototype. *)
Definition symbolMapGet (key : string) : option Read :=
  match symbolMap !! key with
  | Some v => Some (OwnValue v)
  | None =>
      if bool_decide (key ∈ objectPrototypeNames) then Some (Inherited key) else None
  end.

(** [normalizeSymbol] with every value it can return:
    [symbolMap[normalizedInput] || null]. *)
Definition normalizeSymbolValue (input : string) : option Read :=
  let normalizedInput := Js.trim (Js.toLowerCase input) in
  match symbolMapGet normalizedInput with
  | Some (OwnValue v) => if Js.truthy v then Some (OwnValue v) else None
  | Some (Inherited name) => Some (Inherited name)
  | None => None
  end.

(** ** The component with the transcript of [useSpeechRecognition] *)

Module Hook.

(** The component state, the transcript held by the hook, and the values
    the dependencies of the command effect had at the last render:
    [transcript], [listening] and [wakeWordDetected] ([fetchCryptoData] and
    [resetTranscript] keep their identity from render to render). *)
Record Page := {
  world : World;
  transcript : string;
  rendered : string * bool * bool
}.

(** What happens to the mounted component from outside. *)
Inductive Input :=
  | Heard (transcript : string)        (* the recogniser changes [transcript] *)
  | TickerBack (r : Settled TickerData) (now : Z)
  | KlinesBack (r : Settled (list Kline))
  | UtteranceEnd
  | TimerElapsed
  | ButtonPressed.

End Hook.

Section Component.

Context `{Builtins}.

(** The dependency values of the command effect in the current state. *)
Definition dependencies (p : Hook.Page) : string * bool * bool :=
  (Hook.transcript p, listening (Hook.world p), wakeWordDetected (Hook.world p)).

Definition isReset (c : Call) : bool :=
  match c with resetTranscript => true | _ => false end.

(** [resetTranscript] was called between two worlds. *)
Definition resetCalled (before after : World) : bool :=
  existsb isReset (drop (length (calls before)) (calls after)).

(** One handler runs on the page: the world takes a [step], and a call of
    [resetTranscript] empties the transcript of the hook. *)
Definition handle (e : Event) (p : Hook.Page) : Hook.Page :=
  let w := step (Hook.world p) e in
  {| Hook.world := w;
     Hook.transcript := if resetCalled (Hook.world p) w then "" else Hook.transcript p;
     Hook.rendered := Hook.rendered p |}.

(** The command effect runs on the transcript the hook holds. *)
Definition commandEffect (o : Oracle) (p : Hook.Page) : Hook.Page :=
  handle (Transcript (Hook.transcript p) o) p.

(** The page once rendered with the current dependency values. *)
Definition markRendered (p : Hook.Page) : Hook.Page :=
  {| Hook.world := Hook.world p; Hook.transcript := Hook.transcript p;
     Hook.rendered := dependencies p |}.

(** React renders after a change of state: the command effect runs when one
    of its dependencies differs from the last render, and what it changes is
    rendered in turn. *)
Fixpoint render (fuel : nat) (o : Oracle) (p : Hook.Page) : Hook.Page :=
  if decide (dependencies p = Hook.rendered p) then p
  else
    match fuel with
    | O => p
    | S fuel => render fuel o (commandEffect o (markRendered p))
    end.

(** Three renders are enough for the page to settle ([render_settles]). *)
Definition renders : nat := 3.

(** The handler an input runs, if it runs one. *)
Definition handlerOf (i : Hook.Input) : option Event :=
  match i with
  | Hook.Heard _ => None
  | Hook.TickerBack r now => Some (TickerSettled r now)
  | Hook.KlinesBack r => Some (KlinesSettled r)
  | Hook.UtteranceEnd => Some SpeechEnd
  | Hook.TimerElapsed => Some TimerFired
  | Hook.ButtonPressed => Some Toggle
  end.

(** One input and the renders that follow it; [o] is what the effect draws
    from the environment if it takes up a command. *)
Definition happen (p : Hook.Page) (io : Hook.Input * Oracle) : Hook.Page :=
  render renders io.2
    match io.1 with
    | Hook.Heard transcript =>
        {| Hook.world := Hook.world p; Hook.transcript := transcript;
           Hook.rendered := Hook.rendered p |}
    | i =>
        match handlerOf i with
        | Some e => handle e p
        | None => p
        end
    end.

Definition play (p : Hook.Page) (ios : list (Hook.Input * Oracle)) : Hook.Page :=
  foldl happen p ios.

(** The mounted page: the effects of the first renders have run, the
    command effect returning at once on the empty transcript. *)
Definition mountedPage (synthesis recognition : bool) : Hook.Page :=
  {| Hook.world := mounted synthesis recognition;
     Hook.transcript := "";
     Hook.rendered := ("", listening (mounted synthesis recognition), false) |}.

(** Pages the mounted component can be in. *)
Inductive reachablePage : Hook.Page -> Prop :=
  | reachablePage_mounted synthesis recognition :
      reachablePage (mountedPage synthesis recognition)
  | reachablePage_happen p io : reachablePage p -> reachablePage (happen p io).

End Component.

(** A reply is spoken; while it is spoken a query is heard; the reply ends;
    the wake-word timer elapses. *)
Definition thanksThenBitcoin : list (Hook.Input * Oracle) :=
  [ (Hook.Heard "thanks jarvis", oracle0);
    (Hook.Heard "bitcoin", oracle0);
    (Hook.UtteranceEnd, oracle0);
    (Hook.TimerElapsed, oracle0) ].

(** * Properties *)

Local Open Scope list_scope.

(** ** Primitives on sample inputs *)

Example toLowerCase_sample : Js.toLowerCase "How Are YOU Bitcoin?" = "how are you bitcoin?".
Proof. reflexivity. Qed.

Example trim_sample : Js.trim "  shiba inu " = "shiba inu".
Proof. reflexivity. Qed.

Example replaceFirst_sample : Js.replaceFirst "DOGEUSDT" "USDT" "" = "DOGE".
Proof. reflexivity. Qed.

Example float_compare : PrimFloat.ltb (PrimFloat.abs (-0.25)%float) 0.5%float = true.
Proof. reflexivity. Qed.

Example classify_samples :
  classify "How are you Bitcoin" = Some (Conversational Wellbeing) /\
  classify "what's up with doge" = Some (CryptoQuery "doge") /\
  classify "Hello Jarvis" = Some (Conversational Greeting) /\
  classify "thanks a lot" = Some (Conversational Thanks) /\
  classify "I need help" = Some (Conversational Help) /\
  classify "please stop listening" = Some StopListening.
Proof. repeat split. Qed.

Example normalizeSymbol_trims : normalizeSymbol " DogeCoin " = Some "DOGEUSDT".
Proof. vm_compute. reflexivity. Qed.

(** ** The cascade *)

Lemma find_first {A} (p : A -> bool) (l : list A) (x : A) :
  List.find p l = Some x ->
  exists pre post, l = pre ++ x :: post /\ p x = true /\ Forall (fun y => p y = false) pre.
Proof.
  induction l as [|a l IH]; simpl; [discriminate|].
  destruct (p a) eqn:Ha.
  - intros [= <-]. exists [], l. auto.
  - intros Hx. destruct (IH Hx) as (pre & post & -> & Hp & Hpre).
    exists (a :: pre), post. auto.
Qed.

Lemma find_is_Some {A} (p : A -> bool) (l : list A) (x : A) :
  x ∈ l -> p x = true -> is_Some (List.find p l).
Proof.
  intros Hin Hp. destruct (List.find p l) eqn:Hf; [eauto|].
  apply list_elem_of_In in Hin.
  pose proof (find_none p l Hf x Hin). congruence.
Qed.

Lemma symbolEntries_keys : symbolEntries.*1 = cryptoKeywords.
Proof. reflexivity. Qed.

(** Every keyword of the scan is a key of [symbolMap]. *)
Lemma keyword_resolves (keyword : string) :
  keyword ∈ cryptoKeywords ->
  exists normalizedSymbol,
    normalizeSymbol keyword = Some normalizedSymbol /\
    (keyword, normalizedSymbol) ∈ symbolEntries.
Proof.
  unfold cryptoKeywords. rewrite !elem_of_cons, elem_of_nil.
  intros H. repeat (destruct H as [->|H]; [eexists; split; [vm_compute; reflexivity|repeat constructor]|]).
  destruct H.
Qed.

Lemma lower_char_idem (c : ascii) : Js.lower_char (Js.lower_char c) = Js.lower_char c.
Proof. destruct c as [[] [] [] [] [] [] [] []]; reflexivity. Qed.

Lemma toLowerCase_idem (s : string) :
  Js.toLowerCase (Js.toLowerCase s) = Js.toLowerCase s.
Proof. induction s as [|c s IH]; simpl; [reflexivity|]. by rewrite lower_char_idem, IH. Qed.

(** The first test of [processCommand] is the disjunction over its phrases. *)
Lemma conversationQuery_existsb (lt : string) :
  conversationQuery lt = existsb (Js.includes lt) conversationKeywords.
Proof.
  unfold conversationQuery, conversationKeywords, existsb.
  rewrite orb_false_r, !orb_assoc. reflexivity.
Qed.

Lemma conversationQuery_true (lt phrase : string) :
  phrase ∈ conversationKeywords -> Js.includes lt phrase = true ->
  conversationQuery lt = true.
Proof.
  intros Hin Hp. rewrite conversationQuery_existsb. apply existsb_exists.
  exists phrase. split; [by apply list_elem_of_In|done].
Qed.

Lemma conversationQuery_false (lt : string) :
  conversationQuery lt = false <->
  forall phrase, phrase ∈ conversationKeywords -> Js.includes lt phrase = false.
Proof.
  split.
  - intros Hq phrase Hin. destruct (Js.includes lt phrase) eqn:Hp; [|done].
    by rewrite (conversationQuery_true lt phrase) in Hq.
  - intros H. rewrite conversationQuery_existsb.
    destruct (existsb _ _) eqn:He; [|done].
    apply existsb_exists in He as (phrase & Hin & Hp).
    apply list_elem_of_In in Hin. by rewrite (H phrase Hin) in Hp.
Qed.

(** Every phrase that opens the gate is also a phrase of one of the
    branches of [handleConversation]. *)
Lemma gate_covered (lt : string) :
  conversationQuery lt = true ->
  Conv.identity lt || Conv.wellbeing lt || Conv.capabilities lt || Conv.timeDate lt
  || Conv.weather lt || Conv.joke lt || Conv.farewell lt = true.
Proof.
  rewrite conversationQuery_existsb. intros He.
  apply existsb_exists in He as (phrase & Hin & Hp).
  apply list_elem_of_In in Hin. unfold conversationKeywords in Hin.
  rewrite !elem_of_cons, elem_of_nil in Hin.
  unfold Conv.identity, Conv.wellbeing, Conv.capabilities, Conv.timeDate,
    Conv.weather, Conv.joke, Conv.farewell.
  repeat (destruct Hin as [->|Hin];
          [rewrite Hp; rewrite ?orb_true_r, ?orb_true_l; reflexivity|]).
  destruct Hin.
Qed.

Lemma gate_topic (lt : string) :
  conversationQuery lt = true ->
  Conv.topic lt ∈ [Identity; Wellbeing; Capabilities; TimeDate; Weather; Joke; Thanks; Farewell].
Proof.
  intros Hq. apply gate_covered in Hq. unfold Conv.topic.
  destruct (Conv.identity lt), (Conv.wellbeing lt), (Conv.capabilities lt),
    (Conv.timeDate lt), (Conv.weather lt), (Conv.joke lt), (Conv.thanks lt),
    (Conv.farewell lt); try discriminate Hq; repeat constructor.
Qed.

Lemma classify_conversation (transcript : string) :
  conversationQuery (Js.toLowerCase transcript) = true ->
  classify transcript = Some (Conversational (Conv.topic (Js.toLowerCase transcript))).
Proof.
  intros Hq. unfold classify, branch. by rewrite Hq, toLowerCase_idem.
Qed.

Lemma classify_crypto (transcript keyword : string) :
  conversationQuery (Js.toLowerCase transcript) = false ->
  firstKeyword (Js.toLowerCase transcript) = Some keyword ->
  classify transcript = Some (CryptoQuery keyword).
Proof. intros Hq Hk. unfold classify, branch. by rewrite Hq, Hk. Qed.

(** X27. When the transcript contains a crypto alias and none of the
    phrases tested before the aliases, [processCommand] takes the crypto
    branch once, for the first keyword of [cryptoKeywords] (in array order,
    wherever it stands in the transcript) that the transcript includes; that
    keyword resolves to its market pair, which is the one requested. *)
Theorem alias_selected (transcript alias : string) (o : Oracle) (w : World) :
  let lowerTranscript := Js.toLowerCase transcript in
  alias ∈ cryptoKeywords ->
  Js.includes lowerTranscript alias = true ->
  conversationQuery lowerTranscript = false ->
  exists keyword normalizedSymbol pre post,
    cryptoKeywords = pre ++ keyword :: post /\
    Js.includes lowerTranscript keyword = true /\
    Forall (fun k => Js.includes lowerTranscript k = false) pre /\
    classify transcript = Some (CryptoQuery keyword) /\
    normalizeSymbol keyword = Some normalizedSymbol /\
    (keyword, normalizedSymbol) ∈ symbolEntries /\
    calls (processCommand o transcript w) =
      calls (wakeWord lowerTranscript w) ++ [fetchTicker normalizedSymbol] /\
    suspended (processCommand o transcript w) =
      Some (AwaitTicker keyword normalizedSymbol).
Proof.
  cbv zeta. intros Hin Hinc Hq.
  destruct (find_is_Some (fun k => Js.includes (Js.toLowerCase transcript) k)
              cryptoKeywords alias Hin Hinc) as [keyword Hk].
  change (firstKeyword (Js.toLowerCase transcript) = Some keyword) in Hk.
  destruct (find_first _ _ _ Hk) as (pre & post & Hsplit & Hkw & Hpre).
  assert (Hmem : keyword ∈ cryptoKeywords).
  { rewrite Hsplit, elem_of_app, elem_of_cons. auto. }
  destruct (keyword_resolves keyword Hmem) as (ns & Hns & Hentry).
  assert (Hrun : processCommand o transcript w =
                 fetchCryptoData keyword
                   (set_processingCommand true (wakeWord (Js.toLowerCase transcript) w))).
  { unfold processCommand, branch. by rewrite Hq, Hk. }
  exists keyword, ns, pre, post.
  repeat split; try done.
  - by apply classify_crypto.
  - rewrite Hrun. unfold fetchCryptoData. by rewrite Hns.
  - rewrite Hrun. unfold fetchCryptoData. by rewrite Hns.
Qed.

Lemma alias_selected_witness :
  ("ethereum" ∈ cryptoKeywords) /\
  Js.includes (Js.toLowerCase "Ethereum or Bitcoin") "ethereum" = true /\
  conversationQuery (Js.toLowerCase "Ethereum or Bitcoin") = false /\
  (exists keyword normalizedSymbol pre post,
      cryptoKeywords = pre ++ keyword :: post /\
      Js.includes (Js.toLowerCase "Ethereum or Bitcoin") keyword = true /\
      Forall (fun k => Js.includes (Js.toLowerCase "Ethereum or Bitcoin") k = false) pre /\
      classify "Ethereum or Bitcoin" = Some (CryptoQuery keyword) /\
      normalizeSymbol keyword = Some normalizedSymbol /\
      (keyword, normalizedSymbol) ∈ symbolEntries /\
      calls (processCommand oracle0 "Ethereum or Bitcoin" (mounted true true)) =
        calls (wakeWord (Js.toLowerCase "Ethereum or Bitcoin") (mounted true true)) ++
        [fetchTicker normalizedSymbol] /\
      suspended (processCommand oracle0 "Ethereum or Bitcoin" (mounted true true)) =
        Some (AwaitTicker keyword normalizedSymbol)).
Proof.
  assert (H1 : "ethereum" ∈ cryptoKeywords)
    by (apply (bool_decide_unpack _); vm_compute; exact I).
  assert (H2 : Js.includes (Js.toLowerCase "Ethereum or Bitcoin") "ethereum" = true)
    by reflexivity.
  assert (H3 : conversationQuery (Js.toLowerCase "Ethereum or Bitcoin") = false)
    by reflexivity.
  do 3 (split; [assumption|]).
  exact (alias_selected "Ethereum or Bitcoin" "ethereum" oracle0
           (mounted true true) H1 H2 H3).
Defined.


(** The scan order decides, not the position in the transcript; and the
    scenario of the resolver. *)
Example alias_order : classify "Ethereum or Bitcoin" = Some (CryptoQuery "bitcoin").
Proof. reflexivity. Qed.

Example resolve_dogecoin : normalizeSymbol "dogecoin" = Some "DOGEUSDT".
Proof. vm_compute. reflexivity. Qed.

Example resolve_moonrocket : normalizeSymbol "moonrocket" = None.
Proof. vm_compute. reflexivity. Qed.

(** C2, as stated, fails: "thanks" is a keyword of the thanks intent and
    "bitcoin" is an alias, yet the transcript is answered by the crypto
    branch, because the thanks, greeting and help tests of [processCommand]
    come after the keyword scan. *)
Lemma priority_counterexample :
  Conv.thanks (Js.toLowerCase "thanks bitcoin") = true /\
  thanksCommand (Js.toLowerCase "thanks bitcoin") = true /\
  ("bitcoin" ∈ cryptoKeywords) /\
  Js.includes (Js.toLowerCase "thanks bitcoin") "bitcoin" = true /\
  classify "thanks bitcoin" = Some (CryptoQuery "bitcoin") /\
  classify "hello bitcoin" = Some (CryptoQuery "bitcoin") /\
  classify "help me with bitcoin" = Some (CryptoQuery "bitcoin").
Proof.
  repeat split; try reflexivity. apply (bool_decide_unpack _). vm_compute. exact I.
Qed.

(** C2, amended. A transcript that contains an alias and one of the thirteen
    phrases of the first test of [processCommand] is answered by
    [handleConversation], on one of its eight topics, and not by the crypto
    branch.  When it contains an alias and none of those phrases it is
    answered by the crypto branch, whether or not it also contains a
    greeting, thanks or help keyword. *)
Theorem conversation_priority (transcript alias : string) :
  let lowerTranscript := Js.toLowerCase transcript in
  alias ∈ cryptoKeywords ->
  Js.includes lowerTranscript alias = true ->
  (forall phrase,
      phrase ∈ conversationKeywords ->
      Js.includes lowerTranscript phrase = true ->
      classify transcript = Some (Conversational (Conv.topic lowerTranscript)) /\
      Conv.topic lowerTranscript ∈
        [Identity; Wellbeing; Capabilities; TimeDate; Weather; Joke; Thanks; Farewell]) /\
  ((forall phrase,
       phrase ∈ conversationKeywords -> Js.includes lowerTranscript phrase = false) ->
   exists keyword,
     keyword ∈ cryptoKeywords /\ classify transcript = Some (CryptoQuery keyword)).
Proof.
  cbv zeta. intros Hin Hinc. split.
  - intros phrase Hp Hpi.
    pose proof (conversationQuery_true _ _ Hp Hpi) as Hq.
    split; [by apply classify_conversation|by apply gate_topic].
  - intros Hnone. apply conversationQuery_false in Hnone.
    destruct (find_is_Some (fun k => Js.includes (Js.toLowerCase transcript) k)
                cryptoKeywords alias Hin Hinc) as [keyword Hk].
    exists keyword. split.
    + apply find_some in Hk as [Hk _]. by apply list_elem_of_In.
    + by apply classify_crypto.
Qed.

Lemma conversation_priority_witness :
  ("bitcoin" ∈ cryptoKeywords) /\
  Js.includes (Js.toLowerCase "How are you Bitcoin") "bitcoin" = true /\
  ((forall phrase,
       phrase ∈ conversationKeywords ->
       Js.includes (Js.toLowerCase "How are you Bitcoin") phrase = true ->
       classify "How are you Bitcoin" =
         Some (Conversational (Conv.topic (Js.toLowerCase "How are you Bitcoin"))) /\
       Conv.topic (Js.toLowerCase "How are you Bitcoin") ∈
         [Identity; Wellbeing; Capabilities; TimeDate; Weather; Joke; Thanks; Farewell]) /\
   ((forall phrase,
        phrase ∈ conversationKeywords ->
        Js.includes (Js.toLowerCase "How are you Bitcoin") phrase = false) ->
    exists keyword,
      keyword ∈ cryptoKeywords /\
      classify "How are you Bitcoin" = Some (CryptoQuery keyword))).
Proof.
  assert (H1 : "bitcoin" ∈ cryptoKeywords)
    by (apply (bool_decide_unpack _); vm_compute; exact I).
  assert (H2 : Js.includes (Js.toLowerCase "How are you Bitcoin") "bitcoin" = true)
    by reflexivity.
  do 2 (split; [assumption|]).
  exact (conversation_priority "How are you Bitcoin" "bitcoin" H1 H2).
Defined.

Example priority_scenario :
  classify "how are you bitcoin" = Some (Conversational Wellbeing).
Proof. reflexivity. Qed.

(** C3, as stated, fails: no phrase, alias or command keyword occurs in
    "banana", and nothing is dispatched for it: no reply is spoken and the
    world is left as it was. *)
Lemma catch_all_counterexample :
  conversationQuery "banana" = false /\
  firstKeyword "banana" = None /\
  stopCommand "banana" = false /\
  classify "banana" = None /\
  (forall o w, processCommand o "banana" w = w).
Proof. repeat split. Qed.

Lemma firstKeyword_None (lt : string) :
  firstKeyword lt = None <->
  forall alias, alias ∈ cryptoKeywords -> Js.includes lt alias = false.
Proof.
  split.
  - intros Hf alias Hin. apply list_elem_of_In in Hin.
    exact (find_none _ _ Hf alias Hin).
  - intros H. destruct (firstKeyword lt) eqn:Hf; [|done].
    apply find_some in Hf as [Hin Hp]. apply list_elem_of_In in Hin.
    by rewrite (H _ Hin) in Hp.
Qed.

Lemma classify_not_unrecognized (transcript : string) :
  classify transcript <> Some (Conversational Unrecognized).
Proof.
  unfold classify.
  destruct (branch (Js.toLowerCase transcript)) eqn:Hb; try discriminate.
  unfold branch in Hb.
  destruct (conversationQuery (Js.toLowerCase transcript)) eqn:Hq.
  - rewrite toLowerCase_idem. apply gate_topic in Hq.
    intros [= Ht]. rewrite Ht in Hq.
    rewrite !elem_of_cons, elem_of_nil in Hq. intuition discriminate.
  - destruct (firstKeyword _); [discriminate|].
    repeat (match type of Hb with (if ?c then _ else _) = _ => destruct c end;
            try discriminate).
Qed.

(** C3, amended. Classification is a function of the transcript alone and
    yields at most one command.  When no phrase of the first test, no alias,
    no greeting, thanks or help keyword and no stop phrase occurs, nothing is
    dispatched: [processCommand] only does its wake-word bookkeeping, says
    nothing and leaves the processing flag alone.  The reply for
    unrecognised text is never what the classification yields. *)
Theorem no_match_no_command (transcript : string) (o : Oracle) (w : World) :
  let lowerTranscript := Js.toLowerCase transcript in
  (forall phrase,
      phrase ∈ conversationKeywords -> Js.includes lowerTranscript phrase = false) ->
  (forall alias,
      alias ∈ cryptoKeywords -> Js.includes lowerTranscript alias = false) ->
  greetingCommand lowerTranscript = false ->
  thanksCommand lowerTranscript = false ->
  helpCommand lowerTranscript = false ->
  stopCommand lowerTranscript = false ->
  classify transcript = None /\
  processCommand o transcript w = wakeWord lowerTranscript w /\
  (forall t, classify t <> Some (Conversational Unrecognized)).
Proof.
  cbv zeta. intros Hq Hk Hg Ht Hh Hs.
  apply conversationQuery_false in Hq. apply firstKeyword_None in Hk.
  assert (Hb : branch (Js.toLowerCase transcript) = BNone).
  { unfold branch. by rewrite Hq, Hk, Hg, Ht, Hh, Hs. }
  split; [|split].
  - unfold classify. by rewrite Hb.
  - unfold processCommand. by rewrite Hb.
  - apply classify_not_unrecognized.
Qed.

Lemma no_match_no_command_witness :
  (forall phrase,
      phrase ∈ conversationKeywords ->
      Js.includes (Js.toLowerCase "banana") phrase = false) /\
  (forall alias,
      alias ∈ cryptoKeywords -> Js.includes (Js.toLowerCase "banana") alias = false) /\
  greetingCommand (Js.toLowerCase "banana") = false /\
  thanksCommand (Js.toLowerCase "banana") = false /\
  helpCommand (Js.toLowerCase "banana") = false /\
  stopCommand (Js.toLowerCase "banana") = false /\
  (classify "banana" = None /\
   processCommand oracle0 "banana" (mounted true true) =
     wakeWord (Js.toLowerCase "banana") (mounted true true) /\
   (forall t, classify t <> Some (Conversational Unrecognized))).
Proof.
  assert (H1 : forall phrase,
             phrase ∈ conversationKeywords ->
             Js.includes (Js.toLowerCase "banana") phrase = false).
  { intros phrase Hin. apply conversationQuery_false; [reflexivity|exact Hin]. }
  assert (H2 : forall alias,
             alias ∈ cryptoKeywords ->
             Js.includes (Js.toLowerCase "banana") alias = false).
  { intros alias Hin. apply firstKeyword_None; [reflexivity|exact Hin]. }
  do 6 (split; [assumption || reflexivity|]).
  exact (no_match_no_command "banana" oracle0 (mounted true true)
           H1 H2 eq_refl eq_refl eq_refl eq_refl).
Defined.

(** ** Market analysis *)

Local Open Scope float_scope.

(** C4, as stated, fails: with a positive percent change whose magnitude is
    at least one half and a negative absolute price change, the trend is
    "downward" and the sentiment "negative". *)
Lemma trend_counterexample :
  (0 <? 2) = true /\ (abs 2 <? 0.5) = false /\
  trendOf (-1) 2 = "downward" /\ sentimentOf (-1) 2 = "negative".
Proof. repeat split. Qed.

(** C4, amended. The direction is read from the sign of the absolute price
    change: "upward" and "positive" when it is greater than zero, "downward"
    and "negative" otherwise; the percent change is used for the stability
    test only, which overrides both to "relatively stable" and "neutral"
    exactly when its magnitude is below one half. *)
Theorem trend_and_sentiment (priceChangeNum priceChangePercentNum : float) :
  (trendOf priceChangeNum priceChangePercentNum = "relatively stable" <->
   (abs priceChangePercentNum <? 0.5) = true) /\
  (sentimentOf priceChangeNum priceChangePercentNum = "neutral" <->
   (abs priceChangePercentNum <? 0.5) = true) /\
  (trendOf priceChangeNum priceChangePercentNum = "upward" <->
   (abs priceChangePercentNum <? 0.5) = false /\ (0 <? priceChangeNum) = true) /\
  (sentimentOf priceChangeNum priceChangePercentNum = "positive" <->
   (abs priceChangePercentNum <? 0.5) = false /\ (0 <? priceChangeNum) = true) /\
  (trendOf priceChangeNum priceChangePercentNum = "downward" <->
   (abs priceChangePercentNum <? 0.5) = false /\ (0 <? priceChangeNum) = false) /\
  (sentimentOf priceChangeNum priceChangePercentNum = "negative" <->
   (abs priceChangePercentNum <? 0.5) = false /\ (0 <? priceChangeNum) = false).
Proof.
  unfold trendOf, sentimentOf.
  destruct (abs priceChangePercentNum <? 0.5), (0 <? priceChangeNum);
    repeat split; intros; try discriminate; try tauto; intuition discriminate.
Qed.

(** C5. Both thresholds are strict.  At a percent change of exactly one half,
    of either sign, the stability override does not apply and the direction
    comes from the sign test; at exactly five, of either sign, neither of the
    two strong-movement sentences is chosen: the advice is the consolidation
    sentence for a stable trend and the generic one otherwise. *)
Theorem thresholds_strict (priceChangeNum : float) (trend : string) :
  trendOf priceChangeNum 0.5 <> "relatively stable" /\
  trendOf priceChangeNum (-0.5) <> "relatively stable" /\
  sentimentOf priceChangeNum 0.5 <> "neutral" /\
  sentimentOf priceChangeNum (-0.5) <> "neutral" /\
  trendOf priceChangeNum 0.5 = (if 0 <? priceChangeNum then "upward" else "downward") /\
  trendOf priceChangeNum (-0.5) = (if 0 <? priceChangeNum then "upward" else "downward") /\
  generateAdvice 5 trend <> adviceSignificantUp /\
  generateAdvice 5 trend <> adviceSignificantDown /\
  generateAdvice (-5) trend <> adviceSignificantUp /\
  generateAdvice (-5) trend <> adviceSignificantDown /\
  generateAdvice 5 trend =
    (if String.eqb trend "relatively stable" then adviceConsolidating else adviceGeneric) /\
  generateAdvice (-5) trend =
    (if String.eqb trend "relatively stable" then adviceConsolidating else adviceGeneric) /\
  generateAdvice 5 (trendOf priceChangeNum 5) = adviceGeneric /\
  generateAdvice (-5) (trendOf priceChangeNum (-5)) = adviceGeneric.
Proof.
  assert (H1 : (abs 0.5 <? 0.5) = false) by reflexivity.
  assert (H2 : (abs (-0.5) <? 0.5) = false) by reflexivity.
  assert (H3 : (5 <? abs 5) = false) by reflexivity.
  assert (H4 : (5 <? abs (-5)) = false) by reflexivity.
  assert (H5 : (abs 5 <? 0.5) = false) by reflexivity.
  assert (H6 : (abs (-5) <? 0.5) = false) by reflexivity.
  unfold trendOf, sentimentOf, generateAdvice.
  rewrite H1, H2, H3, H4, H5, H6.
  destruct (0 <? priceChangeNum), (String.eqb trend "relatively stable");
    repeat split; discriminate.
Qed.

Example thresholds_inside :
  trendOf 1 0.25 = "relatively stable" /\
  generateAdvice 5.5 "upward" = adviceSignificantUp /\
  generateAdvice (-5.5) "downward" = adviceSignificantDown.
Proof. repeat split. Qed.

Local Close Scope float_scope.

(** ** Speech text *)

Lemma all_app (p : ascii -> bool) (s t : string) :
  Js.all p (s ++ t)%string = Js.all p s && Js.all p t.
Proof. induction s as [|c s IH]; simpl; [done|]. by rewrite IH, andb_assoc. Qed.

Lemma spanDigits_all (s : string) : Js.all Js.is_digit (Speech.spanDigits s).1 = true.
Proof.
  induction s as [|c s IH]; simpl; [done|].
  destruct (Js.is_digit c) eqn:Hc; [|done].
  destruct (Speech.spanDigits s) as [d r]. simpl in *. by rewrite Hc, IH.
Qed.

Lemma all_weaken (p q : ascii -> bool) (s : string) :
  (forall c, p c = true -> q c = true) -> Js.all p s = true -> Js.all q s = true.
Proof.
  intros Hpq. induction s as [|c s IH]; simpl; [done|].
  intros [Hc Hs]%andb_true_iff. by rewrite (Hpq c Hc), IH.
Qed.

Lemma includes_char_absent (c : ascii) (s : string) :
  Js.all (fun a => negb (Ascii.eqb c a)) s = true ->
  Js.includes s (String c EmptyString) = false.
Proof.
  induction s as [|a s IH]; simpl; [done|].
  intros [Ha Hs]%andb_true_iff. apply negb_true_iff in Ha.
  rewrite Ha. simpl. by apply IH.
Qed.

(** The text matched by the decimal pattern never holds a dollar sign: the
    first test of the replacer is always false. *)
Lemma match_without_dollar (s whole decimal : string) :
  Speech.matchDecimal s = Some (whole, decimal) ->
  Js.includes (whole ++ "." ++ decimal)%string "$" = false.
Proof.
  unfold Speech.matchDecimal. intros Hm.
  pose proof (spanDigits_all s) as Hw.
  destruct (Speech.spanDigits s) as [w r]. simpl in Hw.
  destruct w as [|c w]; [discriminate|].
  destruct r as [|dot r]; [discriminate|].
  destruct (Ascii.eqb dot ".") eqn:Hdot.
  - apply Ascii.eqb_eq in Hdot as ->.
    pose proof (spanDigits_all r) as Hd.
    destruct (Speech.spanDigits r) as [d r']. simpl in Hd.
    destruct d as [|c' d]; [discriminate|].
    injection Hm as <- <-.
    apply includes_char_absent. rewrite !all_app, !andb_true_iff.
    assert (Hnd : forall a, Js.is_digit a = true -> negb (Ascii.eqb "$" a) = true).
    { intros a. destruct a as [[] [] [] [] [] [] [] []]; done. }
    split; [|split]; [by apply (all_weaken Js.is_digit)|done|by apply (all_weaken Js.is_digit)].
  - destruct dot as [[] [] [] [] [] [] [] []]; try discriminate Hm; discriminate Hdot.
Qed.

(** C6. The rewriting steps are applied in the order dollar sign, percent
    sign, decimals, newlines, white space; but "$12.50" comes out as the
    plain reading of the number, not as dollars and cents: when the decimal
    rule runs the dollar sign is gone from the string, the matched text
    never holds one, and the argument of [speakText] holds neither "price"
    nor "dollar". *)
Theorem price_reading :
  Speech.formatText "$12.50" =
    Speech.collapseSpaces false
      (Speech.replaceNewline
         (Speech.replaceDecimals "$12.50"
            (Speech.replacePercent (Speech.replaceDollar "$12.50")))) /\
  Speech.replaceDollar "$12.50" = " dollars 12.50"%string /\
  Speech.formatText "$12.50" = " dollars 12 point 50"%string /\
  Js.includes (Speech.formatText "$12.50") "12 dollars and 50 cents" = false /\
  (forall s whole decimal,
      Speech.matchDecimal s = Some (whole, decimal) ->
      Js.includes (whole ++ "." ++ decimal)%string "$" = false).
Proof.
  split; [reflexivity|]. split; [reflexivity|]. split; [reflexivity|].
  split; [reflexivity|]. exact match_without_dollar.
Qed.

(** The monetary reading is taken when the text itself says "price" or
    "dollar", and then for every number in it. *)
Example price_reading_steps :
  Speech.matchDecimal "12.50" = Some ("12", "50")%string /\
  Speech.decimalReplacer "$12.50" "12" "50" = "12 point 50"%string /\
  Speech.formatText "the price is $12.50" =
    "the price is dollars 12 dollars and 50 cents"%string /\
  Speech.formatText "12.50 dollars, up 3.5%" =
    "12 dollars and 50 cents dollars, up 3 dollars and 5 cents percent "%string.
Proof. repeat split. Qed.

(** ** The state machine *)

Arguments Speech.formatText : simpl never.

Section Orchestrator.

Context `{Builtins}.

Lemma wakeWord_frame (lt : string) (w : World) :
  sameFlight (wakeWord lt w) w /\ sameMic (wakeWord lt w) w.
Proof.
  unfold wakeWord, sameFlight, sameMic. destruct (Js.includes lt "jarvis"); [|done].
  cbn. destruct (wakeWordTimer w); cbn; [|done].
  case_decide; done.
Qed.

(** Once [processCommand] has taken a branch, the flag is set; when it has
    taken none, nothing that matters to a command has changed. *)
Lemma processCommand_frame (o : Oracle) (transcript : string) (w : World) :
  suspended w = None -> utterance w = None ->
  (processingCommand (processCommand o transcript w) = true /\
   (suspended (processCommand o transcript w) = None \/
    utterance (processCommand o transcript w) = None) /\
   (sameMic (processCommand o transcript w) w \/
    (listening (processCommand o transcript w) = false /\
     autoListening (processCommand o transcript w) = false))) \/
  (sameFlight (processCommand o transcript w) w /\
   sameMic (processCommand o transcript w) w).
Proof.
  intros Hs Hu. unfold processCommand.
  destruct (wakeWord_frame (Js.toLowerCase transcript) w)
    as [(Hf1 & Hf2 & Hf3) (Hm1 & Hm2)].
  set (w1 := wakeWord (Js.toLowerCase transcript) w) in *.
  assert (Hs1 : suspended w1 = None) by congruence.
  assert (Hu1 : utterance w1 = None) by congruence.
  unfold sameMic, sameFlight. rewrite <- Hm1, <- Hm2, <- Hf1, <- Hf2, <- Hf3.
  destruct (branch (Js.toLowerCase transcript)); [left..|right; done].
  - unfold handleConversation, speakText. cbn.
    destruct (speechSynthesisInWindow w1); cbn; auto.
  - unfold fetchCryptoData, fetchCryptoData_catch, fetchCryptoData_returned, speakText.
    destruct (normalizeSymbol keyword); cbn; [auto|].
    destruct (speechSynthesisInWindow w1); cbn; auto.
  - unfold speakText. cbn. destruct (speechSynthesisInWindow w1); cbn; auto.
  - unfold speakText. cbn. destruct (speechSynthesisInWindow w1); cbn; auto.
  - unfold speakText. cbn. destruct (speechSynthesisInWindow w1); cbn; auto.
  - unfold speakText. cbn. destruct (speechSynthesisInWindow w1); cbn; auto.
Qed.

Lemma rerender_frame (previous : bool) (w : World) :
  sameFlight (rerender previous w) w /\
  autoListening (rerender previous w) = autoListening w /\
  (listening (rerender previous w) = listening w \/ autoListening w = true).
Proof.
  unfold rerender, autoListeningEffect, sameFlight.
  destruct (Bool.eqb previous (autoListening w)); [auto|]. cbn.
  destruct (autoListening w) eqn:Ha; cbn; [|rewrite Ha; auto].
  destruct (browserSupportsSpeechRecognition w); cbn; rewrite ?Ha; auto 10.
Qed.

Lemma toggleListening_frame (w : World) :
  sameFlight (toggleListening w) w /\
  listening (toggleListening w) = autoListening (toggleListening w).
Proof. unfold toggleListening, sameFlight. destruct (listening w); cbn; auto. Qed.

Lemma tickerSettled_frame (symbol normalizedSymbol : string)
    (r : Settled TickerData) (now : Z) (w : World) :
  utterance w = None ->
  processingCommand (tickerSettled symbol normalizedSymbol r now w) = processingCommand w /\
  sameMic (tickerSettled symbol normalizedSymbol r now w) w /\
  (suspended (tickerSettled symbol normalizedSymbol r now w) = None \/
   utterance (tickerSettled symbol normalizedSymbol r now w) = None).
Proof.
  intros Hu.
  unfold tickerSettled, fetchCryptoData_catch, fetchCryptoData_returned,
    fetchHistoricalPrices, fetchCryptoData_speak, speakAnalysis, speakText, sameMic.
  destruct r as [err| |data]; cbn.
  - destruct (speechSynthesisInWindow w); cbn; auto.
  - destruct (speechSynthesisInWindow w); cbn; auto.
  - destruct (normalizeSymbol symbol); cbn; [auto|].
    destruct (speechSynthesisInWindow w); cbn; auto.
Qed.

Lemma klinesSettled_frame (normalizedSymbol : string) (data : TickerData)
    (r : Settled (list Kline)) (w : World) :
  processingCommand (klinesSettled normalizedSymbol data r w) = processingCommand w /\
  sameMic (klinesSettled normalizedSymbol data r w) w /\
  suspended (klinesSettled normalizedSymbol data r w) = None.
Proof.
  unfold klinesSettled, fetchCryptoData_speak, fetchCryptoData_returned,
    speakAnalysis, speakText, sameMic.
  destruct r as [err| |rows]; cbn;
    destruct (speechSynthesisInWindow w); cbn; auto.
Qed.

Lemma invariant_mounted (synthesis recognition : bool) :
  invariant (mounted synthesis recognition).
Proof.
  unfold invariant, mounted, autoListeningEffect. cbn.
  destruct recognition; cbn; auto.
Qed.

Lemma invariant_step (w : World) (e : Event) :
  invariant w -> invariant (step w e).
Proof.
  intros Hinv.
  destruct e as [transcript o|r now|r| | |];
    cbn -[klinesSettled tickerSettled processCommand rerender toggleListening onend].
  - destruct (negb (listening w) || negb (Js.truthy transcript)); [done|].
    destruct (processingCommand w) eqn:Hp; [done|].
    destruct Hinv as (Hflag & Hexcl & Hmic).
    destruct (Hflag Hp) as [Hs Hu].
    destruct (rerender_frame (autoListening w) (processCommand o transcript w))
      as ((Hf1 & Hf2 & Hf3) & Ha & Hl).
    pose proof (processCommand_frame o transcript w Hs Hu) as Hpc.
    set (w1 := processCommand o transcript w) in *.
    set (w2 := rerender (autoListening w) w1) in *.
    unfold invariant. rewrite Hf1, Hf2, Hf3, Ha.
    destruct Hpc as [(Hp1 & Hx & Hm)|((Hg1 & Hg2 & Hg3) & (Hm1 & Hm2))].
    + repeat split; try congruence; try done.
      intros Hl2. destruct Hl as [Hl|Hl]; [|done].
      destruct Hm as [[Hm1 Hm2]|[Hm1 Hm2]]; [|congruence].
      rewrite Hm2. apply Hmic. congruence.
    + rewrite Hg1, Hg2, Hg3. repeat split; try done.
      intros Hl2. destruct Hl as [Hl|Hl]; [|done].
      rewrite Hm2. apply Hmic. congruence.
  - destruct (suspended w) as [[symbol ns|symbol ns data]|] eqn:Hs; try done.
    destruct Hinv as (Hflag & Hexcl & Hmic).
    destruct Hexcl as [Hx|Hu]; [congruence|].
    destruct (tickerSettled_frame symbol ns r now w Hu) as (Hp & (Hm1 & Hm2) & Hx).
    destruct (processingCommand w) eqn:Hpw; [|destruct (Hflag eq_refl); congruence].
    unfold invariant. rewrite Hp, Hm1, Hm2. repeat split; try done.
  - destruct (suspended w) as [[symbol ns|symbol ns data]|] eqn:Hs; try done.
    destruct Hinv as (Hflag & Hexcl & Hmic).
    destruct (klinesSettled_frame ns data r w) as (Hp & (Hm1 & Hm2) & Hx).
    destruct (processingCommand w) eqn:Hpw; [|destruct (Hflag eq_refl); congruence].
    unfold invariant. rewrite Hp, Hm1, Hm2, Hx. repeat split; try done. auto.
  - destruct (utterance w) eqn:Hu; [|done].
    destruct Hinv as (Hflag & Hexcl & Hmic).
    destruct Hexcl as [Hx|Hx]; [|congruence].
    unfold invariant, onend. cbn. auto.
  - destruct (timeout w); [|done]. destruct Hinv as (Hflag & Hexcl & Hmic).
    unfold invariant. cbn. auto.
  - destruct (browserSupportsSpeechRecognition w); [|done].
    destruct Hinv as (Hflag & Hexcl & Hmic).
    destruct (rerender_frame (autoListening w) (toggleListening w))
      as ((Hf1 & Hf2 & Hf3) & Ha & Hl).
    destruct (toggleListening_frame w) as ((Hg1 & Hg2 & Hg3) & Hm).
    set (w1 := toggleListening w) in *.
    unfold invariant. rewrite Hf1, Hf2, Hf3, Ha, Hg1, Hg2, Hg3.
    split; [exact Hflag|]. split; [exact Hexcl|].
    intros Hl2. destruct Hl as [Hl|Hl]; congruence.
Qed.

Lemma reachable_invariant (w : World) : reachable w -> invariant w.
Proof.
  induction 1 as [synthesis recognition|w e _ IH].
  - apply invariant_mounted.
  - by apply invariant_step.
Qed.

Lemma flag_survives (w : World) (e : Event) :
  invariant w -> e <> SpeechEnd ->
  processingCommand w = true -> processingCommand (step w e) = true.
Proof.
  intros (Hflag & Hexcl & Hmic) He Hp.
  destruct e as [transcript o|r now|r| | |];
    cbn -[klinesSettled tickerSettled processCommand rerender toggleListening onend].
  - rewrite Hp. by destruct (negb (listening w) || negb (Js.truthy transcript)).
  - destruct (suspended w) as [[symbol ns|symbol ns data]|] eqn:Hs; try done.
    destruct Hexcl as [Hx|Hu]; [congruence|].
    destruct (tickerSettled_frame symbol ns r now w Hu) as (Hp' & _). congruence.
  - destruct (suspended w) as [[symbol ns|symbol ns data]|] eqn:Hs; try done.
    destruct (klinesSettled_frame ns data r w) as (Hp' & _). congruence.
  - done.
  - by destruct (timeout w).
  - destruct (browserSupportsSpeechRecognition w); [|done].
    destruct (rerender_frame (autoListening w) (toggleListening w)) as ((Hf1 & _) & _).
    destruct (toggleListening_frame w) as ((Hg1 & _) & _). congruence.
Qed.

Lemma tickerSettled_failure (symbol normalizedSymbol : string)
    (r : Settled TickerData) (now : Z) (w : World) :
  (forall data, r <> Body data) ->
  cryptoData (tickerSettled symbol normalizedSymbol r now w) = cryptoData w /\
  historicalPrices (tickerSettled symbol normalizedSymbol r now w) = historicalPrices w /\
  processingCommand (tickerSettled symbol normalizedSymbol r now w) = processingCommand w /\
  suspended (tickerSettled symbol normalizedSymbol r now w) = None /\
  (speechSynthesisInWindow w = true ->
   is_Some (utterance (tickerSettled symbol normalizedSymbol r now w))).
Proof.
  intros Hfail. destruct w.
  unfold tickerSettled, fetchCryptoData_catch, fetchCryptoData_returned, speakText.
  destruct r as [err| |data]; [| |by destruct (Hfail data)]; cbn;
    destruct speechSynthesisInWindow0; cbn; repeat split; eauto; discriminate.
Qed.

Lemma fetchCryptoData_market (symbol : string) (w : World) :
  cryptoData (fetchCryptoData symbol w) = cryptoData w /\
  historicalPrices (fetchCryptoData symbol w) = historicalPrices w /\
  suspended (fetchCryptoData symbol w) =
    (fun normalizedSymbol => AwaitTicker symbol normalizedSymbol) <$> normalizeSymbol symbol.
Proof.
  destruct w.
  unfold fetchCryptoData, fetchCryptoData_catch, fetchCryptoData_returned, speakText.
  destruct (normalizeSymbol symbol); cbn; [done|].
  destruct speechSynthesisInWindow0; cbn; done.
Qed.

Lemma step_transcript_dropped (w : World) (transcript : string) (o : Oracle) :
  processingCommand w = true -> step w (Transcript transcript o) = w.
Proof.
  intros Hp. cbn -[processCommand rerender]. rewrite Hp.
  by destruct (negb (listening w) || negb (Js.truthy transcript)).
Qed.

Lemma step_ticker (w : World) (symbol normalizedSymbol : string)
    (r : Settled TickerData) (now : Z) :
  suspended w = Some (AwaitTicker symbol normalizedSymbol) ->
  step w (TickerSettled r now) = tickerSettled symbol normalizedSymbol r now w.
Proof. intros Hs. cbn -[tickerSettled]. by rewrite Hs. Qed.

Lemma step_klines (w : World) (symbol normalizedSymbol : string) (data : TickerData)
    (r : Settled (list Kline)) :
  suspended w = Some (AwaitKlines symbol normalizedSymbol data) ->
  step w (KlinesSettled r) = klinesSettled normalizedSymbol data r w.
Proof. intros Hs. cbn -[klinesSettled]. by rewrite Hs. Qed.

Lemma step_idle (w : World) (e : Event) :
  suspended w = None ->
  (exists r now, e = TickerSettled r now) \/ (exists r, e = KlinesSettled r) ->
  step w e = w.
Proof.
  intros Hs [(r & now & ->)|(r & ->)];
    cbn -[tickerSettled klinesSettled]; by rewrite Hs.
Qed.

Lemma step_speechEnd (w : World) :
  is_Some (utterance w) -> step w SpeechEnd = onend w.
Proof. intros [u Hu]. cbn -[onend]. by rewrite Hu. Qed.

Lemma klinesSettled_failure (normalizedSymbol : string) (data : TickerData)
    (r : Settled (list Kline)) (w : World) :
  (forall rows, r <> Body rows) ->
  historicalPrices (klinesSettled normalizedSymbol data r w) = historicalPrices w /\
  cryptoData (klinesSettled normalizedSymbol data r w) = cryptoData w /\
  error (klinesSettled normalizedSymbol data r w) = error w /\
  loading (klinesSettled normalizedSymbol data r w) = false /\
  suspended (klinesSettled normalizedSymbol data r w) = None /\
  calls (klinesSettled normalizedSymbol data r w) =
    calls w ++ [consoleError "Error fetching historical price data:"] ++
    (if speechSynthesisInWindow w
     then [speechCancel;
           speechSpeak (Speech.formatText
                          (analysisText (cryptoDataOf normalizedSymbol data)))]
     else []) ++ [resetTranscript].
Proof.
  intros Hfail. destruct w.
  unfold klinesSettled, fetchCryptoData_speak, fetchCryptoData_returned,
    speakAnalysis, speakText.
  destruct r as [err| |rows]; [| |by destruct (Hfail rows)];
    cbn; destruct speechSynthesisInWindow0; cbn;
    rewrite <- ?app_assoc; repeat split; done.
Qed.

(** What is said, shown as speaking and stored as error after the klines
    request does not depend on how the request settled. *)
Lemma klinesSettled_spoken (normalizedSymbol : string) (data : TickerData)
    (r r' : Settled (list Kline)) (w : World) :
  utterance (klinesSettled normalizedSymbol data r w) =
    utterance (klinesSettled normalizedSymbol data r' w) /\
  speaking (klinesSettled normalizedSymbol data r w) =
    speaking (klinesSettled normalizedSymbol data r' w) /\
  error (klinesSettled normalizedSymbol data r w) =
    error (klinesSettled normalizedSymbol data r' w) /\
  (speechSynthesisInWindow w = true ->
   utterance (klinesSettled normalizedSymbol data r w) =
     Some (Speech.formatText (analysisText (cryptoDataOf normalizedSymbol data)))).
Proof.
  destruct w.
  unfold klinesSettled, fetchCryptoData_speak, fetchCryptoData_returned,
    speakAnalysis, speakText.
  destruct r as [err| |rows], r' as [err'| |rows'];
    cbn; destruct speechSynthesisInWindow0; cbn; repeat split; done.
Qed.

(** X26. When the klines request fails, the failure is logged and goes no
    further: no error is stored, the snapshot just stored stays, and the
    analysis is spoken exactly as it is after a successful request. *)
Theorem history_failure_silent (w : World) (symbol normalizedSymbol : string)
    (data : TickerData) (r : Settled (list Kline)) :
  suspended w = Some (AwaitKlines symbol normalizedSymbol data) ->
  (forall rows, r <> Body rows) ->
  cryptoData (step w (KlinesSettled r)) = cryptoData w /\
  error (step w (KlinesSettled r)) = error w /\
  loading (step w (KlinesSettled r)) = false /\
  suspended (step w (KlinesSettled r)) = None /\
  calls (step w (KlinesSettled r)) =
    calls w ++ [consoleError "Error fetching historical price data:"] ++
    (if speechSynthesisInWindow w
     then [speechCancel;
           speechSpeak (Speech.formatText
                          (analysisText (cryptoDataOf normalizedSymbol data)))]
     else []) ++ [resetTranscript] /\
  (speechSynthesisInWindow w = true ->
   utterance (step w (KlinesSettled r)) =
     Some (Speech.formatText (analysisText (cryptoDataOf normalizedSymbol data)))) /\
  (forall rows,
      utterance (step w (KlinesSettled r)) =
        utterance (step w (KlinesSettled (Body rows))) /\
      speaking (step w (KlinesSettled r)) =
        speaking (step w (KlinesSettled (Body rows))) /\
      error (step w (KlinesSettled r)) =
        error (step w (KlinesSettled (Body rows)))).
Proof.
  intros Hs Hfail.
  rewrite (step_klines w symbol normalizedSymbol data r Hs).
  destruct (klinesSettled_failure normalizedSymbol data r w Hfail)
    as (_ & H2 & H3 & H4 & H5 & H6).
  repeat (split; [assumption|]). split.
  - apply (klinesSettled_spoken normalizedSymbol data r r w).
  - intros rows. rewrite (step_klines w symbol normalizedSymbol data (Body rows) Hs).
    destruct (klinesSettled_spoken normalizedSymbol data r (Body rows) w)
      as (K1 & K2 & K3 & _). auto.
Qed.

(** C8. Up to the first [await] of [fetchCryptoData] the stored snapshot and
    series are untouched; and when the alias does not resolve or the ticker
    request fails they are still untouched once the query is over, whatever
    the later events bring. *)
Theorem partial_failure_atomicity (w : World) (symbol : string)
    (ticker : Settled TickerData) (now : Z) (klines : Settled (list Kline)) :
  normalizeSymbol symbol = None \/ (forall data, ticker <> Body data) ->
  (cryptoData (fetchCryptoData symbol w) = cryptoData w /\
   historicalPrices (fetchCryptoData symbol w) = historicalPrices w) /\
  (cryptoData (step (fetchCryptoData symbol w) (TickerSettled ticker now)) =
     cryptoData w /\
   historicalPrices (step (fetchCryptoData symbol w) (TickerSettled ticker now)) =
     historicalPrices w /\
   suspended (step (fetchCryptoData symbol w) (TickerSettled ticker now)) = None) /\
  (cryptoData
     (run (fetchCryptoData symbol w) [TickerSettled ticker now; KlinesSettled klines]) =
     cryptoData w /\
   historicalPrices
     (run (fetchCryptoData symbol w) [TickerSettled ticker now; KlinesSettled klines]) =
     historicalPrices w).
Proof.
  intros Hfail.
  destruct (fetchCryptoData_market symbol w) as (Hc & Hh & Hs).
  remember (fetchCryptoData symbol w) as w1 eqn:Hw1.
  assert (H2 : cryptoData (step w1 (TickerSettled ticker now)) = cryptoData w /\
               historicalPrices (step w1 (TickerSettled ticker now)) = historicalPrices w /\
               suspended (step w1 (TickerSettled ticker now)) = None).
  { destruct (normalizeSymbol symbol) as [ns|] eqn:Hn.
    - destruct Hfail as [Hfail|Hfail]; [discriminate|].
      rewrite (step_ticker w1 symbol ns ticker now Hs).
      destruct (tickerSettled_failure symbol ns ticker now w1 Hfail)
        as (K1 & K2 & _ & K4 & _).
      rewrite K1, K2. auto.
    - rewrite (step_idle w1 _ Hs); [auto|]. left. eauto. }
  destruct H2 as (Hc2 & Hh2 & Hs2).
  split; [auto|]. split; [auto|].
  change (run w1 [TickerSettled ticker now; KlinesSettled klines])
    with (step (step w1 (TickerSettled ticker now)) (KlinesSettled klines)).
  rewrite (step_idle _ (KlinesSettled klines) Hs2); [auto|]. right. eauto.
Qed.

Lemma branch_nonempty (transcript : string) :
  branch (Js.toLowerCase transcript) <> BNone -> Js.truthy transcript = true.
Proof. destruct transcript; [intros Hb; by destruct Hb|done]. Qed.

Lemma wakeWord_host (lt : string) (w : World) :
  speechSynthesisInWindow (wakeWord lt w) = speechSynthesisInWindow w /\
  browserSupportsSpeechRecognition (wakeWord lt w) = browserSupportsSpeechRecognition w.
Proof.
  destruct w. unfold wakeWord. destruct (Js.includes lt "jarvis"); [|done]. cbn.
  destruct wakeWordTimer0; cbn; [|done]. by case_decide.
Qed.

(** The stop branch and the re-render after it, on the world left by the
    wake-word block. *)
Lemma stop_branch (w1 : World) :
  let w2 :=
    rerender true
      (call resetTranscript
         (speakText Reply.stopped
            (set_listening false
               (stopRecognition
                  (set_autoListening false
                     (set_lastInteraction "conversation"
                        (set_processingCommand true w1))))))) in
  utterance w1 = None ->
  listening w2 = false /\ autoListening w2 = false /\ recognizing w2 = false /\
  processingCommand w2 = true /\
  calls w2 =
    calls w1 ++ [stopListening] ++
    (if speechSynthesisInWindow w1
     then [speechCancel; speechSpeak (Speech.formatText Reply.stopped)]
     else []) ++ [resetTranscript; stopListening] /\
  (speechSynthesisInWindow w1 = true ->
   utterance w2 = Some (Speech.formatText Reply.stopped) /\
   speaking w2 = true /\
   speaking (step w2 SpeechEnd) = false /\
   processingCommand (step w2 SpeechEnd) = false) /\
  calls (step w2 SpeechEnd) = calls w2 /\
  listening (step w2 SpeechEnd) = false /\
  recognizing (step w2 SpeechEnd) = false.
Proof.
  destruct w1. cbn. intros ->. unfold speakText, rerender. cbn.
  destruct speechSynthesisInWindow0; cbn; rewrite <- ?app_assoc; cbn;
    repeat split; done.
Qed.

(** C9, amended. A transcript that reaches the stop branch while the
    component listens is obeyed at once: the recogniser is stopped and
    [listening] and [autoListening] are cleared before the confirmation is
    handed to the speech engine; the re-render that follows runs the clean-up
    of the auto-listening effect, which calls [stopListening] a second time.
    The end of the utterance only clears [speaking] and the processing flag:
    it makes no call and the component stays idle. *)
Theorem stop_listening_sequence (w : World) (transcript : string) (o : Oracle) :
  reachable w ->
  listening w = true ->
  processingCommand w = false ->
  branch (Js.toLowerCase transcript) = BStop ->
  listening (step w (Transcript transcript o)) = false /\
  autoListening (step w (Transcript transcript o)) = false /\
  recognizing (step w (Transcript transcript o)) = false /\
  processingCommand (step w (Transcript transcript o)) = true /\
  calls (step w (Transcript transcript o)) =
    calls (wakeWord (Js.toLowerCase transcript) w) ++ [stopListening] ++
    (if speechSynthesisInWindow w
     then [speechCancel; speechSpeak (Speech.formatText Reply.stopped)]
     else []) ++ [resetTranscript; stopListening] /\
  (speechSynthesisInWindow w = true ->
   utterance (step w (Transcript transcript o)) =
     Some (Speech.formatText Reply.stopped) /\
   speaking (step w (Transcript transcript o)) = true /\
   speaking (step (step w (Transcript transcript o)) SpeechEnd) = false /\
   processingCommand (step (step w (Transcript transcript o)) SpeechEnd) = false) /\
  calls (step (step w (Transcript transcript o)) SpeechEnd) =
    calls (step w (Transcript transcript o)) /\
  listening (step (step w (Transcript transcript o)) SpeechEnd) = false /\
  recognizing (step (step w (Transcript transcript o)) SpeechEnd) = false.
Proof.
  intros Hr Hl Hp Hb.
  destruct (reachable_invariant w Hr) as (Hflag & Hexcl & Hmic).
  pose proof (Hmic Hl) as Ha. destruct (Hflag Hp) as [_ Hu].
  assert (Ht : Js.truthy transcript = true) by (apply branch_nonempty; congruence).
  destruct (wakeWord_frame (Js.toLowerCase transcript) w) as [(_ & _ & Hf3) _].
  destruct (wakeWord_host (Js.toLowerCase transcript) w) as [Hsyn _].
  assert (Hstep : step w (Transcript transcript o) =
                  rerender true
                    (call resetTranscript
                       (speakText Reply.stopped
                          (set_listening false
                             (stopRecognition
                                (set_autoListening false
                                   (set_lastInteraction "conversation"
                                      (set_processingCommand true
                                         (wakeWord (Js.toLowerCase transcript) w))))))))).
  { cbn -[processCommand rerender]. rewrite Hl, Ht, Hp, Ha. cbn -[processCommand rerender].
    unfold processCommand. by rewrite Hb. }
  rewrite Hstep, <- Hsyn. apply stop_branch. congruence.
Qed.

End Orchestrator.

(** * Further properties *)

(** ** The resolver *)

Lemma toLowerCase_app (s t : string) :
  Js.toLowerCase (s ++ t)%string = (Js.toLowerCase s ++ Js.toLowerCase t)%string.
Proof. induction s as [|c s IH]; simpl; [done|]. by rewrite IH. Qed.

Lemma lower_char_space (c : ascii) : Js.is_space (Js.lower_char c) = Js.is_space c.
Proof. destruct c as [[] [] [] [] [] [] [] []]; reflexivity. Qed.

Lemma toLowerCase_spaces (s : string) :
  Js.all Js.is_space (Js.toLowerCase s) = Js.all Js.is_space s.
Proof. induction s as [|c s IH]; simpl; [done|]. by rewrite lower_char_space, IH. Qed.

Lemma trimEnd_spaces (s : string) :
  Js.all Js.is_space s = true -> Js.trimEnd s = EmptyString.
Proof.
  induction s as [|c s IH]; simpl; [done|].
  intros [Hc Hs]%andb_true_iff. by rewrite (IH Hs), Hc.
Qed.

Lemma trimEnd_app_spaces (s ws : string) :
  Js.all Js.is_space ws = true -> Js.trimEnd (s ++ ws)%string = Js.trimEnd s.
Proof.
  intros Hws. induction s as [|c s IH]; simpl; [by apply trimEnd_spaces|].
  by rewrite IH.
Qed.

Lemma trimStart_spaces (s : string) :
  Js.all Js.is_space s = true -> Js.trimStart s = EmptyString.
Proof.
  induction s as [|c s IH]; simpl; [done|].
  intros [Hc Hs]%andb_true_iff. rewrite Hc. by apply IH.
Qed.

Lemma trim_app_spaces (s ws : string) :
  Js.all Js.is_space ws = true -> Js.trim (s ++ ws)%string = Js.trim s.
Proof.
  intros Hws. unfold Js.trim. induction s as [|c s IH].
  - change (EmptyString ++ ws)%string with ws. by rewrite (trimStart_spaces ws Hws).
  - change (String c s ++ ws)%string with (String c (s ++ ws)%string).
    cbn [Js.trimStart]. destruct (Js.is_space c) eqn:Hc; [exact IH|].
    change (String c (s ++ ws)%string) with (String c s ++ ws)%string.
    by apply trimEnd_app_spaces.
Qed.

Lemma trim_pad (ws1 s ws2 : string) :
  Js.all Js.is_space ws1 = true -> Js.all Js.is_space ws2 = true ->
  Js.trim (ws1 ++ s ++ ws2)%string = Js.trim s.
Proof.
  intros H1 H2. induction ws1 as [|c ws1 IH].
  - change (EmptyString ++ s ++ ws2)%string with (s ++ ws2)%string.
    by apply trim_app_spaces.
  - cbn [Js.all] in H1. apply andb_true_iff in H1 as [Hc Hs].
    change (String c ws1 ++ s ++ ws2)%string with (String c (ws1 ++ s ++ ws2)%string).
    unfold Js.trim in *. cbn [Js.trimStart]. rewrite Hc. by apply IH.
Qed.

(** X1. Resolution ignores letter case and white space around the name. *)
Theorem normalizeSymbol_insensitive (ws1 input ws2 : string) :
  Js.all Js.is_space ws1 = true ->
  Js.all Js.is_space ws2 = true ->
  normalizeSymbol (ws1 ++ input ++ ws2)%string = normalizeSymbol (Js.toLowerCase input) /\
  normalizeSymbol (Js.toLowerCase input) = normalizeSymbol input.
Proof.
  intros H1 H2. unfold normalizeSymbol.
  rewrite !toLowerCase_app, toLowerCase_idem.
  rewrite trim_pad by (by rewrite toLowerCase_spaces). done.
Qed.

Lemma symbolEntries_shape :
  Forall (fun kv : string * string =>
            Js.replaceFirst kv.2 "USDT" "" <> EmptyString /\
            kv.2 = (Js.replaceFirst kv.2 "USDT" "" ++ "USDT")%string /\
            kv.1 ∈ cryptoKeywords /\
            normalizeSymbol kv.1 = Some kv.2) symbolEntries.
Proof.
  unfold symbolEntries.
  repeat (constructor;
          [split; [vm_compute; discriminate|];
           split; [vm_compute; reflexivity|];
           split; [repeat constructor|vm_compute; reflexivity]|]).
  constructor.
Qed.

Lemma resolved_entry (input normalizedSymbol : string) :
  normalizeSymbol input = Some normalizedSymbol ->
  (Js.trim (Js.toLowerCase input), normalizedSymbol) ∈ symbolEntries.
Proof.
  unfold normalizeSymbol.
  destruct (symbolMap !! Js.trim (Js.toLowerCase input)) as [v|] eqn:Hl; [|discriminate].
  destruct (Js.truthy v); [|discriminate]. intros [= <-].
  by apply elem_of_list_to_map_2 in Hl.
Qed.

(** *** The names of the prototype *)

Lemma normalizeSymbol_own (input value : string) :
  normalizeSymbol input = Some value <-> normalizeSymbolValue input = Some (OwnValue value).
Proof.
  unfold normalizeSymbol, normalizeSymbolValue, symbolMapGet.
  destruct (symbolMap !! Js.trim (Js.toLowerCase input)) as [v|].
  - destruct (Js.truthy v); split; intros [= ->]; done.
  - case_bool_decide; split; done.
Qed.

Lemma toLowerCase_lower (s : string) :
  Js.all (fun c => negb (Js.is_upper c)) (Js.toLowerCase s) = true.
Proof.
  induction s as [|c s IH]; [done|]. cbn [Js.toLowerCase Js.all]. rewrite IH, andb_true_r.
  destruct c as [[] [] [] [] [] [] [] []]; reflexivity.
Qed.

Lemma all_trimStart (p : ascii -> bool) (s : string) :
  Js.all p s = true -> Js.all p (Js.trimStart s) = true.
Proof.
  induction s as [|c s IH]; [done|]. cbn [Js.trimStart].
  destruct (Js.is_space c); [|done]. cbn [Js.all]. intros [_ Hs]%andb_true_iff. auto.
Qed.

Lemma all_trimEnd (p : ascii -> bool) (s : string) :
  Js.all p s = true -> Js.all p (Js.trimEnd s) = true.
Proof.
  induction s as [|c s IH]; [done|]. cbn [Js.trimEnd Js.all].
  intros [Hc Hs]%andb_true_iff. specialize (IH Hs).
  destruct (Js.trimEnd s) as [|c' t].
  - destruct (Js.is_space c); [done|]. cbn. by rewrite Hc.
  - cbn [Js.all] in IH |- *. by rewrite Hc, IH.
Qed.

(** After lower-casing, only two names of the prototype can be asked for. *)
Lemma lowered_prototype_name (input : string) :
  (Js.trim (Js.toLowerCase input) ∈ objectPrototypeNames) ->
  Js.trim (Js.toLowerCase input) = "constructor" \/
  Js.trim (Js.toLowerCase input) = "__proto__".
Proof.
  assert (Hl : Js.all (fun c => negb (Js.is_upper c)) (Js.trim (Js.toLowerCase input)) = true).
  { unfold Js.trim. apply all_trimEnd, all_trimStart, toLowerCase_lower. }
  revert Hl. generalize (Js.trim (Js.toLowerCase input)). intros key Hl.
  unfold objectPrototypeNames. rewrite !elem_of_cons, elem_of_nil.
  intros Hin.
  repeat (destruct Hin as [->|Hin]; [first [by left | by right | discriminate Hl]|]).
  destruct Hin.
Qed.

(** X2. What [normalizeSymbol] returns, when it is not [null], is either a
    market pair, a non-empty base asset followed by USDT that one of the
    keywords of [processCommand] resolves to and whose readable symbol is
    that base asset, or, for the two names "constructor" and "__proto__"
    (once lower-cased and trimmed), the member of [Object.prototype] of that
    name. *)
Theorem resolved_pair (input : string) (value : Read) :
  normalizeSymbolValue input = Some value ->
  (exists base,
      base <> EmptyString /\
      value = OwnValue (base ++ "USDT") /\
      Js.replaceFirst (base ++ "USDT") "USDT" "" = base /\
      (exists keyword,
          keyword ∈ cryptoKeywords /\ normalizeSymbolValue keyword = Some value)) \/
  (value = Inherited (Js.trim (Js.toLowerCase input)) /\
   (Js.trim (Js.toLowerCase input) = "constructor"%string \/
    Js.trim (Js.toLowerCase input) = "__proto__"%string)).
Proof.
  intros Hn.
  destruct value as [v|name].
  - left. apply normalizeSymbol_own, resolved_entry in Hn.
    pose proof symbolEntries_shape as Hall.
    rewrite Forall_forall in Hall. destruct (Hall _ Hn) as (H1 & H2 & H3 & H4).
    cbn [fst snd] in *.
    exists (Js.replaceFirst v "USDT" ""). rewrite <- H2.
    split; [exact H1|]. split; [done|]. split; [done|].
    eexists. split; [exact H3|]. by apply normalizeSymbol_own.
  - right. unfold normalizeSymbolValue, symbolMapGet in Hn.
    destruct (symbolMap !! Js.trim (Js.toLowerCase input)) as [v|];
      [by destruct (Js.truthy v)|].
    case_bool_decide as Hin; [|done]. injection Hn as <-.
    split; [done|]. by apply lowered_prototype_name.
Qed.

(** ** The spoken text *)

Lemma all_replaceChar (p : ascii -> bool) (c : ascii) (rep s : string) :
  Js.all p rep = true ->
  (forall a, Ascii.eqb a c = false -> p a = true) ->
  Js.all p (Js.replaceChar c rep s) = true.
Proof.
  intros Hrep Hp. induction s as [|a s IH]; simpl; [done|].
  destruct (Ascii.eqb a c) eqn:Ha.
  - by rewrite all_app, Hrep, IH.
  - simpl. by rewrite (Hp a Ha), IH.
Qed.

Lemma all_replaceChar_keep (p : ascii -> bool) (c : ascii) (rep s : string) :
  Js.all p rep = true -> Js.all p s = true ->
  Js.all p (Js.replaceChar c rep s) = true.
Proof.
  intros Hrep. induction s as [|a s IH]; simpl; [done|].
  intros [Ha Hs]%andb_true_iff.
  destruct (Ascii.eqb a c).
  - by rewrite all_app, Hrep, IH.
  - simpl. by rewrite Ha, IH.
Qed.

Lemma all_spanDigits (p : ascii -> bool) (s : string) :
  Js.all p s = true ->
  Js.all p (Speech.spanDigits s).1 = true /\ Js.all p (Speech.spanDigits s).2 = true.
Proof.
  induction s as [|c s IH]; simpl; [done|].
  intros [Hc Hs]%andb_true_iff.
  destruct (Js.is_digit c).
  - destruct (IH Hs) as [H1 H2]. destruct (Speech.spanDigits s) as [d r].
    simpl in *. by rewrite Hc, H1, H2.
  - simpl. by rewrite Hc, Hs.
Qed.

Lemma all_matchDecimal (p : ascii -> bool) (s whole decimal : string) :
  Js.all p s = true ->
  Speech.matchDecimal s = Some (whole, decimal) ->
  Js.all p whole = true /\ Js.all p decimal = true.
Proof.
  intros Hs. unfold Speech.matchDecimal.
  destruct (all_spanDigits p s Hs) as [Hw Hr].
  destruct (Speech.spanDigits s) as [w r]. simpl in Hw, Hr.
  destruct w as [|c w]; [discriminate|].
  destruct r as [|dot r]; [discriminate|].
  simpl in Hr. apply andb_true_iff in Hr as [_ Hr].
  destruct (all_spanDigits p r Hr) as [Hd _].
  destruct (Speech.spanDigits r) as [d r']. simpl in Hd.
  destruct dot as [[] [] [] [] [] [] [] []]; try discriminate.
  destruct d as [|c' d]; [discriminate|]. by intros [= <- <-].
Qed.

Lemma all_decimalReplacer (p : ascii -> bool) (text whole decimal : string) :
  Js.all p " dollars and cents point " = true ->
  Js.all p whole = true -> Js.all p decimal = true ->
  Js.all p (Speech.decimalReplacer text whole decimal) = true.
Proof.
  intros Hlit Hw Hd. unfold Speech.decimalReplacer.
  assert (Hsp : p " "%char = true) by (simpl in Hlit; by destruct (p " "%char)).
  destruct (_ || _ || _); rewrite !all_app, Hw, Hd; simpl in *;
    repeat (apply andb_true_iff in Hlit as [? Hlit]);
    repeat match goal with H : p _ = true |- _ => rewrite H; clear H end; done.
Qed.

Lemma all_replaceDecimals (p : ascii -> bool) (text s : string) (skip : nat) :
  Js.all p " dollars and cents point " = true ->
  Js.all p s = true ->
  Js.all p (Speech.replaceDecimalsFrom text skip s) = true.
Proof.
  intros Hlit. revert skip. induction s as [|c s IH]; intros skip Hs; [done|].
  pose proof Hs as Hcs. cbn [Js.all] in Hcs. apply andb_true_iff in Hcs as [Hc Hs'].
  cbn [Speech.replaceDecimalsFrom]. destruct skip as [|k]; [|by apply IH].
  destruct (Speech.matchDecimal (String c s)) as [[whole decimal]|] eqn:Hm.
  - destruct (all_matchDecimal p _ _ _ Hs Hm) as [Hw Hd].
    rewrite all_app, all_decimalReplacer by done. by rewrite IH.
  - cbn [Js.all]. by rewrite Hc, IH.
Qed.

Lemma all_collapseSpaces (p : ascii -> bool) (b : bool) (s : string) :
  p " "%char = true -> Js.all p s = true ->
  Js.all p (Speech.collapseSpaces b s) = true.
Proof.
  intros Hsp. revert b. induction s as [|c s IH]; intros b; simpl; [done|].
  intros [Hc Hs]%andb_true_iff.
  destruct (Js.is_space c); [destruct b|]; simpl; rewrite ?Hsp, ?Hc; by apply IH.
Qed.

(** A character class that the letters and blanks of the replacement words
    belong to survives the last four steps of the chain. *)
Lemma all_formatText_tail (p : ascii -> bool) (text s : string) :
  Js.all p " dollars and cents point percent ." = true ->
  Js.all p s = true ->
  Js.all p (Speech.collapseSpaces false
              (Speech.replaceNewline (Speech.replaceDecimals text s))) = true.
Proof.
  intros Hlit Hs.
  assert (Hsp : p " "%char = true) by (simpl in Hlit; by destruct (p " "%char)).
  assert (Hdot : p "."%char = true).
  { simpl in Hlit. repeat (apply andb_true_iff in Hlit as [? Hlit]).
    by destruct (p "."%char). }
  assert (Hlit' : Js.all p " dollars and cents point " = true).
  { simpl in *. repeat (apply andb_true_iff in Hlit as [? Hlit]).
    repeat match goal with H : p _ = true |- _ => rewrite H; clear H end. done. }
  apply all_collapseSpaces; [done|].
  apply all_replaceChar_keep; [simpl; by rewrite Hdot, Hsp|].
  by apply all_replaceDecimals.
Qed.

Lemma startsWith_empty (s : string) : Js.startsWith s EmptyString = true.
Proof. by destruct s. Qed.

Lemma collapseSpaces_head (s : string) :
  Js.startsWith (Speech.collapseSpaces true s) " " = false.
Proof.
  induction s as [|c s IH]; [done|]. cbn [Speech.collapseSpaces].
  destruct (Js.is_space c) eqn:Hc; [exact IH|]. cbn [Js.startsWith].
  destruct (Ascii.eqb " " c) eqn:He; [|done].
  apply Ascii.eqb_eq in He as <-. discriminate Hc.
Qed.

Lemma collapseSpaces_single (b : bool) (s : string) :
  Js.includes (Speech.collapseSpaces b s) "  " = false.
Proof.
  revert b. induction s as [|c s IH]; intros b; [done|]. cbn [Speech.collapseSpaces].
  destruct (Js.is_space c) eqn:Hc.
  - destruct b; [by apply IH|].
    cbn [Js.includes Js.startsWith]. rewrite IH, orb_false_r.
    change (Ascii.eqb " " " ") with true. cbv iota.
    pose proof (collapseSpaces_head s) as Hh.
    destruct (Speech.collapseSpaces true s) as [|a r]; [done|].
    cbn [Js.startsWith] in Hh |- *. destruct (Ascii.eqb " " a); [|done].
    by rewrite startsWith_empty in Hh.
  - cbn [Js.includes Js.startsWith]. rewrite IH, orb_false_r.
    destruct (Ascii.eqb " " c) eqn:He; [|done].
    apply Ascii.eqb_eq in He as <-. discriminate Hc.
Qed.

Lemma collapseSpaces_blank (b : bool) (s : string) :
  Js.all (fun c => negb (Js.is_space c) || Ascii.eqb c " ") (Speech.collapseSpaces b s) = true.
Proof.
  revert b. induction s as [|c s IH]; intros b; simpl; [done|].
  destruct (Js.is_space c) eqn:Hc; [destruct b|]; simpl; rewrite ?Hc; simpl; by apply IH.
Qed.

Lemma formatText_no_dollar (text : string) :
  Js.includes (Speech.formatText text) "$" = false.
Proof.
  unfold Speech.formatText.
  apply includes_char_absent. apply all_formatText_tail; [reflexivity|].
  unfold Speech.replacePercent, Speech.replaceDollar.
  apply all_replaceChar_keep; [reflexivity|].
  apply all_replaceChar; [reflexivity|].
  intros a Ha. rewrite Ascii.eqb_sym. by rewrite Ha.
Qed.

Lemma formatText_no_percent (text : string) :
  Js.includes (Speech.formatText text) "%" = false.
Proof.
  unfold Speech.formatText.
  apply includes_char_absent. apply all_formatText_tail; [reflexivity|].
  unfold Speech.replacePercent.
  apply all_replaceChar; [reflexivity|].
  intros a Ha. rewrite Ascii.eqb_sym. by rewrite Ha.
Qed.

Lemma formatText_blanks (text : string) :
  Js.all (fun c => negb (Js.is_space c) || Ascii.eqb c " ") (Speech.formatText text) = true.
Proof. unfold Speech.formatText. apply collapseSpaces_blank. Qed.

(** X3. Whatever the text, what is handed to the speech engine holds no
    dollar sign, no percent sign, no white space other than the blank, and
    no two blanks in a row. *)
Theorem formatText_clean (text : string) :
  Js.includes (Speech.formatText text) "$" = false /\
  Js.includes (Speech.formatText text) "%" = false /\
  Js.all (fun c => negb (Js.is_space c) || Ascii.eqb c " ") (Speech.formatText text) = true /\
  Js.includes (Speech.formatText text) "  " = false.
Proof.
  split; [apply formatText_no_dollar|]. split; [apply formatText_no_percent|].
  split; [apply formatText_blanks|].
  unfold Speech.formatText. apply collapseSpaces_single.
Qed.

Lemma replaceChar_absent (c : ascii) (rep s : string) :
  Js.all (fun a => negb (Ascii.eqb c a)) s = true -> Js.replaceChar c rep s = s.
Proof.
  induction s as [|a s IH]; simpl; [done|].
  intros [Ha Hs]%andb_true_iff. apply negb_true_iff in Ha.
  rewrite Ascii.eqb_sym, Ha. by rewrite IH.
Qed.

Lemma replaceDecimals_no_digit (text s : string) :
  Js.all (fun a => negb (Js.is_digit a)) s = true ->
  Speech.replaceDecimalsFrom text 0 s = s.
Proof.
  induction s as [|a s IH]; [done|]. cbn [Js.all].
  intros [Ha Hs]%andb_true_iff. apply negb_true_iff in Ha.
  cbn [Speech.replaceDecimalsFrom]. unfold Speech.matchDecimal.
  cbn [Speech.spanDigits]. rewrite Ha. by rewrite IH.
Qed.

Lemma collapseSpaces_idem (s : string) :
  (forall b, Speech.collapseSpaces b (Speech.collapseSpaces true s) =
             Speech.collapseSpaces true s) /\
  Speech.collapseSpaces false (Speech.collapseSpaces false s) =
    Speech.collapseSpaces false s.
Proof.
  induction s as [|c s [IHt IHf]]; [done|]. cbn [Speech.collapseSpaces].
  destruct (Js.is_space c) eqn:Hc.
  - split; [exact IHt|]. cbn [Speech.collapseSpaces].
    change (Js.is_space " ") with true. cbv iota. by rewrite IHt.
  - split; [intros b|]; cbn [Speech.collapseSpaces]; rewrite Hc; by rewrite IHf.
Qed.

(** X4. On a text without digits the rewriting is idempotent: what has been
    prepared for speech once comes back unchanged from a second pass. *)
Theorem formatText_idempotent (text : string) :
  Js.all (fun a => negb (Js.is_digit a)) text = true ->
  Speech.formatText (Speech.formatText text) = Speech.formatText text.
Proof.
  intros Hd.
  pose proof (formatText_no_dollar text) as Hdollar.
  pose proof (formatText_no_percent text) as Hpercent.
  pose proof (formatText_blanks text) as Hblank.
  assert (Hnd : Js.all (fun a => negb (Js.is_digit a)) (Speech.formatText text) = true).
  { unfold Speech.formatText. apply all_formatText_tail; [reflexivity|].
    unfold Speech.replacePercent, Speech.replaceDollar.
    do 2 (apply all_replaceChar_keep; [reflexivity|]). exact Hd. }
  assert (Habs : forall c, Js.includes (Speech.formatText text) (String c EmptyString) = false ->
                 Js.all (fun a => negb (Ascii.eqb c a)) (Speech.formatText text) = true).
  { intros c. generalize (Speech.formatText text). intros s.
    induction s as [|a s IH]; [done|]. cbn [Js.includes Js.startsWith Js.all].
    intros [H1 H2]%orb_false_iff. rewrite (IH H2), andb_true_r.
    destruct (Ascii.eqb c a); [|done]. by rewrite startsWith_empty in H1. }
  assert (Hnl : Js.all (fun a => negb (Ascii.eqb Speech.newline a)) (Speech.formatText text) = true).
  { eapply all_weaken; [|exact Hblank]. intros c.
    destruct c as [[] [] [] [] [] [] [] []]; done. }
  remember (Speech.formatText text) as r eqn:Hr.
  unfold Speech.formatText at 1.
  unfold Speech.replaceDollar, Speech.replacePercent, Speech.replaceNewline,
    Speech.replaceDecimals.
  rewrite (replaceChar_absent "$") by (by apply Habs).
  rewrite (replaceChar_absent "%") by (by apply Habs).
  rewrite replaceDecimals_no_digit by done.
  rewrite (replaceChar_absent Speech.newline) by done.
  subst r. unfold Speech.formatText. apply collapseSpaces_idem.
Qed.

(** ** Voice selection *)

Lemma find_filter_first {A} (p q : A -> bool) (l : list A) (x : A) :
  List.find q (List.filter p l) = Some x ->
  exists pre post,
    l = pre ++ x :: post /\ p x = true /\ q x = true /\
    Forall (fun y => p y && q y = false) pre.
Proof.
  induction l as [|a l IH]; simpl; [discriminate|].
  destruct (p a) eqn:Hp; simpl.
  - destruct (q a) eqn:Hq.
    + intros [= <-]. exists [], l. auto.
    + intros Hx. destruct (IH Hx) as (pre & post & -> & ? & ? & Hpre).
      exists (a :: pre), post. repeat split; auto.
      constructor; [by rewrite Hp, Hq|done].
  - intros Hx. destruct (IH Hx) as (pre & post & -> & ? & ? & Hpre).
    exists (a :: pre), post. repeat split; auto.
    constructor; [by rewrite Hp|done].
Qed.

Lemma filter_head {A} (p : A -> bool) (l : list A) (x : A) (rest : list A) :
  List.filter p l = x :: rest ->
  exists pre post, l = pre ++ x :: post /\ p x = true /\ Forall (fun y => p y = false) pre.
Proof.
  induction l as [|a l IH]; simpl; [discriminate|].
  destruct (p a) eqn:Hp.
  - intros [= <- _]. exists [], l. auto.
  - intros Hx. destruct (IH Hx) as (pre & post & -> & ? & Hpre).
    exists (a :: pre), post. auto.
Qed.

(** X5. The voice given to an utterance is always one of the installed
    voices, English and not a Microsoft one; it is the first such Google
    voice when there is one and the first such voice otherwise; and no voice
    is assigned exactly when no installed voice is eligible. *)
Theorem selectVoice_choice (voices : list Synth.Voice) :
  match Synth.selectVoice voices with
  | Some voice =>
      exists pre post,
        voices = pre ++ voice :: post /\
        Synth.english voice = true /\
        (Synth.google voice = true /\
         Forall (fun v => Synth.english v && Synth.google v = false) pre
         \/
         Forall (fun v => Synth.english v && Synth.google v = false) voices /\
         Forall (fun v => Synth.english v = false) pre)
  | None => Forall (fun v => Synth.english v = false) voices
  end.
Proof.
  unfold Synth.selectVoice.
  destruct (List.filter Synth.english voices) as [|first rest] eqn:Hf.
  - apply Forall_forall. intros v Hin. apply list_elem_of_In in Hin.
    destruct (Synth.english v) eqn:He; [|done].
    assert (Hv : In v (List.filter Synth.english voices)) by (by apply filter_In).
    rewrite Hf in Hv. destruct Hv.
  - rewrite <- Hf.
    destruct (List.find Synth.google (List.filter Synth.english voices)) as [g|] eqn:Hg.
    + destruct (find_filter_first _ _ _ _ Hg) as (pre & post & -> & He & Hgo & Hpre).
      exists pre, post. auto.
    + destruct (filter_head _ _ _ _ Hf) as (pre & post & Hv & He & Hpre).
      exists pre, post. repeat split; [done|done|]. right. split; [|done].
      apply Forall_forall. intros v Hin. apply list_elem_of_In in Hin.
      destruct (Synth.english v) eqn:Hev; [|done]. simpl.
      apply (find_none _ _ Hg). by apply filter_In.
Qed.

(** ** The advice *)

(** X6. The advice is one of four sentences, and which one is spoken with
    the analysis depends on the percent change alone: the sign of the price
    change, which decides the trend, has no part in it. *)
Theorem advice_by_percent (priceChangeNum priceChangeNum' priceChangePercentNum : float) :
  generateAdvice priceChangePercentNum (trendOf priceChangeNum priceChangePercentNum) =
    generateAdvice priceChangePercentNum (trendOf priceChangeNum' priceChangePercentNum) /\
  generateAdvice priceChangePercentNum (trendOf priceChangeNum priceChangePercentNum) ∈
    [adviceSignificantUp; adviceSignificantDown; adviceConsolidating; adviceGeneric] /\
  (generateAdvice priceChangePercentNum (trendOf priceChangeNum priceChangePercentNum) =
     adviceConsolidating <->
   (5 <? abs priceChangePercentNum)%float = false /\
   (abs priceChangePercentNum <? 0.5)%float = true).
Proof.
  unfold generateAdvice, trendOf.
  destruct (5 <? abs priceChangePercentNum)%float,
    (abs priceChangePercentNum <? 0.5)%float,
    (0 <? priceChangePercentNum)%float,
    (0 <? priceChangeNum)%float, (0 <? priceChangeNum')%float; cbn;
    (split; [reflexivity|split; [repeat constructor|]]);
    split; intros; try discriminate; try tauto; intuition discriminate.
Qed.

(** ** The cascade on a growing transcript *)

Lemma startsWith_app (s p t : string) :
  Js.startsWith s p = true -> Js.startsWith (s ++ t)%string p = true.
Proof.
  revert p. induction s as [|c s IH]; intros p; destruct p as [|a p]; simpl; try done.
  - intros _. apply startsWith_empty.
  - destruct (Ascii.eqb a c); [apply IH|done].
Qed.

Lemma includes_app (pre s post p : string) :
  Js.includes s p = true -> Js.includes (pre ++ s ++ post)%string p = true.
Proof.
  intros Hs. induction pre as [|c pre IH].
  - change (EmptyString ++ s ++ post)%string with (s ++ post)%string.
    induction s as [|c s IH]; cbn [Js.includes] in Hs |- *.
    + rewrite orb_false_r in Hs. destruct p; [|discriminate].
      change (EmptyString ++ post)%string with post.
      destruct post; cbn [Js.includes]; by rewrite startsWith_empty.
    + change (String c s ++ post)%string with (String c (s ++ post)%string).
      cbn [Js.includes]. apply orb_true_iff in Hs as [Hs|Hs].
      * change (String c (s ++ post)%string) with (String c s ++ post)%string.
        by rewrite (startsWith_app _ _ post Hs).
      * by rewrite (IH Hs), orb_true_r.
  - change (String c pre ++ s ++ post)%string with (String c (pre ++ s ++ post)%string).
    cbn [Js.includes]. by rewrite IH, orb_true_r.
Qed.

(** X7. Words added before or after a transcript never undo a match: a
    transcript that is a conversation query stays one, and a transcript for
    which some branch is taken never falls back to none. *)
Theorem cascade_monotone (pre lowerTranscript post : string) :
  (conversationQuery lowerTranscript = true ->
   branch (pre ++ lowerTranscript ++ post)%string = BConversation) /\
  (branch lowerTranscript <> BNone ->
   branch (pre ++ lowerTranscript ++ post)%string <> BNone).
Proof.
  assert (Hinc : forall p, Js.includes lowerTranscript p = true ->
                      Js.includes (pre ++ lowerTranscript ++ post)%string p = true)
    by (intros p; apply includes_app).
  assert (Hq : conversationQuery lowerTranscript = true ->
               conversationQuery (pre ++ lowerTranscript ++ post)%string = true).
  { rewrite !conversationQuery_existsb. intros (p & Hin & Hp)%existsb_exists.
    apply existsb_exists. exists p. auto. }
  split.
  - intros H. unfold branch. by rewrite (Hq H).
  - intros Hb. unfold branch in *.
    destruct (conversationQuery lowerTranscript) eqn:Hc.
    { by rewrite (Hq eq_refl). }
    destruct (conversationQuery (pre ++ lowerTranscript ++ post)%string); [done|].
    destruct (firstKeyword lowerTranscript) as [k|] eqn:Hk.
    { apply find_some in Hk as [Hin Hp].
      destruct (firstKeyword (pre ++ lowerTranscript ++ post)%string) eqn:Hk'; [done|].
      pose proof (find_none _ _ Hk' k Hin) as Hn. cbv beta in Hn.
      by rewrite (Hinc _ Hp) in Hn. }
    destruct (firstKeyword (pre ++ lowerTranscript ++ post)%string); [done|].
    assert (Hg : greetingCommand lowerTranscript = true ->
                 greetingCommand (pre ++ lowerTranscript ++ post)%string = true).
    { unfold greetingCommand. rewrite !orb_true_iff. intuition auto. }
    assert (Ht : thanksCommand lowerTranscript = true ->
                 thanksCommand (pre ++ lowerTranscript ++ post)%string = true).
    { unfold thanksCommand. rewrite !orb_true_iff. intuition auto. }
    assert (Hh : helpCommand lowerTranscript = true ->
                 helpCommand (pre ++ lowerTranscript ++ post)%string = true)
      by apply Hinc.
    assert (Hs : stopCommand lowerTranscript = true ->
                 stopCommand (pre ++ lowerTranscript ++ post)%string = true)
      by apply Hinc.
    destruct (greetingCommand lowerTranscript); [by rewrite Hg|].
    destruct (greetingCommand (pre ++ lowerTranscript ++ post)%string); [done|].
    destruct (thanksCommand lowerTranscript); [by rewrite Ht|].
    destruct (thanksCommand (pre ++ lowerTranscript ++ post)%string); [done|].
    destruct (helpCommand lowerTranscript); [by rewrite Hh|].
    destruct (helpCommand (pre ++ lowerTranscript ++ post)%string); [done|].
    destruct (stopCommand lowerTranscript); [by rewrite Hs|]. done.
Qed.

(** ** More on the state machine *)

(** [destruct] a world, naming its fields. *)
Ltac destruct_world w :=
  destruct w as [autoListening_ listening_ cryptoData_ historicalPrices_ loading_
                 speaking_ error_ wakeWordDetected_ lastInteraction_ wakeWordTimer_
                 processingCommand_ synthesis_ recognition_ recognizing_ utterance_
                 timeout_ timerIds_ suspended_ calls_].

Section Machine.

Context `{Builtins}.

(** *** What each handler leaves alone *)

Lemma wakeWord_rest (lt : string) (w : World) :
  micState (wakeWord lt w) = micState w /\
  busyState (wakeWord lt w) = busyState w /\
  hostState (wakeWord lt w) = hostState w /\
  cryptoData (wakeWord lt w) = cryptoData w /\
  historicalPrices (wakeWord lt w) = historicalPrices w.
Proof.
  destruct_world w. unfold wakeWord. destruct (Js.includes lt "jarvis"); [|done]. cbn.
  destruct wakeWordTimer_; cbn; [|done]. by case_decide.
Qed.

Lemma rerender_rest (previous : bool) (w : World) :
  busyState (rerender previous w) = busyState w /\
  wakeState (rerender previous w) = wakeState w /\
  hostState (rerender previous w) = hostState w /\
  cryptoData (rerender previous w) = cryptoData w /\
  historicalPrices (rerender previous w) = historicalPrices w.
Proof.
  destruct_world w. unfold rerender, autoListeningEffect. cbn.
  destruct (Bool.eqb previous autoListening_); [done|]. cbn.
  destruct (autoListening_ && recognition_); done.
Qed.

Lemma toggleListening_rest (w : World) :
  busyState (toggleListening w) = busyState w /\
  wakeState (toggleListening w) = wakeState w /\
  hostState (toggleListening w) = hostState w /\
  cryptoData (toggleListening w) = cryptoData w /\
  historicalPrices (toggleListening w) = historicalPrices w.
Proof. destruct_world w. unfold toggleListening. cbn. by destruct listening_. Qed.

Lemma processCommand_rest (o : Oracle) (transcript : string) (w : World) :
  hostState (processCommand o transcript w) = hostState w /\
  cryptoData (processCommand o transcript w) = cryptoData w /\
  historicalPrices (processCommand o transcript w) = historicalPrices w /\
  wakeState (processCommand o transcript w) =
    wakeState (wakeWord (Js.toLowerCase transcript) w).
Proof.
  unfold processCommand.
  destruct (wakeWord_rest (Js.toLowerCase transcript) w) as (_ & _ & <- & <- & <-).
  remember (wakeWord (Js.toLowerCase transcript) w) as w1 eqn:Hw1. clear Hw1.
  destruct_world w1.
  destruct (branch (Js.toLowerCase transcript));
    unfold handleConversation, fetchCryptoData, fetchCryptoData_catch,
      fetchCryptoData_returned, speakText; cbn;
    try destruct (normalizeSymbol keyword); cbn;
    destruct synthesis_; done.
Qed.

Lemma tickerSettled_rest (symbol normalizedSymbol : string)
    (r : Settled TickerData) (now : Z) (w : World) :
  micState (tickerSettled symbol normalizedSymbol r now w) = micState w /\
  wakeState (tickerSettled symbol normalizedSymbol r now w) = wakeState w /\
  hostState (tickerSettled symbol normalizedSymbol r now w) = hostState w.
Proof.
  destruct_world w.
  unfold tickerSettled, fetchCryptoData_catch, fetchCryptoData_returned,
    fetchHistoricalPrices, fetchCryptoData_speak, speakAnalysis, speakText.
  destruct r as [err| |data]; cbn; try destruct (normalizeSymbol symbol); cbn;
    destruct synthesis_; done.
Qed.

Lemma klinesSettled_rest (normalizedSymbol : string) (data : TickerData)
    (r : Settled (list Kline)) (w : World) :
  micState (klinesSettled normalizedSymbol data r w) = micState w /\
  wakeState (klinesSettled normalizedSymbol data r w) = wakeState w /\
  hostState (klinesSettled normalizedSymbol data r w) = hostState w /\
  cryptoData (klinesSettled normalizedSymbol data r w) = cryptoData w.
Proof.
  destruct_world w.
  unfold klinesSettled, fetchCryptoData_speak, fetchCryptoData_returned,
    speakAnalysis, speakText.
  destruct r as [err| |rows]; cbn; destruct synthesis_; done.
Qed.

(** The two capabilities of the browser are read, never written. *)
Lemma host_constant (w : World) (e : Event) : hostState (step w e) = hostState w.
Proof.
  destruct e as [transcript o|r now|r| | |];
    cbn -[klinesSettled tickerSettled processCommand rerender toggleListening onend].
  - destruct (negb (listening w) || negb (Js.truthy transcript)); [done|].
    destruct (processingCommand w); [done|].
    destruct (rerender_rest (autoListening w) (processCommand o transcript w))
      as (_ & _ & -> & _).
    apply processCommand_rest.
  - destruct (suspended w) as [[symbol ns|symbol ns data]|]; try done.
    apply tickerSettled_rest.
  - destruct (suspended w) as [[symbol ns|symbol ns data]|]; try done.
    apply klinesSettled_rest.
  - by destruct (utterance w).
  - by destruct (timeout w).
  - destruct (browserSupportsSpeechRecognition w); [|done].
    destruct (rerender_rest (autoListening w) (toggleListening w)) as (_ & _ & -> & _).
    apply toggleListening_rest.
Qed.

Lemma host_constant_run (es : list Event) (w : World) :
  hostState (run w es) = hostState w.
Proof.
  revert w. induction es as [|e es IH]; intros w; [done|].
  change (run w (e :: es)) with (run (step w e) es).
  by rewrite IH, host_constant.
Qed.

Lemma reachable_run (es : list Event) (w : World) :
  reachable w -> reachable (run w es).
Proof.
  revert w. induction es as [|e es IH]; intros w Hr; [done|].
  change (run w (e :: es)) with (run (step w e) es).
  apply IH. by apply reachable_step.
Qed.

(** *** The microphone *)

Lemma micInvariant_ext (w' w : World) :
  micState w' = micState w -> hostState w' = hostState w ->
  micInvariant w -> micInvariant w'.
Proof.
  unfold micState, hostState, micInvariant.
  intros [= -> -> ->] [= _ ->]. done.
Qed.

Lemma micInvariant_rerender (previous : bool) (w : World) :
  (previous = autoListening w -> micInvariant w) ->
  (previous <> autoListening w ->
   browserSupportsSpeechRecognition w = true /\ autoListening w = listening w) ->
  micInvariant (rerender previous w).
Proof.
  destruct_world w. unfold micInvariant, rerender, autoListeningEffect. cbn.
  destruct (Bool.eqb previous autoListening_) eqn:He.
  - apply Bool.eqb_prop in He. auto.
  - intros _ Hne. destruct Hne as [-> <-]; [by intros ->; rewrite Bool.eqb_reflx in He|].
    cbn. destruct autoListening_; cbn; auto.
Qed.

Lemma micInvariant_mounted (synthesis recognition : bool) :
  micInvariant (mounted synthesis recognition).
Proof. destruct recognition; unfold micInvariant; cbn; auto. Qed.

Lemma processCommand_mic (o : Oracle) (transcript : string) (w : World) :
  micState (processCommand o transcript w) = micState w \/
  micState (processCommand o transcript w) = (false, false, false).
Proof.
  unfold processCommand.
  destruct (wakeWord_rest (Js.toLowerCase transcript) w) as (<- & _).
  remember (wakeWord (Js.toLowerCase transcript) w) as w1 eqn:Hw1. clear Hw1.
  destruct_world w1.
  destruct (branch (Js.toLowerCase transcript));
    unfold handleConversation, fetchCryptoData, fetchCryptoData_catch,
      fetchCryptoData_returned, speakText; cbn;
    try destruct (normalizeSymbol keyword); cbn;
    destruct synthesis_; auto.
Qed.

Lemma micInvariant_step (w : World) (e : Event) :
  micInvariant w -> micInvariant (step w e).
Proof.
  intros Hinv.
  destruct e as [transcript o|r now|r| | |];
    cbn -[klinesSettled tickerSettled processCommand rerender toggleListening onend].
  - destruct (negb (listening w)) eqn:Hl; [done|]. apply negb_false_iff in Hl.
    destruct (negb (Js.truthy transcript)); [done|]. cbn [orb].
    destruct (processingCommand w); [done|].
    destruct (processCommand_rest o transcript w) as (Hh & _).
    destruct Hinv as (H1 & H2 & H3).
    assert (Hs : browserSupportsSpeechRecognition w = true).
    { destruct (browserSupportsSpeechRecognition w); [done|]. rewrite H3 in Hl; done. }
    assert (Hs1 : browserSupportsSpeechRecognition (processCommand o transcript w) = true).
    { unfold hostState in Hh. congruence. }
    apply micInvariant_rerender.
    + intros Heq. destruct (processCommand_mic o transcript w) as [Hm|Hm].
      * apply (micInvariant_ext _ w Hm Hh). done.
      * unfold micState in Hm. injection Hm as Hm1 Hm2 Hm3.
        unfold micInvariant. rewrite Hm1, Hm2, Hm3, Hs1.
        repeat split; intros; congruence.
    + intros Hne. split; [done|].
      destruct (processCommand_mic o transcript w) as [Hm|Hm];
        unfold micState in Hm; injection Hm as Hm1 Hm2 Hm3; congruence.
  - destruct (suspended w) as [[symbol ns|symbol ns data]|]; try done.
    destruct (tickerSettled_rest symbol ns r now w) as (Hm & _ & Hh).
    by apply (micInvariant_ext _ w Hm Hh).
  - destruct (suspended w) as [[symbol ns|symbol ns data]|]; try done.
    destruct (klinesSettled_rest ns data r w) as (Hm & _ & Hh & _).
    by apply (micInvariant_ext _ w Hm Hh).
  - destruct (utterance w); [|done]. by apply (micInvariant_ext _ w).
  - destruct (timeout w); [|done]. by apply (micInvariant_ext _ w).
  - destruct (browserSupportsSpeechRecognition w) eqn:Hs; [|done].
    destruct (toggleListening_rest w) as (_ & _ & Hh & _).
    assert (Hs1 : browserSupportsSpeechRecognition (toggleListening w) = true).
    { unfold hostState in Hh. congruence. }
    destruct Hinv as (H1 & H2 & H3). specialize (H2 Hs).
    assert (Ht : listening (toggleListening w) = negb (listening w) /\
                 recognizing (toggleListening w) = negb (listening w) /\
                 autoListening (toggleListening w) = negb (listening w)).
    { destruct_world w. unfold toggleListening. cbn. by destruct listening_. }
    destruct Ht as (T1 & T2 & T3).
    apply micInvariant_rerender.
    + intros _. unfold micInvariant. rewrite T1, T2, T3, Hs1.
      repeat split; intros; congruence.
    + intros _. split; [done|]. congruence.
Qed.

Lemma reachable_mic (w : World) : reachable w -> micInvariant w.
Proof.
  induction 1 as [synthesis recognition|w e _ IH].
  - apply micInvariant_mounted.
  - by apply micInvariant_step.
Qed.

(** X8. In every reachable world the microphone state shown to the user is
    the state of the recogniser, and it is off for good where recognition is
    not supported; where it is supported the button flips it, and the
    recogniser with it. *)
Theorem microphone_agrees (w : World) :
  reachable w ->
  View.transcriptBox w = recognizing w /\
  (browserSupportsSpeechRecognition w = false ->
   forall es, listening (run w es) = false) /\
  (browserSupportsSpeechRecognition w = true ->
   listening (step w Toggle) = negb (listening w) /\
   recognizing (step w Toggle) = negb (listening w)).
Proof.
  intros Hr. destruct (reachable_mic w Hr) as (H1 & H2 & H3).
  split; [exact H1|]. split.
  - intros Hs es.
    destruct (reachable_mic _ (reachable_run es w Hr)) as (_ & _ & K3).
    apply K3. pose proof (host_constant_run es w) as Hh.
    unfold hostState in Hh. congruence.
  - intros Hs. specialize (H2 Hs).
    destruct (reachable_mic _ (reachable_step w Toggle Hr)) as (K1 & K2 & _).
    pose proof (host_constant w Toggle) as Hh. unfold hostState in Hh.
    assert (Hs' : browserSupportsSpeechRecognition (step w Toggle) = true) by congruence.
    specialize (K2 Hs').
    assert (Ha : autoListening (step w Toggle) = negb (listening w)).
    { cbn -[rerender toggleListening]. rewrite Hs.
      destruct (rerender_frame (autoListening w) (toggleListening w)) as (_ & -> & _).
      destruct_world w. unfold toggleListening. cbn. by destruct listening_. }
    split; congruence.
Qed.

End Machine.

Section Busy.

Context `{Builtins}.

(** *** Spinner, animation and the processing flag *)

Lemma busyInvariant_ext (w' w : World) :
  busyState w' = busyState w -> hostState w' = hostState w ->
  busyInvariant w -> busyInvariant w'.
Proof.
  unfold busyState, hostState, busyInvariant.
  intros [= -> -> -> -> ->] [= -> _]. done.
Qed.

Lemma busy_idle (w : World) :
  busyInvariant w -> processingCommand w = false ->
  suspended w = None /\ utterance w = None /\ loading w = false.
Proof.
  intros (H1 & H2 & H3 & H4) Hp.
  assert (Hs : suspended w = None).
  { destruct (suspended w) eqn:Hs; [|done]. destruct H2; congruence. }
  assert (Hu : utterance w = None).
  { destruct (utterance w) eqn:Hu; [|done]. destruct H3 as [Hsp Hsy]; [done|].
    destruct (H4 Hsy). congruence. }
  rewrite H1, Hs. done.
Qed.

Lemma busyInvariant_mounted (synthesis recognition : bool) :
  busyInvariant (mounted synthesis recognition).
Proof.
  destruct recognition; unfold busyInvariant; cbn; repeat split; intros; congruence.
Qed.

Ltac busy_finish :=
  unfold busyInvariant; cbn;
  repeat split; intros; subst; try congruence; try discriminate; auto;
  try (left; discriminate); try (right; discriminate).

Lemma processCommand_busy (o : Oracle) (transcript : string) (w : World) :
  busyInvariant w -> processingCommand w = false ->
  busyInvariant (processCommand o transcript w).
Proof.
  intros Hinv Hp. unfold processCommand.
  destruct (wakeWord_rest (Js.toLowerCase transcript) w) as (_ & Hb & Hh & _).
  assert (Hinv1 : busyInvariant (wakeWord (Js.toLowerCase transcript) w))
    by (by apply (busyInvariant_ext _ w)).
  assert (Hp1 : processingCommand (wakeWord (Js.toLowerCase transcript) w) = false).
  { unfold busyState in Hb. congruence. }
  clear Hb Hh Hinv Hp.
  remember (wakeWord (Js.toLowerCase transcript) w) as w1 eqn:Hw1. clear Hw1 w.
  destruct (busy_idle w1 Hinv1 Hp1) as (Hs & Hu & Hl).
  destruct (branch (Js.toLowerCase transcript)); [..|done];
    destruct_world w1; cbn in Hp1, Hs, Hu, Hl; subst;
    unfold handleConversation, fetchCryptoData, fetchCryptoData_catch,
      fetchCryptoData_returned, speakText; cbn;
    try destruct (normalizeSymbol keyword); cbn;
    destruct synthesis_; busy_finish.
Qed.

Lemma tickerSettled_busy (symbol normalizedSymbol : string)
    (r : Settled TickerData) (now : Z) (w : World) :
  busyInvariant w -> suspended w = Some (AwaitTicker symbol normalizedSymbol) ->
  busyInvariant (tickerSettled symbol normalizedSymbol r now w).
Proof.
  intros (H1 & H2 & H3 & H4) Hs.
  destruct H2 as [Hsp Hp]; [congruence|]. rewrite Hs in H1.
  destruct_world w. cbn in *. subst.
  unfold tickerSettled, fetchCryptoData_catch, fetchCryptoData_returned,
    fetchHistoricalPrices, fetchCryptoData_speak, speakAnalysis, speakText.
  destruct r as [err| |data]; cbn; try destruct (normalizeSymbol symbol); cbn;
    destruct synthesis_; busy_finish;
    try (by destruct H3); try (by destruct H4).
Qed.

Lemma klinesSettled_busy (symbol normalizedSymbol : string) (data : TickerData)
    (r : Settled (list Kline)) (w : World) :
  busyInvariant w -> suspended w = Some (AwaitKlines symbol normalizedSymbol data) ->
  busyInvariant (klinesSettled normalizedSymbol data r w).
Proof.
  intros (H1 & H2 & H3 & H4) Hs.
  destruct H2 as [Hsp Hp]; [congruence|]. rewrite Hs in H1.
  destruct_world w. cbn in *. subst.
  unfold klinesSettled, fetchCryptoData_speak, fetchCryptoData_returned,
    speakAnalysis, speakText.
  destruct r as [err| |rows]; cbn; destruct synthesis_; busy_finish;
    try (by destruct H3); try (by destruct H4).
Qed.

Lemma onend_busy (w : World) :
  busyInvariant w -> suspended w = None -> busyInvariant (onend w).
Proof.
  intros (H1 & H2 & H3 & H4) Hs. destruct_world w. cbn in *. subst.
  unfold onend. busy_finish.
Qed.

Lemma busyInvariant_step (w : World) (e : Event) :
  invariant w -> busyInvariant w -> busyInvariant (step w e).
Proof.
  intros Hold Hinv.
  destruct e as [transcript o|r now|r| | |];
    cbn -[klinesSettled tickerSettled processCommand rerender toggleListening onend].
  - destruct (negb (listening w) || negb (Js.truthy transcript)); [done|].
    destruct (processingCommand w) eqn:Hp; [done|].
    destruct (rerender_rest (autoListening w) (processCommand o transcript w))
      as (Hb & _ & Hh & _).
    apply (busyInvariant_ext _ _ Hb Hh). by apply processCommand_busy.
  - destruct (suspended w) as [[symbol ns|symbol ns data]|] eqn:Hs; try done.
    by apply tickerSettled_busy.
  - destruct (suspended w) as [[symbol ns|symbol ns data]|] eqn:Hs; try done.
    by apply (klinesSettled_busy symbol).
  - destruct (utterance w) eqn:Hu; [|done]. apply onend_busy; [done|].
    destruct Hold as (_ & [Hx|Hx] & _); congruence.
  - destruct (timeout w); [|done]. by apply (busyInvariant_ext _ w).
  - destruct (browserSupportsSpeechRecognition w); [|done].
    destruct (rerender_rest (autoListening w) (toggleListening w)) as (Hb & _ & Hh & _).
    destruct (toggleListening_rest w) as (Hb' & _ & Hh' & _).
    apply (busyInvariant_ext _ _ Hb Hh). by apply (busyInvariant_ext _ _ Hb' Hh').
Qed.

Lemma reachable_busy (w : World) : reachable w -> busyInvariant w.
Proof.
  induction 1 as [synthesis recognition|w e Hr IH].
  - apply busyInvariant_mounted.
  - apply busyInvariant_step; [by apply reachable_invariant|done].
Qed.

(** X9. In every reachable world the spinner is on exactly while a request
    is outstanding, the animation is on whenever a request or an utterance is
    outstanding, and none of the three cards is shown then; where speech
    synthesis exists the animation is on exactly while the processing flag is
    set, which is exactly while something is outstanding. *)
Theorem spinner_and_animation (w : World) :
  reachable w ->
  View.spinner w = View.present (suspended w) /\
  (inFlight w ->
   View.animation w = true /\
   View.analysis w = false /\ View.assistant w = false /\ View.invitation w = false) /\
  (speechSynthesisInWindow w = true ->
   View.animation w = processingCommand w /\
   (processingCommand w = true <-> inFlight w)).
Proof.
  intros Hr. destruct (reachable_busy w Hr) as (H1 & H2 & H3 & H4).
  split; [exact H1|]. split.
  - intros Hin.
    assert (Hsp : speaking w = true) by (destruct Hin as [Hin|Hin]; [by apply H2|by apply H3]).
    unfold View.animation, View.analysis, View.assistant, View.invitation.
    by rewrite Hsp.
  - intros Hsy. destruct (H4 Hsy) as [H5 H6]. split; [exact H5|]. split; [exact H6|].
    intros Hin. rewrite <- H5. destruct Hin as [Hin|Hin]; [by apply H2|by apply H3].
Qed.

(** *** The wake word *)

Lemma wakeInvariant_ext (w' w : World) :
  wakeState w' = wakeState w -> wakeInvariant w -> wakeInvariant w'.
Proof. unfold wakeState, wakeInvariant. intros [= -> -> -> ->]. done. Qed.

Lemma wakeWord_wake (lt : string) (w : World) :
  wakeInvariant w -> wakeInvariant (wakeWord lt w).
Proof.
  intros (H1 & H2 & H3). destruct_world w. unfold wakeWord, wakeInvariant in *.
  cbn in *. destruct (Js.includes lt "jarvis"); [|done]. cbn.
  destruct wakeWordTimer_ as [id|]; cbn; [case_decide|]; cbn;
    (split; [done|]); split; intros id' [= <-]; (split; [done|lia]) || lia.
Qed.

Lemma wakeInvariant_step (w : World) (e : Event) :
  wakeInvariant w -> wakeInvariant (step w e).
Proof.
  intros Hinv.
  destruct e as [transcript o|r now|r| | |];
    cbn -[klinesSettled tickerSettled processCommand rerender toggleListening onend].
  - destruct (negb (listening w) || negb (Js.truthy transcript)); [done|].
    destruct (processingCommand w) eqn:Hp; [done|].
    destruct (rerender_rest (autoListening w) (processCommand o transcript w))
      as (_ & Hw & _).
    apply (wakeInvariant_ext _ _ Hw).
    destruct (processCommand_rest o transcript w) as (_ & _ & _ & Hw').
    apply (wakeInvariant_ext _ _ Hw'). by apply wakeWord_wake.
  - destruct (suspended w) as [[symbol ns|symbol ns data]|] eqn:Hs; try done.
    destruct (tickerSettled_rest symbol ns r now w) as (_ & Hw & _).
    by apply (wakeInvariant_ext _ _ Hw).
  - destruct (suspended w) as [[symbol ns|symbol ns data]|] eqn:Hs; try done.
    destruct (klinesSettled_rest ns data r w) as (_ & Hw & _).
    by apply (wakeInvariant_ext _ _ Hw).
  - destruct (utterance w); [|done]. by apply (wakeInvariant_ext _ w).
  - destruct Hinv as (H1 & H2 & H3). destruct_world w. unfold wakeInvariant. cbn in *.
    destruct timeout_; [|done]. cbn. split; [done|]. split; [done|]. exact H3.
  - destruct (browserSupportsSpeechRecognition w); [|done].
    destruct (rerender_rest (autoListening w) (toggleListening w)) as (_ & Hw & _).
    destruct (toggleListening_rest w) as (_ & Hw' & _).
    apply (wakeInvariant_ext _ _ Hw). by apply (wakeInvariant_ext _ _ Hw').
Qed.

Lemma reachable_wake (w : World) : reachable w -> wakeInvariant w.
Proof.
  induction 1 as [synthesis recognition|w e Hr IH].
  - destruct recognition; unfold wakeInvariant; cbn; repeat split; intros; (done || lia).
  - by apply wakeInvariant_step.
Qed.

End Busy.

Section Cycle.

Context `{Builtins}.

(** *** One command, one utterance *)

Lemma spoken_app (cs cs' : list Call) : spoken (cs ++ cs') = spoken cs ++ spoken cs'.
Proof. unfold spoken. apply flat_map_app. Qed.

Lemma wakeWord_spoken (lt : string) (w : World) :
  spoken (calls (wakeWord lt w)) = spoken (calls w).
Proof.
  destruct_world w. unfold wakeWord. destruct (Js.includes lt "jarvis"); [|done]. cbn.
  destruct wakeWordTimer_; cbn; [case_decide|]; cbn;
    rewrite !spoken_app; cbn; by rewrite ?app_nil_r.
Qed.

Lemma rerender_spoken (previous : bool) (w : World) :
  spoken (calls (rerender previous w)) = spoken (calls w).
Proof.
  destruct_world w. unfold rerender, autoListeningEffect. cbn.
  destruct (Bool.eqb previous autoListening_); [done|]. cbn.
  destruct (autoListening_ && recognition_); cbn;
    rewrite !spoken_app; cbn; by rewrite ?app_nil_r.
Qed.

Ltac phase_finish :=
  cbn; rewrite ?spoken_app; cbn; rewrite ?app_nil_r, <- ?app_assoc; cbn;
  repeat split; eauto.

Lemma processCommand_phase (o : Oracle) (transcript : string) (w : World) :
  speechSynthesisInWindow w = true ->
  suspended w = None -> utterance w = None ->
  branch (Js.toLowerCase transcript) <> BNone ->
  talking w (processCommand o transcript w) \/ waiting w (processCommand o transcript w).
Proof.
  intros Hsy Hs Hu Hb. unfold processCommand, talking, waiting.
  destruct (wakeWord_rest (Js.toLowerCase transcript) w) as (_ & Hbs & Hh & _).
  rewrite <- (wakeWord_spoken (Js.toLowerCase transcript) w).
  unfold busyState in Hbs. injection Hbs as _ Hs1 _ _ Hu1.
  unfold hostState in Hh. injection Hh as Hsy1 _.
  rewrite <- Hs1 in Hs. rewrite <- Hu1 in Hu. rewrite <- Hsy1 in Hsy.
  clear Hs1 Hu1 Hsy1.
  remember (wakeWord (Js.toLowerCase transcript) w) as w1 eqn:Hw1. clear Hw1 w.
  destruct_world w1. cbn in Hsy, Hs, Hu. subst.
  destruct (branch (Js.toLowerCase transcript)); [..|done];
    unfold handleConversation, fetchCryptoData, fetchCryptoData_catch,
      fetchCryptoData_returned, speakText; cbn;
    try destruct (normalizeSymbol keyword); cbn;
    first [left; by phase_finish | right; by phase_finish].
Qed.

Lemma tickerSettled_phase (symbol normalizedSymbol : string)
    (r : Settled TickerData) (now : Z) (w : World) :
  speechSynthesisInWindow w = true -> utterance w = None ->
  talking w (tickerSettled symbol normalizedSymbol r now w) \/
  waiting w (tickerSettled symbol normalizedSymbol r now w).
Proof.
  intros Hsy Hu. unfold talking, waiting. destruct_world w. cbn in Hsy, Hu. subst.
  unfold tickerSettled, fetchCryptoData_catch, fetchCryptoData_returned,
    fetchHistoricalPrices, fetchCryptoData_speak, speakAnalysis, speakText.
  destruct r as [err| |data]; cbn; try destruct (normalizeSymbol symbol); cbn;
    first [left; by phase_finish | right; by phase_finish].
Qed.

Lemma klinesSettled_phase (normalizedSymbol : string) (data : TickerData)
    (r : Settled (list Kline)) (w : World) :
  speechSynthesisInWindow w = true ->
  talking w (klinesSettled normalizedSymbol data r w).
Proof.
  intros Hsy. unfold talking. destruct_world w. cbn in Hsy. subst.
  unfold klinesSettled, fetchCryptoData_speak, fetchCryptoData_returned,
    speakAnalysis, speakText.
  destruct r as [err| |rows]; by phase_finish.
Qed.

Lemma talking_trans (w0 w1 w2 : World) :
  spoken (calls w1) = spoken (calls w0) -> talking w1 w2 -> talking w0 w2.
Proof. intros Heq (Hs & Hu & text & Ht). repeat split; [done..|]. exists text. congruence. Qed.

(** After the settlement of the two requests, in this order, an utterance is
    being rendered, whatever came back. *)
Lemma settled_talking (w0 w : World) (r : Settled TickerData) (now : Z)
    (r' : Settled (list Kline)) :
  reachable w -> speechSynthesisInWindow w = true ->
  talking w0 w \/ waiting w0 w ->
  talking w0 (run w [TickerSettled r now; KlinesSettled r']).
Proof.
  intros Hr Hsy Hphase.
  change (run w [TickerSettled r now; KlinesSettled r'])
    with (step (step w (TickerSettled r now)) (KlinesSettled r')).
  assert (Hsy1 : speechSynthesisInWindow (step w (TickerSettled r now)) = true).
  { pose proof (host_constant w (TickerSettled r now)) as Hh.
    unfold hostState in Hh. congruence. }
  destruct Hphase as [(Hs & Hu & Ht)|([p Hs] & Hu & Ht)].
  - rewrite (step_idle w (TickerSettled r now) Hs) by (left; eauto).
    rewrite (step_idle w (KlinesSettled r') Hs) by (right; eauto). done.
  - destruct p as [symbol ns|symbol ns data].
    + rewrite (step_ticker w symbol ns r now Hs) in *.
      destruct (tickerSettled_phase symbol ns r now w Hsy Hu)
        as [Htalk|([p' Hs'] & Hu' & Ht')].
      * destruct Htalk as (Hs' & Htalk).
        rewrite (step_idle _ (KlinesSettled r') Hs') by (right; eauto).
        by apply (talking_trans w0 w).
      * destruct p' as [symbol' ns'|symbol' ns' data'].
        -- exfalso. revert Hs'. clear. destruct_world w.
           unfold tickerSettled, fetchCryptoData_catch, fetchCryptoData_returned,
             fetchHistoricalPrices, fetchCryptoData_speak, speakAnalysis, speakText.
           destruct r as [err| |data]; cbn; try destruct (normalizeSymbol symbol); cbn;
             destruct synthesis_; discriminate.
        -- rewrite (step_klines _ symbol' ns' data' r' Hs').
           apply (talking_trans w0 (tickerSettled symbol ns r now w)); [congruence|].
           by apply klinesSettled_phase.
    + assert (Hst : step w (TickerSettled r now) = w).
      { cbn -[tickerSettled]. by rewrite Hs. }
      rewrite Hst in *. rewrite (step_klines w symbol ns data r' Hs).
      apply (talking_trans w0 w); [done|]. by apply klinesSettled_phase.
Qed.

(** X12. With speech synthesis, every command that is taken up runs to its
    end: whatever the two requests bring back, exactly one utterance is
    handed to the speech engine, and when it has ended nothing is
    outstanding, the flag, the spinner and the animation are off, and the
    next transcript can be taken up. *)
Theorem cycle_completes (w : World) (transcript : string) (o : Oracle)
    (r : Settled TickerData) (now : Z) (r' : Settled (list Kline)) :
  reachable w ->
  speechSynthesisInWindow w = true ->
  listening w = true ->
  processingCommand w = false ->
  branch (Js.toLowerCase transcript) <> BNone ->
  processingCommand
    (run w [Transcript transcript o; TickerSettled r now; KlinesSettled r'; SpeechEnd]) = false /\
  inFlight
    (run w [Transcript transcript o; TickerSettled r now; KlinesSettled r']) /\
  ~ inFlight
    (run w [Transcript transcript o; TickerSettled r now; KlinesSettled r'; SpeechEnd]) /\
  View.spinner
    (run w [Transcript transcript o; TickerSettled r now; KlinesSettled r'; SpeechEnd]) = false /\
  View.animation
    (run w [Transcript transcript o; TickerSettled r now; KlinesSettled r'; SpeechEnd]) = false /\
  exists text,
    spoken (calls
      (run w [Transcript transcript o; TickerSettled r now; KlinesSettled r'; SpeechEnd])) =
    spoken (calls w) ++ [text].
Proof.
  intros Hr Hsy Hl Hp Hb.
  destruct (busy_idle w (reachable_busy w Hr) Hp) as (Hs & Hu & _).
  assert (Ht : Js.truthy transcript = true) by (by apply branch_nonempty).
  set (w1 := step w (Transcript transcript o)).
  assert (Hr1 : reachable w1) by (by apply reachable_step).
  assert (Hsy1 : speechSynthesisInWindow w1 = true).
  { pose proof (host_constant w (Transcript transcript o)) as Hh.
    unfold hostState in Hh. unfold w1. congruence. }
  assert (Hphase : talking w w1 \/ waiting w w1).
  { assert (Hstep : w1 = rerender (autoListening w) (processCommand o transcript w)).
    { unfold w1. cbn -[processCommand rerender]. by rewrite Hl, Ht, Hp. }
    rewrite Hstep. unfold talking, waiting.
    destruct (rerender_rest (autoListening w) (processCommand o transcript w))
      as (Hbs & _).
    unfold busyState in Hbs. injection Hbs as _ -> _ _ ->.
    rewrite rerender_spoken. by apply processCommand_phase. }
  pose proof (settled_talking w w1 r now r' Hr1 Hsy1 Hphase) as (Hs3 & Hu3 & text & Ht3).
  change (run w [Transcript transcript o; TickerSettled r now; KlinesSettled r'])
    with (run w1 [TickerSettled r now; KlinesSettled r']).
  change (run w [Transcript transcript o; TickerSettled r now; KlinesSettled r'; SpeechEnd])
    with (step (run w1 [TickerSettled r now; KlinesSettled r']) SpeechEnd).
  remember (run w1 [TickerSettled r now; KlinesSettled r']) as w3 eqn:Hw3.
  assert (Hr3 : reachable w3) by (subst w3; by apply reachable_run).
  assert (Hr4 : reachable (step w3 SpeechEnd)) by (by apply reachable_step).
  assert (Hp4 : processingCommand (step w3 SpeechEnd) = false).
  { rewrite (step_speechEnd w3 Hu3). done. }
  destruct (busy_idle _ (reachable_busy _ Hr4) Hp4) as (Hs4 & Hu4 & Hl4).
  destruct (reachable_busy _ Hr4) as (_ & _ & _ & K4).
  assert (Hsy4 : speechSynthesisInWindow (step w3 SpeechEnd) = true).
  { pose proof (host_constant w3 SpeechEnd) as Hh. unfold hostState in Hh.
    pose proof (host_constant_run [TickerSettled r now; KlinesSettled r'] w1) as Hh'.
    unfold hostState in Hh'. subst w3. congruence. }
  destruct (K4 Hsy4) as [K5 _].
  split; [exact Hp4|]. split.
  { right. destruct Hu3 as [u Hu3]. congruence. }
  split.
  { intros [Hin|Hin]; congruence. }
  split; [exact Hl4|]. split; [unfold View.animation; congruence|].
  exists text. rewrite <- Ht3. rewrite (step_speechEnd w3 Hu3). by destruct_world w3.
Qed.

End Cycle.

Section Queries.

Context `{Builtins}.

(** *** A crypto query, request by request *)

Lemma step_taken (w : World) (transcript : string) (o : Oracle) :
  listening w = true -> Js.truthy transcript = true -> processingCommand w = false ->
  step w (Transcript transcript o) =
    rerender (autoListening w) (processCommand o transcript w).
Proof. intros Hl Ht Hp. cbn -[processCommand rerender]. by rewrite Hl, Ht, Hp. Qed.

Lemma crypto_started (w : World) (transcript keyword normalizedSymbol : string)
    (o : Oracle) :
  listening w = true -> processingCommand w = false ->
  branch (Js.toLowerCase transcript) = BCrypto keyword ->
  normalizeSymbol keyword = Some normalizedSymbol ->
  step w (Transcript transcript o) =
    set_suspended (Some (AwaitTicker keyword normalizedSymbol))
      (call (fetchTicker normalizedSymbol)
         (set_lastInteraction "crypto"
            (set_speaking true
               (set_error None
                  (set_loading true
                     (set_processingCommand true
                        (wakeWord (Js.toLowerCase transcript) w))))))).
Proof.
  intros Hl Hp Hb Hn.
  assert (Ht : Js.truthy transcript = true) by (apply branch_nonempty; congruence).
  rewrite (step_taken w transcript o Hl Ht Hp).
  unfold processCommand. rewrite Hb. unfold fetchCryptoData. rewrite Hn.
  destruct (wakeWord_rest (Js.toLowerCase transcript) w) as (Hm & _).
  unfold micState in Hm. injection Hm as _ _ Ha. rewrite <- Ha.
  remember (wakeWord (Js.toLowerCase transcript) w) as w1 eqn:Hw1. clear.
  destruct_world w1. unfold rerender. cbn. by rewrite Bool.eqb_reflx.
Qed.

(** X13. A crypto query answered in full: the ticker is requested first,
    then the klines for the seven days up to now, then the analysis is
    spoken and the transcript reset, in this order and nothing else; the
    snapshot stored is the ticker body under the resolved pair, the series
    has one point per row, in the order of the rows, and no error is left. *)
Theorem successful_query (w : World) (transcript keyword normalizedSymbol : string)
    (o : Oracle) (data : TickerData) (now : Z) (rows : list Kline) :
  listening w = true ->
  processingCommand w = false ->
  branch (Js.toLowerCase transcript) = BCrypto keyword ->
  normalizeSymbol keyword = Some normalizedSymbol ->
  calls (run w [Transcript transcript o; TickerSettled (Body data) now;
                KlinesSettled (Body rows)]) =
    calls (wakeWord (Js.toLowerCase transcript) w) ++
    [fetchTicker normalizedSymbol;
     fetchKlines normalizedSymbol (now - 604800000) now] ++
    (if speechSynthesisInWindow w
     then [speechCancel;
           speechSpeak (Speech.formatText
                          (analysisText (cryptoDataOf normalizedSymbol data)))]
     else []) ++ [resetTranscript] /\
  cryptoData (run w [Transcript transcript o; TickerSettled (Body data) now;
                     KlinesSettled (Body rows)]) =
    Some (cryptoDataOf normalizedSymbol data) /\
  time <$> historicalPrices
    (run w [Transcript transcript o; TickerSettled (Body data) now;
            KlinesSettled (Body rows)]) = openTime <$> rows /\
  View.chartPoints
    (run w [Transcript transcript o; TickerSettled (Body data) now;
            KlinesSettled (Body rows)]) = (fun item => parseFloat (close item)) <$> rows /\
  error (run w [Transcript transcript o; TickerSettled (Body data) now;
                KlinesSettled (Body rows)]) = None /\
  View.spinner (run w [Transcript transcript o; TickerSettled (Body data) now;
                       KlinesSettled (Body rows)]) = false /\
  lastInteraction (run w [Transcript transcript o; TickerSettled (Body data) now;
                          KlinesSettled (Body rows)]) = "crypto"%string.
Proof.
  intros Hl Hp Hb Hn.
  change (run w [Transcript transcript o; TickerSettled (Body data) now;
                 KlinesSettled (Body rows)])
    with (step (step (step w (Transcript transcript o)) (TickerSettled (Body data) now))
            (KlinesSettled (Body rows))).
  rewrite (crypto_started w transcript keyword normalizedSymbol o Hl Hp Hb Hn).
  destruct (wakeWord_rest (Js.toLowerCase transcript) w) as (_ & _ & Hh & _).
  unfold hostState in Hh. injection Hh as Hsy _. rewrite <- Hsy.
  remember (wakeWord (Js.toLowerCase transcript) w) as w1 eqn:Hw1. clear Hw1 Hsy.
  destruct_world w1.
  cbn -[tickerSettled klinesSettled].
  unfold tickerSettled, fetchHistoricalPrices. rewrite Hn.
  cbn -[klinesSettled].
  unfold klinesSettled, fetchCryptoData_speak, fetchCryptoData_returned, speakAnalysis,
    speakText. cbn.
  unfold View.chartPoints, View.spinner.
  destruct synthesis_; cbn; rewrite <- ?app_assoc; cbn;
    rewrite <- !list_fmap_compose; repeat split; try done.
Qed.

Lemma tickerSettled_failed (symbol normalizedSymbol : string)
    (r : Settled TickerData) (now : Z) (w : World) :
  (forall data, r <> Body data) ->
  let thrown :=
    match r with
    | Rejected err => err
    | _ => ErrorObject ("Failed to fetch data for " ++ normalizedSymbol)
    end in
  error (tickerSettled symbol normalizedSymbol r now w) =
    Some match thrown with
         | ErrorObject message => message
         | OtherValue => "An unknown error occurred"
         end /\
  calls (tickerSettled symbol normalizedSymbol r now w) =
    calls w ++ [consoleError "Error fetching crypto data:"] ++
    (if speechSynthesisInWindow w
     then [speechCancel;
           speechSpeak
             (Speech.formatText
                ("I'm sorry, I couldn't retrieve data for " ++ symbol ++ ". " ++
                 match thrown with
                 | ErrorObject message => message
                 | OtherValue => "Please try again."
                 end))]
     else []) ++ [resetTranscript] /\
  loading (tickerSettled symbol normalizedSymbol r now w) = false.
Proof.
  intros Hfail. destruct_world w.
  unfold tickerSettled, fetchCryptoData_catch, fetchCryptoData_returned, speakText.
  destruct r as [err| |data]; [| |by destruct (Hfail data)]; cbn;
    destruct synthesis_; cbn; rewrite <- ?app_assoc; by repeat split.
Qed.

(** X14. A ticker request that fails, in whatever way, is reported and goes
    no further: the message of the error (or a fixed one when what was thrown
    is not an error) becomes the banner text, the apology names the asset as
    it was said, not the pair, the klines are never requested and the spinner
    is off. *)
Theorem failed_query (w : World) (symbol normalizedSymbol : string)
    (r : Settled TickerData) (now : Z) :
  suspended w = Some (AwaitTicker symbol normalizedSymbol) ->
  (forall data, r <> Body data) ->
  let thrown :=
    match r with
    | Rejected err => err
    | _ => ErrorObject ("Failed to fetch data for " ++ normalizedSymbol)
    end in
  error (step w (TickerSettled r now)) =
    Some match thrown with
         | ErrorObject message => message
         | OtherValue => "An unknown error occurred"
         end /\
  calls (step w (TickerSettled r now)) =
    calls w ++ [consoleError "Error fetching crypto data:"] ++
    (if speechSynthesisInWindow w
     then [speechCancel;
           speechSpeak
             (Speech.formatText
                ("I'm sorry, I couldn't retrieve data for " ++ symbol ++ ". " ++
                 match thrown with
                 | ErrorObject message => message
                 | OtherValue => "Please try again."
                 end))]
     else []) ++ [resetTranscript] /\
  View.spinner (step w (TickerSettled r now)) = false /\
  (forall r', step (step w (TickerSettled r now)) (KlinesSettled r') =
              step w (TickerSettled r now)).
Proof.
  intros Hs Hfail. cbv zeta.
  rewrite (step_ticker w symbol normalizedSymbol r now Hs).
  destruct (tickerSettled_failed symbol normalizedSymbol r now w Hfail) as (H1 & H2 & H3).
  cbv zeta in H1, H2.
  destruct (tickerSettled_failure symbol normalizedSymbol r now w Hfail)
    as (_ & _ & _ & Hs' & _).
  repeat split; [exact H1|exact H2|exact H3|].
  intros r'. apply step_idle; [exact Hs'|]. right. eauto.
Qed.

(** *** What is on the page *)

Lemma cryptoData_kept (w : World) (e : Event) :
  is_Some (cryptoData w) -> is_Some (cryptoData (step w e)).
Proof.
  intros Hc.
  destruct e as [transcript o|r now|r| | |];
    cbn -[klinesSettled tickerSettled processCommand rerender toggleListening onend].
  - destruct (negb (listening w) || negb (Js.truthy transcript)); [done|].
    destruct (processingCommand w); [done|].
    destruct (rerender_rest (autoListening w) (processCommand o transcript w))
      as (_ & _ & _ & -> & _).
    by destruct (processCommand_rest o transcript w) as (_ & -> & _).
  - destruct (suspended w) as [[symbol ns|symbol ns data]|]; try done.
    destruct_world w. cbn in Hc.
    unfold tickerSettled, fetchCryptoData_catch, fetchCryptoData_returned,
      fetchHistoricalPrices, fetchCryptoData_speak, speakAnalysis, speakText.
    destruct r as [err| |data]; cbn; try destruct (normalizeSymbol symbol); cbn;
      destruct synthesis_; done.
  - destruct (suspended w) as [[symbol ns|symbol ns data]|]; try done.
    by destruct (klinesSettled_rest ns data r w) as (_ & _ & _ & ->).
  - by destruct (utterance w).
  - by destruct (timeout w).
  - destruct (browserSupportsSpeechRecognition w); [|done].
    destruct (rerender_rest (autoListening w) (toggleListening w)) as (_ & _ & _ & -> & _).
    by destruct (toggleListening_rest w) as (_ & _ & _ & -> & _).
Qed.

(** X16. At most one of the three cards is on the page, none of them while
    the animation or the spinner is, and the chart only inside the analysis
    card and only for a series that is not empty. *)
Theorem cards_exclusive (w : World) :
  (View.analysis w = true -> View.assistant w = false /\ View.invitation w = false) /\
  (View.assistant w = true -> View.analysis w = false /\ View.invitation w = false) /\
  (View.invitation w = true -> View.analysis w = false /\ View.assistant w = false) /\
  (View.analysis w = true \/ View.assistant w = true \/ View.invitation w = true ->
   View.animation w = false /\ View.spinner w = false) /\
  (View.chart w = true -> View.analysis w = true /\ historicalPrices w <> []).
Proof.
  unfold View.chart, View.analysis, View.assistant, View.invitation, View.animation,
    View.spinner.
  destruct (speaking w), (loading w), (cryptoData w), (historicalPrices w),
    (String.eqb_spec (lastInteraction w) "conversation"),
    (String.eqb_spec (lastInteraction w) "crypto"); cbn;
    try (exfalso; congruence);
    repeat split; intros; try done; intuition (try done; try congruence).
Qed.

(** X17. The snapshot is never taken back: once one is stored, every later
    world has one, so that neither the invitation nor the assistant card is
    shown again; after a conversation the page then shows no card at all. *)
Theorem snapshot_kept (w : World) (es : list Event) :
  is_Some (cryptoData w) ->
  is_Some (cryptoData (run w es)) /\
  View.invitation (run w es) = false /\
  View.assistant (run w es) = false /\
  (lastInteraction (run w es) = "conversation"%string ->
   View.analysis (run w es) = false /\ View.chart (run w es) = false).
Proof.
  intros Hc.
  assert (Hrun : is_Some (cryptoData (run w es))).
  { revert w Hc. induction es as [|e es IH]; intros w Hc; [done|].
    change (run w (e :: es)) with (run (step w e) es). apply IH. by apply cryptoData_kept. }
  split; [exact Hrun|]. destruct Hrun as [d Hd].
  unfold View.chart, View.analysis, View.invitation, View.assistant. rewrite Hd. cbn.
  rewrite !andb_false_r. split; [done|]. split; [done|].
  intros ->. cbn. by rewrite !andb_false_r.
Qed.

(** *** The button and the commands *)

Lemma toggle_flips (w : World) :
  reachable w -> browserSupportsSpeechRecognition w = true ->
  listening (step w Toggle) = negb (listening w) /\
  recognizing (step w Toggle) = negb (listening w) /\
  autoListening (step w Toggle) = negb (listening w).
Proof.
  intros Hr Hs.
  destruct (reachable_mic _ (reachable_step w Toggle Hr)) as (K1 & K2 & _).
  pose proof (host_constant w Toggle) as Hh. unfold hostState in Hh.
  assert (Hs' : browserSupportsSpeechRecognition (step w Toggle) = true) by congruence.
  specialize (K2 Hs').
  assert (Ha : autoListening (step w Toggle) = negb (listening w)).
  { cbn -[rerender toggleListening]. rewrite Hs.
    destruct (rerender_frame (autoListening w) (toggleListening w)) as (_ & -> & _).
    destruct_world w. unfold toggleListening. cbn. by destruct listening_. }
  repeat split; congruence.
Qed.

(** X18. The button does not cancel a command: switched off while the ticker
    is awaited, the component stops listening but keeps the request, and the
    answer is stored and spoken as if nothing had happened. *)
Theorem toggle_keeps_query (w : World) (symbol normalizedSymbol : string)
    (data : TickerData) (now : Z) :
  reachable w ->
  listening w = true ->
  suspended w = Some (AwaitTicker symbol normalizedSymbol) ->
  listening (step w Toggle) = false /\
  recognizing (step w Toggle) = false /\
  suspended (step w Toggle) = Some (AwaitTicker symbol normalizedSymbol) /\
  processingCommand (step w Toggle) = true /\
  (forall transcript o, step (step w Toggle) (Transcript transcript o) = step w Toggle) /\
  cryptoData (run w [Toggle; TickerSettled (Body data) now]) =
    Some (cryptoDataOf normalizedSymbol data) /\
  listening (run w [Toggle; TickerSettled (Body data) now]) = false.
Proof.
  intros Hr Hl Hs.
  change (run w [Toggle; TickerSettled (Body data) now])
    with (step (step w Toggle) (TickerSettled (Body data) now)).
  destruct (reachable_mic w Hr) as (_ & _ & M3).
  assert (Hsup : browserSupportsSpeechRecognition w = true).
  { destruct (browserSupportsSpeechRecognition w); [done|]. rewrite M3 in Hl; done. }
  destruct (toggle_flips w Hr Hsup) as (T1 & T2 & _). rewrite Hl in T1, T2.
  change (negb true) with false in T1, T2.
  destruct (reachable_busy w Hr) as (_ & B2 & _).
  destruct B2 as [_ Hp]; [congruence|].
  assert (Hb : busyState (step w Toggle) = busyState w).
  { cbn -[rerender toggleListening]. rewrite Hsup.
    destruct (rerender_rest (autoListening w) (toggleListening w)) as (-> & _).
    apply toggleListening_rest. }
  remember (step w Toggle) as w' eqn:Hw'. clear Hw'.
  unfold busyState in Hb. injection Hb as _ Hs1 _ Hp1 _.
  rewrite Hs in Hs1. rewrite Hp in Hp1.
  split; [exact T1|]. split; [exact T2|]. split; [exact Hs1|]. split; [exact Hp1|].
  split; [intros; by apply step_transcript_dropped|].
  rewrite (step_ticker w' symbol normalizedSymbol (Body data) now Hs1).
  clear -T1. destruct_world w'. cbn in T1. subst.
  unfold tickerSettled, fetchHistoricalPrices, fetchCryptoData_speak,
    fetchCryptoData_returned, speakAnalysis, speakText.
  cbn. destruct (normalizeSymbol symbol); cbn; try destruct synthesis_; by split.
Qed.

(** X19. After the stop command nothing is heard until the button is
    pressed: every transcript is dropped; the button then starts the
    recogniser again, and the next command is taken up. *)
Theorem resume_after_stop (w : World) (transcript next : string) (o o' : Oracle) :
  reachable w ->
  speechSynthesisInWindow w = true ->
  listening w = true ->
  processingCommand w = false ->
  branch (Js.toLowerCase transcript) = BStop ->
  branch (Js.toLowerCase next) <> BNone ->
  step (run w [Transcript transcript o; SpeechEnd]) (Transcript next o') =
    run w [Transcript transcript o; SpeechEnd] /\
  listening (run w [Transcript transcript o; SpeechEnd; Toggle]) = true /\
  recognizing (run w [Transcript transcript o; SpeechEnd; Toggle]) = true /\
  processingCommand (run w [Transcript transcript o; SpeechEnd; Toggle]) = false /\
  processingCommand
    (run w [Transcript transcript o; SpeechEnd; Toggle; Transcript next o']) = true.
Proof.
  intros Hr Hsy Hl Hp Hb Hnext.
  destruct (reachable_invariant w Hr) as (Hflag & _ & Hmic).
  pose proof (Hmic Hl) as Ha. destruct (Hflag Hp) as [_ Hu].
  assert (Ht : Js.truthy transcript = true) by (apply branch_nonempty; congruence).
  destruct (reachable_mic w Hr) as (_ & _ & M3).
  assert (Hsup : browserSupportsSpeechRecognition w = true).
  { destruct (browserSupportsSpeechRecognition w); [done|]. rewrite M3 in Hl; done. }
  change (run w [Transcript transcript o; SpeechEnd])
    with (step (step w (Transcript transcript o)) SpeechEnd).
  change (run w [Transcript transcript o; SpeechEnd; Toggle])
    with (step (step (step w (Transcript transcript o)) SpeechEnd) Toggle).
  change (run w [Transcript transcript o; SpeechEnd; Toggle; Transcript next o'])
    with (step (step (step (step w (Transcript transcript o)) SpeechEnd) Toggle)
            (Transcript next o')).
  assert (Hr2 : reachable (step (step w (Transcript transcript o)) SpeechEnd))
    by (do 2 apply reachable_step; done).
  assert (Hfacts : listening (step (step w (Transcript transcript o)) SpeechEnd) = false /\
                   processingCommand (step (step w (Transcript transcript o)) SpeechEnd) =
                     false).
  { rewrite (step_taken w transcript o Hl Ht Hp).
    unfold processCommand. rewrite Hb, Ha.
    destruct (wakeWord_frame (Js.toLowerCase transcript) w) as [(_ & _ & Hf3) _].
    destruct (wakeWord_host (Js.toLowerCase transcript) w) as [Hsyn _].
    rewrite <- Hf3 in Hu. rewrite <- Hsyn in Hsy.
    pose proof (stop_branch (wakeWord (Js.toLowerCase transcript) w)) as Hsb.
    cbv zeta in Hsb. destruct (Hsb Hu) as (_ & _ & _ & _ & _ & K & _ & K' & _).
    destruct (K Hsy) as (_ & _ & _ & K''). done. }
  destruct Hfacts as [Hl2 Hp2].
  pose proof (host_constant_run [Transcript transcript o; SpeechEnd] w) as Hh.
  change (run w [Transcript transcript o; SpeechEnd])
    with (step (step w (Transcript transcript o)) SpeechEnd) in Hh.
  remember (step (step w (Transcript transcript o)) SpeechEnd) as w2 eqn:Hw2. clear Hw2.
  unfold hostState in Hh.
  assert (Hsup2 : browserSupportsSpeechRecognition w2 = true) by congruence.
  assert (Hsy2 : speechSynthesisInWindow w2 = true) by congruence.
  clear Hh.
  destruct (toggle_flips w2 Hr2 Hsup2) as (T1 & T2 & _). rewrite Hl2 in T1, T2.
  change (negb false) with true in T1, T2.
  assert (Hp3 : processingCommand (step w2 Toggle) = false).
  { cbn -[rerender toggleListening]. rewrite Hsup2.
    destruct (rerender_rest (autoListening w2) (toggleListening w2)) as (Hb1 & _).
    destruct (toggleListening_rest w2) as (Hb2 & _).
    unfold busyState in Hb1, Hb2. congruence. }
  split.
  { cbn -[processCommand rerender]. by rewrite Hl2. }
  split; [exact T1|]. split; [exact T2|]. split; [exact Hp3|].
  assert (Hr3 : reachable (step w2 Toggle)) by (by apply reachable_step).
  assert (Htn : Js.truthy next = true) by (by apply branch_nonempty).
  pose proof (host_constant w2 Toggle) as Hh.
  remember (step w2 Toggle) as w3 eqn:Hw3. clear Hw3.
  unfold hostState in Hh.
  assert (Hsy3 : speechSynthesisInWindow w3 = true) by congruence.
  clear Hh.
  assert (Hr4 : reachable (step w3 (Transcript next o'))) by (by apply reachable_step).
  pose proof (host_constant w3 (Transcript next o')) as Hh.
  destruct (busy_idle _ (reachable_busy _ Hr3) Hp3) as (Hs3 & Hu3 & _).
  assert (Hphase : talking w3 (step w3 (Transcript next o')) \/
                   waiting w3 (step w3 (Transcript next o'))).
  { rewrite (step_taken w3 next o' T1 Htn Hp3).
    destruct (rerender_rest (autoListening w3) (processCommand o' next w3))
      as (Hb1 & _).
    unfold busyState in Hb1.
    assert (Hb2 : suspended (rerender (autoListening w3) (processCommand o' next w3)) =
                  suspended (processCommand o' next w3)) by congruence.
    assert (Hb5 : utterance (rerender (autoListening w3) (processCommand o' next w3)) =
                  utterance (processCommand o' next w3)) by congruence.
    destruct (processCommand_phase o' next w3 Hsy3 Hs3 Hu3 Hnext)
      as [(P1 & P2 & P3)|(P1 & P2 & P3)]; [left|right]; unfold talking, waiting;
      rewrite Hb2, Hb5, rerender_spoken; done. }
  remember (step w3 (Transcript next o')) as w4 eqn:Hw4. clear Hw4.
  unfold hostState in Hh.
  assert (Hsy4 : speechSynthesisInWindow w4 = true) by congruence.
  destruct (reachable_busy _ Hr4) as (_ & B2 & B3 & B4).
  destruct Hphase as [(_ & [u Hu4] & _)|([p Hs4] & _)].
  - destruct B3 as [Hsp _]; [congruence|]. destruct (B4 Hsy4). congruence.
  - destruct B2 as [_ Hpc]; [congruence|]. exact Hpc.
Qed.

End Queries.

Section Pending.

Context `{Builtins}.

(** *** Without speech recognition *)

Lemma unsupported_mounted (w : World) :
  reachable w -> browserSupportsSpeechRecognition w = false ->
  exists synthesis, w = mounted synthesis false.
Proof.
  induction 1 as [synthesis recognition|w e Hr IH]; intros Hs.
  - exists synthesis. by destruct recognition, synthesis.
  - pose proof (host_constant w e) as Hh. unfold hostState in Hh.
    destruct IH as [synthesis ->]; [congruence|].
    exists synthesis. by destruct e, synthesis.
Qed.

(** X20. Where the browser has no speech recognition the component is
    inert: the message is all that is rendered, no recognition has been
    started, nothing has been said or requested, and no event, in any order,
    changes anything. *)
Theorem unsupported_inert (w : World) (es : list Event) :
  reachable w ->
  browserSupportsSpeechRecognition w = false ->
  View.unsupported w = true /\ calls w = [] /\ run w es = w.
Proof.
  intros Hr Hs. split; [unfold View.unsupported; by rewrite Hs|].
  destruct (unsupported_mounted w Hr Hs) as [synthesis ->].
  split; [by destruct synthesis|].
  induction es as [|e es IH]; [done|].
  change (run (mounted synthesis false) (e :: es))
    with (run (step (mounted synthesis false) e) es).
  assert (Hstep : step (mounted synthesis false) e = mounted synthesis false)
    by (by destruct e, synthesis).
  by rewrite Hstep.
Qed.

(** *** What a query is about *)

Lemma queryInvariant_ext (w' w : World) :
  suspended w' = suspended w -> cryptoData w' = cryptoData w ->
  queryInvariant w -> queryInvariant w'.
Proof. unfold queryInvariant. by intros -> ->. Qed.

Lemma processCommand_query (o : Oracle) (transcript : string) (w : World) :
  suspended w = None ->
  match suspended (processCommand o transcript w) with
  | Some (AwaitTicker symbol normalizedSymbol) =>
      normalizeSymbol symbol = Some normalizedSymbol
  | Some (AwaitKlines _ _ _) => False
  | None => True
  end.
Proof.
  intros Hs. unfold processCommand.
  destruct (wakeWord_rest (Js.toLowerCase transcript) w) as (_ & Hbs & _).
  assert (Hs1 : suspended (wakeWord (Js.toLowerCase transcript) w) = None).
  { unfold busyState in Hbs. congruence. }
  clear Hbs Hs.
  remember (wakeWord (Js.toLowerCase transcript) w) as w1 eqn:Hw1. clear Hw1 w.
  destruct_world w1. cbn in Hs1. subst.
  destruct (branch (Js.toLowerCase transcript)); [..|done];
    unfold handleConversation, fetchCryptoData, fetchCryptoData_catch,
      fetchCryptoData_returned, speakText; cbn;
    try (destruct (normalizeSymbol keyword) eqn:Hn); cbn;
    try destruct synthesis_; done.
Qed.

Lemma queryInvariant_mounted (synthesis recognition : bool) :
  queryInvariant (mounted synthesis recognition).
Proof. by destruct synthesis, recognition. Qed.

Lemma queryInvariant_step (w : World) (e : Event) :
  busyInvariant w -> queryInvariant w -> queryInvariant (step w e).
Proof.
  intros Hbusy Hq.
  destruct e as [transcript o|r now|r| | |];
    cbn -[klinesSettled tickerSettled processCommand rerender toggleListening onend].
  - destruct (negb (listening w) || negb (Js.truthy transcript)); [done|].
    destruct (processingCommand w) eqn:Hp; [done|].
    destruct (busy_idle w Hbusy Hp) as (Hs & _).
    destruct (rerender_rest (autoListening w) (processCommand o transcript w))
      as (Hb1 & _ & _ & Hc1 & _).
    destruct (processCommand_rest o transcript w) as (_ & Hc2 & _).
    pose proof (processCommand_query o transcript w Hs) as Hpq.
    assert (Hs1 : suspended (rerender (autoListening w) (processCommand o transcript w)) =
                  suspended (processCommand o transcript w))
      by (unfold busyState in Hb1; congruence).
    unfold queryInvariant. rewrite Hs1, Hc1, Hc2. split; [apply Hq|].
    by destruct (suspended (processCommand o transcript w)) as [[]|].
  - destruct (suspended w) as [[symbol ns|symbol ns data]|] eqn:Hs; try done.
    destruct Hq as [Hq1 Hq2]. rewrite Hs in Hq2.
    destruct r as [err| |data].
    + destruct (tickerSettled_failure symbol ns (Rejected err) now w) as (Hc & _ & _ & Hs' & _);
        [done|].
      unfold queryInvariant. by rewrite Hc, Hs'.
    + destruct (tickerSettled_failure symbol ns NotOk now w) as (Hc & _ & _ & Hs' & _);
        [done|].
      unfold queryInvariant. by rewrite Hc, Hs'.
    + clear Hs Hq1 Hbusy. destruct_world w.
      unfold queryInvariant, tickerSettled, fetchHistoricalPrices. rewrite Hq2. cbn.
      split; [|done]. intros d [= <-]. cbn. eauto.
  - destruct (suspended w) as [[symbol ns|symbol ns data]|] eqn:Hs; try done.
    destruct Hq as [Hq1 Hq2].
    destruct (klinesSettled_rest ns data r w) as (_ & _ & _ & Hc).
    assert (Hs' : suspended (klinesSettled ns data r w) = None).
    { clear. destruct_world w.
      unfold klinesSettled, fetchCryptoData_speak, fetchCryptoData_returned,
        speakAnalysis, speakText.
      destruct r as [err| |rows]; cbn; destruct synthesis_; done. }
    unfold queryInvariant. by rewrite Hc, Hs'.
  - destruct (utterance w); [|done].
    apply (queryInvariant_ext _ w); [| |done]; by destruct_world w.
  - destruct (timeout w); [|done].
    apply (queryInvariant_ext _ w); [| |done]; by destruct_world w.
  - destruct (browserSupportsSpeechRecognition w); [|done].
    destruct (rerender_rest (autoListening w) (toggleListening w)) as (Hb1 & _ & _ & Hc1 & _).
    destruct (toggleListening_rest w) as (Hb2 & _ & _ & Hc2 & _).
    unfold busyState in Hb1, Hb2.
    apply (queryInvariant_ext _ w); [congruence|congruence|done].
Qed.

Lemma reachable_query (w : World) : reachable w -> queryInvariant w.
Proof.
  induction 1 as [synthesis recognition|w e Hr IH].
  - apply queryInvariant_mounted.
  - apply queryInvariant_step; [by apply reachable_busy|done].
Qed.

(** X21. The two requests of a query are for the same pair: when the
    ticker comes back, the klines are requested for the pair the ticker was
    requested for, for the seven days up to now, so the early [return] of
    [fetchHistoricalPrices] is never taken; and whatever the klines request
    brings back, the snapshot on the card is the one the analysis is spoken
    about. *)
Theorem same_pair (w : World) (symbol normalizedSymbol : string)
    (data : TickerData) (now : Z) (r : Settled (list Kline)) :
  reachable w ->
  suspended w = Some (AwaitTicker symbol normalizedSymbol) ->
  calls (step w (TickerSettled (Body data) now)) =
    calls w ++ [fetchKlines normalizedSymbol (now - 604800000) now] /\
  suspended (step w (TickerSettled (Body data) now)) =
    Some (AwaitKlines symbol normalizedSymbol data) /\
  cryptoData (run w [TickerSettled (Body data) now; KlinesSettled r]) =
    Some (cryptoDataOf normalizedSymbol data) /\
  (speechSynthesisInWindow w = true ->
   utterance (run w [TickerSettled (Body data) now; KlinesSettled r]) =
     Some (Speech.formatText (analysisText (cryptoDataOf normalizedSymbol data)))).
Proof.
  intros Hr Hs.
  destruct (reachable_query w Hr) as [_ Hq]. rewrite Hs in Hq.
  change (run w [TickerSettled (Body data) now; KlinesSettled r])
    with (step (step w (TickerSettled (Body data) now)) (KlinesSettled r)).
  rewrite (step_ticker w symbol normalizedSymbol (Body data) now Hs).
  clear Hr. destruct_world w. cbn in Hs. subst.
  unfold tickerSettled, fetchHistoricalPrices. rewrite Hq.
  cbn -[klinesSettled].
  unfold klinesSettled, fetchCryptoData_speak, fetchCryptoData_returned, speakAnalysis,
    speakText.
  destruct r as [err| |rows]; cbn; destruct synthesis_; cbn; by repeat split.
Qed.

(** X22. The snapshot on the page is always of a pair of the table: its
    symbol is a non-empty base asset followed by USDT, and the heading of
    the card and the label of the chart show that base asset. *)
Theorem snapshot_listed (w : World) (data : CryptoData) :
  reachable w ->
  cryptoData w = Some data ->
  exists base,
    base <> EmptyString /\
    symbol data = (base ++ "USDT")%string /\
    View.chartLabel w = (base ++ " Price (USD)")%string.
Proof.
  intros Hr Hc.
  destruct (reachable_query w Hr) as [Hq _].
  destruct (Hq data Hc) as [keyword Hn].
  apply resolved_entry in Hn.
  pose proof symbolEntries_shape as Hall.
  rewrite Forall_forall in Hall. destruct (Hall _ Hn) as (H1 & H2 & _).
  exists (Js.replaceFirst (symbol data) "USDT" "").
  unfold View.chartLabel. rewrite Hc. done.
Qed.

End Pending.

Section Banner.

Context `{Builtins}.

(** *** The error banner *)

Lemma branch_keyword (lowerTranscript keyword : string) :
  branch lowerTranscript = BCrypto keyword -> (keyword ∈ cryptoKeywords).
Proof.
  unfold branch. destruct (conversationQuery lowerTranscript); [discriminate|].
  destruct (firstKeyword lowerTranscript) as [k|] eqn:Hf.
  - intros [= <-]. apply find_some in Hf as [Hin _]. by apply list_elem_of_In.
  - by repeat case_match.
Qed.

(** X23. A name found in the transcript always resolves: the request for
    its ticker goes out, the spinner is on and the banner is cleared, so the
    complaint about an unrecognised name cannot come from a spoken
    command. *)
Theorem spoken_asset_resolves (w : World) (transcript keyword : string) (o : Oracle) :
  listening w = true ->
  processingCommand w = false ->
  branch (Js.toLowerCase transcript) = BCrypto keyword ->
  exists normalizedSymbol,
    normalizeSymbol keyword = Some normalizedSymbol /\
    suspended (step w (Transcript transcript o)) =
      Some (AwaitTicker keyword normalizedSymbol) /\
    calls (step w (Transcript transcript o)) =
      calls (wakeWord (Js.toLowerCase transcript) w) ++ [fetchTicker normalizedSymbol] /\
    View.banner (step w (Transcript transcript o)) = false /\
    View.spinner (step w (Transcript transcript o)) = true.
Proof.
  intros Hl Hp Hb.
  destruct (keyword_resolves keyword (branch_keyword _ _ Hb)) as (ns & Hn & _).
  exists ns. split; [exact Hn|].
  rewrite (crypto_started w transcript keyword ns o Hl Hp Hb Hn).
  generalize (wakeWord (Js.toLowerCase transcript) w). intros w1.
  by destruct_world w1.
Qed.






End Banner.

(** ** The component and its renders *)

Section Page.

Context `{Builtins}.

(** *** Runs of the command effect *)

Lemma resetCalled_same (w : World) : resetCalled w w = false.
Proof. unfold resetCalled. by rewrite drop_all. Qed.

Lemma handle_same (e : Event) (p : Hook.Page) :
  step (Hook.world p) e = Hook.world p -> handle e p = p.
Proof.
  intros He. unfold handle. rewrite He, resetCalled_same. by destruct p.
Qed.

Lemma effect_skipped (w : World) (transcript : string) (o : Oracle) :
  listening w && Js.truthy transcript && negb (processingCommand w) = false ->
  step w (Transcript transcript o) = w.
Proof.
  cbn -[processCommand rerender].
  destruct (listening w), (Js.truthy transcript), (processingCommand w); done.
Qed.

Lemma effect_taken (w : World) (transcript : string) (o : Oracle) :
  listening w && Js.truthy transcript && negb (processingCommand w) = true ->
  step w (Transcript transcript o) =
    rerender (autoListening w) (processCommand o transcript w).
Proof.
  cbn -[processCommand rerender].
  destruct (listening w), (Js.truthy transcript), (processingCommand w); done.
Qed.

Lemma render_S (fuel : nat) (o : Oracle) (p : Hook.Page) :
  render (S fuel) o p =
    if decide (dependencies p = Hook.rendered p) then p
    else render fuel o (commandEffect o (markRendered p)).
Proof. reflexivity. Qed.

(** A render in which the effect does nothing only records the
    dependencies. *)
Lemma render_skipped (fuel : nat) (o : Oracle) (p : Hook.Page) :
  step (Hook.world p) (Transcript (Hook.transcript p) o) = Hook.world p ->
  render (S fuel) o p = markRendered p.
Proof.
  intros Hs. cbn [render]. case_decide as Hd.
  - unfold markRendered. rewrite Hd. by destruct p.
  - unfold commandEffect. rewrite handle_same; [|exact Hs].
    destruct fuel; cbn [render]; by rewrite decide_True.
Qed.

Lemma render_busy (fuel : nat) (o : Oracle) (p : Hook.Page) :
  processingCommand (Hook.world p) = true -> render (S fuel) o p = markRendered p.
Proof. intros Hp. apply render_skipped. by apply step_transcript_dropped. Qed.

Lemma wakeWord_label (lt : string) (w : World) :
  wakeWordDetected (wakeWord lt w) = wakeWordDetected w || Js.includes lt "jarvis" /\
  listening (wakeWord lt w) = listening w /\
  autoListening (wakeWord lt w) = autoListening w /\
  processingCommand (wakeWord lt w) = processingCommand w /\
  resetCalled w (wakeWord lt w) = false /\
  (Js.includes lt "jarvis" = false -> wakeWord lt w = w).
Proof.
  destruct_world w. unfold wakeWord, resetCalled.
  destruct (Js.includes lt "jarvis"); cbn;
    [|rewrite drop_all, orb_false_r; by repeat split].
  rewrite orb_true_r.
  destruct wakeWordTimer_; cbn; [case_decide; cbn|];
    rewrite <- ?app_assoc, drop_app_length; by repeat split.
Qed.

Lemma processCommand_flag (o : Oracle) (transcript : string) (w : World) :
  branch (Js.toLowerCase transcript) <> BNone ->
  processingCommand (processCommand o transcript w) = true.
Proof.
  intros Hb. unfold processCommand.
  generalize (wakeWord (Js.toLowerCase transcript) w). intros w1. destruct_world w1.
  destruct (branch (Js.toLowerCase transcript)); [..|done];
    unfold handleConversation, fetchCryptoData, fetchCryptoData_catch,
      fetchCryptoData_returned, speakText; cbn;
    try destruct (normalizeSymbol keyword); cbn; by destruct synthesis_.
Qed.

Lemma rerender_same (w : World) : rerender (autoListening w) w = w.
Proof. unfold rerender. by rewrite Bool.eqb_reflx. Qed.

(** The effect on a transcript that matches no command. *)
Lemma effect_idle (w : World) (transcript : string) (o : Oracle) :
  branch (Js.toLowerCase transcript) = BNone ->
  listening w && Js.truthy transcript && negb (processingCommand w) = true ->
  step w (Transcript transcript o) = wakeWord (Js.toLowerCase transcript) w.
Proof.
  intros Hb Ht. rewrite (effect_taken w transcript o Ht).
  unfold processCommand. rewrite Hb.
  destruct (wakeWord_label (Js.toLowerCase transcript) w) as (_ & _ & <- & _).
  apply rerender_same.
Qed.

Lemma effect_flag (w : World) (transcript : string) (o : Oracle) :
  branch (Js.toLowerCase transcript) <> BNone ->
  listening w && Js.truthy transcript && negb (processingCommand w) = true ->
  processingCommand (step w (Transcript transcript o)) = true.
Proof.
  intros Hb Ht. rewrite (effect_taken w transcript o Ht).
  destruct (rerender_rest (autoListening w) (processCommand o transcript w)) as (Hbs & _).
  unfold busyState in Hbs.
  assert (Hp : processingCommand (rerender (autoListening w) (processCommand o transcript w)) =
               processingCommand (processCommand o transcript w)) by congruence.
  rewrite Hp. by apply processCommand_flag.
Qed.

(** A run of the effect never takes the label down. *)
Lemma effect_label (w : World) (transcript : string) (o : Oracle) :
  wakeWordDetected (step w (Transcript transcript o)) =
    wakeWordDetected w ||
    (listening w && Js.truthy transcript && negb (processingCommand w) &&
     Js.includes (Js.toLowerCase transcript) "jarvis").
Proof.
  destruct (listening w && Js.truthy transcript && negb (processingCommand w)) eqn:Ht.
  - rewrite (effect_taken w transcript o Ht).
    destruct (rerender_rest (autoListening w) (processCommand o transcript w))
      as (_ & Hw1 & _).
    destruct (processCommand_rest o transcript w) as (_ & _ & _ & Hw2).
    unfold wakeState in Hw1, Hw2.
    assert (Hl : wakeWordDetected (rerender (autoListening w) (processCommand o transcript w)) =
                 wakeWordDetected (wakeWord (Js.toLowerCase transcript) w)) by congruence.
    rewrite Hl. by destruct (wakeWord_label (Js.toLowerCase transcript) w) as (-> & _).
  - rewrite (effect_skipped w transcript o Ht). cbn. by rewrite orb_false_r.
Qed.

(** *** The renders settle *)

Lemma render_idle (fuel : nat) (o : Oracle) (p : Hook.Page) :
  branch (Js.toLowerCase (Hook.transcript p)) = BNone ->
  dependencies (render (S (S fuel)) o p) = Hook.rendered (render (S (S fuel)) o p).
Proof.
  intros Hb.
  destruct (listening (Hook.world p) && Js.truthy (Hook.transcript p) &&
            negb (processingCommand (Hook.world p))) eqn:Ht.
  - cbn [render]. case_decide as Hd; [done|].
    pose proof (effect_idle (Hook.world p) (Hook.transcript p) o Hb Ht) as He.
    destruct (wakeWord_label (Js.toLowerCase (Hook.transcript p)) (Hook.world p))
      as (Hw & Hl & _ & Hp & Hr & _).
    assert (Hp1 : commandEffect o (markRendered p) =
                  {| Hook.world := wakeWord (Js.toLowerCase (Hook.transcript p)) (Hook.world p);
                     Hook.transcript := Hook.transcript p;
                     Hook.rendered := dependencies p |}).
    { unfold commandEffect, handle, markRendered. cbn [Hook.world Hook.transcript Hook.rendered].
      by rewrite He, Hr. }
    rewrite Hp1. case_decide as Hd1; [done|].
    set (p1 := {| Hook.world := wakeWord (Js.toLowerCase (Hook.transcript p)) (Hook.world p);
                  Hook.transcript := Hook.transcript p;
                  Hook.rendered := dependencies p |}) in *.
    assert (Ht1 : listening (Hook.world p1) && Js.truthy (Hook.transcript p1) &&
                  negb (processingCommand (Hook.world p1)) = true).
    { unfold p1. cbn [Hook.world Hook.transcript]. by rewrite Hl, Hp. }
    pose proof (effect_idle (Hook.world p1) (Hook.transcript p1) o Hb Ht1) as He1.
    destruct (wakeWord_label (Js.toLowerCase (Hook.transcript p1)) (Hook.world p1))
      as (Hw1 & Hl1 & _ & _ & Hr1 & _).
    assert (Hp2 : commandEffect o (markRendered p1) =
                  {| Hook.world := wakeWord (Js.toLowerCase (Hook.transcript p1)) (Hook.world p1);
                     Hook.transcript := Hook.transcript p1;
                     Hook.rendered := dependencies p1 |}).
    { unfold commandEffect, handle, markRendered. cbn [Hook.world Hook.transcript Hook.rendered].
      by rewrite He1, Hr1. }
    rewrite Hp2.
    assert (Hst : dependencies
                    {| Hook.world := wakeWord (Js.toLowerCase (Hook.transcript p1)) (Hook.world p1);
                       Hook.transcript := Hook.transcript p1;
                       Hook.rendered := dependencies p1 |} = dependencies p1).
    { unfold dependencies. cbn [Hook.world Hook.transcript Hook.rendered].
      rewrite Hw1, Hl1. unfold p1. cbn [Hook.world Hook.transcript].
      rewrite Hw. by destruct (wakeWordDetected (Hook.world p)),
        (Js.includes (Js.toLowerCase (Hook.transcript p)) "jarvis"). }
    destruct fuel; cbn [render]; rewrite decide_True; done.
  - rewrite render_skipped; [done|]. by apply effect_skipped.
Qed.

Lemma render_command (fuel : nat) (o : Oracle) (p : Hook.Page) :
  branch (Js.toLowerCase (Hook.transcript p)) <> BNone ->
  dependencies (render (S (S fuel)) o p) = Hook.rendered (render (S (S fuel)) o p).
Proof.
  intros Hb.
  destruct (listening (Hook.world p) && Js.truthy (Hook.transcript p) &&
            negb (processingCommand (Hook.world p))) eqn:Ht.
  - rewrite render_S. case_decide as Hd; [done|].
    rewrite render_busy; [done|].
    unfold commandEffect, handle, markRendered. cbn [Hook.world Hook.transcript].
    by apply effect_flag.
  - rewrite render_skipped; [done|]. by apply effect_skipped.
Qed.

Lemma render_settles_from (fuel : nat) (o : Oracle) (p : Hook.Page) :
  dependencies (render (S (S fuel)) o p) = Hook.rendered (render (S (S fuel)) o p).
Proof.
  destruct (branch (Js.toLowerCase (Hook.transcript p))) eqn:Hb;
    first [by apply render_idle | apply render_command; congruence].
Qed.

Lemma happen_settled (p : Hook.Page) (io : Hook.Input * Oracle) :
  dependencies (happen p io) = Hook.rendered (happen p io).
Proof. unfold happen, renders. apply render_settles_from. Qed.

Lemma reachablePage_settled (p : Hook.Page) :
  reachablePage p -> dependencies p = Hook.rendered p.
Proof.
  induction 1 as [synthesis recognition|p io _ _]; [|apply happen_settled].
  by destruct synthesis, recognition.
Qed.

Lemma render_reachable (fuel : nat) (o : Oracle) (p : Hook.Page) :
  reachable (Hook.world p) -> reachable (Hook.world (render fuel o p)).
Proof.
  revert p. induction fuel as [|fuel IH]; intros p Hr; cbn [render];
    case_decide; try done.
  apply IH. unfold commandEffect, handle, markRendered. cbn [Hook.world Hook.transcript].
  by apply reachable_step.
Qed.

Lemma reachablePage_world (p : Hook.Page) :
  reachablePage p -> reachable (Hook.world p).
Proof.
  induction 1 as [synthesis recognition|p [i o] _ IH]; [apply reachable_mounted|].
  unfold happen. apply render_reachable. cbn [fst snd].
  destruct i; cbn [handlerOf handle Hook.world]; try done; by apply reachable_step.
Qed.

End Page.

Section Renders.

Context `{Builtins}.

Lemma render_O (o : Oracle) (p : Hook.Page) : render 0 o p = p.
Proof. cbn [render]. by case_decide. Qed.

Lemma render_more (fuel : nat) (o : Oracle) (p : Hook.Page) :
  dependencies (render fuel o p) = Hook.rendered (render fuel o p) ->
  render (S fuel) o p = render fuel o p.
Proof.
  revert p. induction fuel as [|fuel IH]; intros p Hst.
  - rewrite render_O in *. rewrite render_S. by rewrite decide_True.
  - rewrite (render_S (S fuel) o p). rewrite (render_S fuel o p) in Hst |- *.
    case_decide; [done|]. by apply IH.
Qed.

(** X28. The renders that follow a change always settle: whatever the page
    and whatever the effect draws, after at most three renders no
    dependency of the command effect differs from the last render, and
    further renders change nothing. *)
Theorem renders_settle (o : Oracle) (p : Hook.Page) (more : nat) :
  dependencies (render renders o p) = Hook.rendered (render renders o p) /\
  render (renders + more) o p = render renders o p.
Proof.
  assert (Hst : forall fuel, dependencies (render (S (S fuel)) o p) =
                             Hook.rendered (render (S (S fuel)) o p))
    by (intros; apply render_settles_from).
  split; [apply Hst|].
  induction more as [|more IH]; [by rewrite Nat.add_0_r|].
  rewrite Nat.add_succ_r, render_more; [exact IH|].
  rewrite IH. apply Hst.
Qed.

(** *** One command at a time *)

(** X25. While a request is outstanding or an utterance is being rendered
    the processing flag is set, and then: a transcript that is heard starts
    nothing, whatever it says; every input other than the end of the
    utterance runs its own handler and nothing else, no render taking a
    transcript up; and the flag stays set until the utterance ends. *)
Theorem one_command_at_a_time (p : Hook.Page) (i : Hook.Input) (o : Oracle) :
  reachablePage p ->
  inFlight (Hook.world p) ->
  processingCommand (Hook.world p) = true /\
  (forall transcript,
      Hook.world (happen p (Hook.Heard transcript, o)) = Hook.world p) /\
  (i <> Hook.UtteranceEnd ->
   processingCommand (Hook.world (happen p (i, o))) = true /\
   Hook.world (happen p (i, o)) =
     match handlerOf i with
     | Some e => step (Hook.world p) e
     | None => Hook.world p
     end).
Proof.
  intros Hr Hin.
  pose proof (reachable_invariant _ (reachablePage_world p Hr)) as Hinv.
  assert (Hp : processingCommand (Hook.world p) = true).
  { destruct Hinv as (Hflag & _).
    destruct (processingCommand (Hook.world p)) eqn:Hp; [done|].
    destruct (Hflag eq_refl) as [Hs Hu]. destruct Hin; congruence. }
  assert (Hheard : forall transcript,
             Hook.world (happen p (Hook.Heard transcript, o)) = Hook.world p).
  { intros transcript. unfold happen, renders. cbn [fst snd].
    by rewrite render_busy. }
  split; [exact Hp|]. split; [exact Hheard|].
  intros Hi.
  assert (Hstep : forall e, e <> SpeechEnd ->
             processingCommand (Hook.world (render renders o (handle e p))) = true /\
             Hook.world (render renders o (handle e p)) = step (Hook.world p) e).
  { intros e He. pose proof (flag_survives _ e Hinv He Hp) as Hp'.
    unfold renders. rewrite render_busy; [|exact Hp']. by split. }
  destruct i as [transcript|r now|r| | |];
    [cbn [handlerOf]; by rewrite Hheard| | |by destruct Hi| |];
    unfold happen; cbn [fst snd handlerOf]; apply Hstep; discriminate.
Qed.

(** *** The wake-word label and the renders *)

Lemma handle_transcript (e : Event) (p : Hook.Page) :
  Hook.transcript (handle e p) = Hook.transcript p \/
  Hook.transcript (handle e p) = EmptyString.
Proof. unfold handle. cbn [Hook.transcript]. destruct (resetCalled _ _); auto. Qed.

Lemma render_label_kept (fuel : nat) (o : Oracle) (p : Hook.Page) :
  wakeWordDetected (Hook.world p) = true ->
  wakeWordDetected (Hook.world (render fuel o p)) = true.
Proof.
  revert p. induction fuel as [|fuel IH]; intros p Hw;
    [by rewrite render_O|].
  rewrite render_S. case_decide; [done|]. apply IH.
  unfold commandEffect, handle, markRendered. cbn [Hook.world Hook.transcript].
  by rewrite effect_label, Hw.
Qed.

Lemma render_label_off (fuel : nat) (o : Oracle) (p : Hook.Page) :
  Js.includes (Js.toLowerCase (Hook.transcript p)) "jarvis" = false ->
  wakeWordDetected (Hook.world p) = false ->
  wakeWordDetected (Hook.world (render fuel o p)) = false.
Proof.
  revert p. induction fuel as [|fuel IH]; intros p Hj Hw;
    [by rewrite render_O|].
  rewrite render_S. case_decide; [done|]. apply IH.
  - destruct (handle_transcript (Transcript (Hook.transcript (markRendered p)) o)
                (markRendered p)) as [Ht|Ht];
      unfold commandEffect; rewrite Ht; [exact Hj|done].
  - unfold commandEffect, handle, markRendered. cbn [Hook.world Hook.transcript].
    by rewrite effect_label, Hw, Hj, andb_false_r.
Qed.

Lemma timer_fired (w : World) :
  is_Some (timeout w) ->
  wakeWordDetected (step w TimerFired) = false /\
  listening (step w TimerFired) = listening w /\
  processingCommand (step w TimerFired) = processingCommand w /\
  calls (step w TimerFired) = calls w.
Proof. intros [id Hid]. destruct_world w. cbn in Hid. subst. done. Qed.

(** X11. On every page the component can be in, the "Wake word detected"
    label is on exactly while its timer is pending, and the pending timer
    is the one the ref cell holds.  When the timer elapses the label goes
    off, unless the component is listening and idle with a transcript that
    says "jarvis" still in the hook: the command effect then runs on it
    again and the label is back at once.  A new transcript that says
    "jarvis", heard while listening and idle, puts the label on. *)
Theorem wake_label (p : Hook.Page) (o : Oracle) :
  reachablePage p ->
  View.wakeLabel (Hook.world p) = View.present (timeout (Hook.world p)) /\
  (forall id, timeout (Hook.world p) = Some id -> wakeWordTimer (Hook.world p) = Some id) /\
  (is_Some (timeout (Hook.world p)) ->
   View.wakeLabel (Hook.world (happen p (Hook.TimerElapsed, o))) =
     listening (Hook.world p) && Js.truthy (Hook.transcript p) &&
     negb (processingCommand (Hook.world p)) &&
     Js.includes (Js.toLowerCase (Hook.transcript p)) "jarvis") /\
  (forall transcript,
      transcript <> Hook.transcript p ->
      listening (Hook.world p) && Js.truthy transcript &&
      negb (processingCommand (Hook.world p)) &&
      Js.includes (Js.toLowerCase transcript) "jarvis" = true ->
      View.wakeLabel (Hook.world (happen p (Hook.Heard transcript, o))) = true).
Proof.
  intros Hr.
  destruct (reachable_wake _ (reachablePage_world p Hr)) as (W1 & W2 & _).
  pose proof (reachablePage_settled p Hr) as Hst.
  split; [exact W1|]. split; [intros id Hid; by destruct (W2 id Hid)|].
  unfold View.wakeLabel. split.
  - intros Hpending.
    destruct (timer_fired (Hook.world p) Hpending) as (T1 & T2 & T3 & T4).
    unfold happen, renders. cbn [fst snd handlerOf].
    set (q := handle TimerFired p).
    assert (Hq : Hook.world q = step (Hook.world p) TimerFired /\
                 Hook.transcript q = Hook.transcript p).
    { unfold q, handle, resetCalled. cbn [Hook.world Hook.transcript].
      by rewrite T4, drop_all. }
    destruct Hq as [Hq1 Hq2].
    rewrite render_S. case_decide as Hd.
    + exfalso. unfold dependencies in Hd, Hst.
      assert (Hrq : Hook.rendered q = Hook.rendered p) by done.
      rewrite Hrq, <- Hst, Hq1, T1 in Hd.
      destruct Hpending as [id Hid]. unfold View.wakeLabel in W1.
      rewrite Hid in W1. cbn in W1. rewrite W1 in Hd. congruence.
    + set (p1 := commandEffect o (markRendered q)).
      assert (Hp1 : wakeWordDetected (Hook.world p1) =
                    listening (Hook.world p) && Js.truthy (Hook.transcript p) &&
                    negb (processingCommand (Hook.world p)) &&
                    Js.includes (Js.toLowerCase (Hook.transcript p)) "jarvis").
      { unfold p1, commandEffect, handle, markRendered. cbn [Hook.world Hook.transcript].
        by rewrite effect_label, Hq1, Hq2, T1, T2, T3. }
      destruct (listening (Hook.world p) && Js.truthy (Hook.transcript p) &&
                negb (processingCommand (Hook.world p)) &&
                Js.includes (Js.toLowerCase (Hook.transcript p)) "jarvis") eqn:Hc.
      * by apply render_label_kept.
      * destruct (Js.includes (Js.toLowerCase (Hook.transcript p)) "jarvis") eqn:Hj.
        -- rewrite andb_true_r in Hc.
           assert (Hsk : step (Hook.world q) (Transcript (Hook.transcript q) o) =
                         Hook.world q).
           { apply effect_skipped. by rewrite Hq1, Hq2, T2, T3. }
           assert (Hp1' : p1 = markRendered q).
           { unfold p1, commandEffect. by apply handle_same. }
           rewrite Hp1'. rewrite render_skipped; [|exact Hsk].
           cbn [markRendered Hook.world]. by rewrite Hq1, T1.
        -- apply render_label_off; [|exact Hp1].
           destruct (handle_transcript (Transcript (Hook.transcript (markRendered q)) o)
                       (markRendered q)) as [Ht|Ht];
             unfold p1, commandEffect; rewrite Ht; [|done].
           cbn [markRendered Hook.transcript]. by rewrite Hq2.
  - intros transcript Hne Hc.
    unfold happen, renders. cbn [fst snd].
    set (q := {| Hook.world := Hook.world p; Hook.transcript := transcript;
                 Hook.rendered := Hook.rendered p |}).
    rewrite render_S. case_decide as Hd.
    + exfalso. unfold dependencies in Hd, Hst. cbn in Hd. rewrite <- Hst in Hd.
      congruence.
    + apply render_label_kept.
      unfold commandEffect, handle, markRendered. cbn [Hook.world Hook.transcript].
      rewrite effect_label. cbn [q Hook.world Hook.transcript]. rewrite Hc.
      apply orb_true_r.
Qed.

End Renders.

(** ** Scenarios, run with the decimal built-ins *)

#[local] Existing Instance decimal.

Example parseFloat_samples :
  parseFloat "65000.00" = 65000%float /\
  parseFloat " -12.5e-1 USDT" = (-1.25)%float /\
  PrimFloat.is_nan (parseFloat "n/a") = true.
Proof. repeat split. Qed.

Example toFixed2_samples :
  toFixed2 65000%float = "65000.00"%string /\
  toFixed2 0.125%float = "0.13"%string /\
  toFixed2 (-120.5)%float = "-120.50"%string.
Proof. repeat split. Qed.

(** The narrative for the snapshot of the specification's scenario, before
    and after [formatText]. *)
Example snapshot_analysis :
  analysisText (cryptoDataOf "BTCUSDT" btcTicker) =
    "Here's my analysis for BTC. The current price is $65000.00 US dollars. In the last 24 hours, the price has changed by $500.00 dollars, which is a 0.77% increase. The highest price reached was $66000.00 dollars, while the lowest was $64000.00 dollars. The trading volume is approximately 15.00 million dollars. Overall, BTC is showing a upward trend with positive momentum in the last 24 hours. Consider your investment strategy based on your risk tolerance and long-term outlook."%string.
Proof. vm_compute. reflexivity. Qed.

Example snapshot_spoken :
  Speech.formatText (analysisText (cryptoDataOf "BTCUSDT" btcTicker)) =
    "Here's my analysis for BTC. The current price is dollars 65000 dollars and 00 cents US dollars. In the last 24 hours, the price has changed by dollars 500 dollars and 00 cents dollars, which is a 0 dollars and 77 cents percent increase. The highest price reached was dollars 66000 dollars and 00 cents dollars, while the lowest was dollars 64000 dollars and 00 cents dollars. The trading volume is approximately 15 dollars and 00 cents million dollars. Overall, BTC is showing a upward trend with positive momentum in the last 24 hours. Consider your investment strategy based on your risk tolerance and long-term outlook."%string.
Proof. vm_compute. reflexivity. Qed.

(** C1. A transcript heard while a command is being processed starts
    nothing then, but it is not dropped: it stays in the hook, and the
    command effect takes it up at the next render in which one of its
    dependencies has changed.  Here "bitcoin" is heard while the reply to
    "thanks jarvis" is being spoken; the reply ends and nothing happens;
    the wake-word timer elapses, the label changes, the effect runs on the
    transcript it still finds, and the ticker of bitcoin is requested. *)
Theorem retained_transcript :
  processingCommand
    (Hook.world (play (mountedPage true true) (take 1 thanksThenBitcoin))) = true /\
  Hook.world (play (mountedPage true true) (take 2 thanksThenBitcoin)) =
    Hook.world (play (mountedPage true true) (take 1 thanksThenBitcoin)) /\
  Hook.transcript (play (mountedPage true true) (take 2 thanksThenBitcoin)) =
    "bitcoin"%string /\
  processingCommand
    (Hook.world (play (mountedPage true true) (take 3 thanksThenBitcoin))) = false /\
  calls (Hook.world (play (mountedPage true true) (take 3 thanksThenBitcoin))) =
    [startListening; setTimeout 0; speechCancel;
     speechSpeak (Speech.formatText Reply.welcome); resetTranscript] /\
  calls (Hook.world (play (mountedPage true true) thanksThenBitcoin)) =
    calls (Hook.world (play (mountedPage true true) (take 3 thanksThenBitcoin))) ++
    [fetchTicker "BTCUSDT"] /\
  suspended (Hook.world (play (mountedPage true true) thanksThenBitcoin)) =
    Some (AwaitTicker "bitcoin" "BTCUSDT") /\
  processingCommand
    (Hook.world (play (mountedPage true true) thanksThenBitcoin)) = true.
Proof. vm_compute. repeat split. Qed.

(** Two runs of the command effect in quick succession: one request. *)
Example two_rapid_transcripts :
  calls (run (mounted true true)
           [Transcript "bitcoin" oracle0; Transcript "ethereum" oracle0]) =
    [startListening; fetchTicker "BTCUSDT"].
Proof. vm_compute. reflexivity. Qed.

(** C7. The failure of the klines request is swallowed and the analysis is
    spoken, but the chart is not omitted: the series is written on success
    only and never emptied.  After a bitcoin query answered in full, an
    ethereum query whose klines request is refused ends with the analysis
    card of ETH, and in it the chart labelled ETH drawn from the closes of
    BTC. *)
Theorem stale_chart :
  error (run (mounted true true) (bitcoinThenEthereum ++ [SpeechEnd])) = None /\
  calls (run (mounted true true) (bitcoinThenEthereum ++ [SpeechEnd])) =
    calls awaitingKlines ++
    [consoleError "Error fetching historical price data:"; speechCancel;
     speechSpeak (Speech.formatText (analysisText (cryptoDataOf "ETHUSDT" ethTicker)));
     resetTranscript] /\
  symbol <$> cryptoData (run (mounted true true) (bitcoinThenEthereum ++ [SpeechEnd])) =
    Some "ETHUSDT"%string /\
  View.analysis (run (mounted true true) (bitcoinThenEthereum ++ [SpeechEnd])) = true /\
  View.chart (run (mounted true true) (bitcoinThenEthereum ++ [SpeechEnd])) = true /\
  View.chartLabel (run (mounted true true) (bitcoinThenEthereum ++ [SpeechEnd])) =
    "ETH Price (USD)"%string /\
  View.chartPoints (run (mounted true true) (bitcoinThenEthereum ++ [SpeechEnd])) =
    View.chartPoints afterBitcoin /\
  time <$> historicalPrices (run (mounted true true) (bitcoinThenEthereum ++ [SpeechEnd])) =
    openTime <$> btcKlines /\
  historicalPrices (run (mounted true true) (bitcoinThenEthereum ++ [SpeechEnd])) <> [].
Proof.
  vm_compute. repeat split. discriminate.
Qed.

Lemma history_failure_silent_witness :
  suspended awaitingKlines = Some (AwaitKlines "ethereum" "ETHUSDT" ethTicker) /\
  (forall rows, @NotOk (list Kline) <> Body rows) /\
  cryptoData (step awaitingKlines (KlinesSettled NotOk)) = cryptoData awaitingKlines /\
  error (step awaitingKlines (KlinesSettled NotOk)) = error awaitingKlines.
Proof.
  assert (Hs : suspended awaitingKlines =
               Some (AwaitKlines "ethereum" "ETHUSDT" ethTicker))
    by (vm_compute; reflexivity).
  assert (Hf : forall rows, @NotOk (list Kline) <> Body rows) by discriminate.
  split; [exact Hs|]. split; [exact Hf|].
  pose proof (history_failure_silent awaitingKlines
                "ethereum" "ETHUSDT" ethTicker NotOk Hs Hf) as (H1 & H2 & _).
  split; [exact H1|exact H2].
Defined.

Lemma partial_failure_atomicity_witness :
  (normalizeSymbol "moonrocket" = None \/
   forall data, @Rejected TickerData (ErrorObject "Failed to fetch") <> Body data) /\
  cryptoData
    (run (fetchCryptoData "moonrocket" afterBitcoin)
       [TickerSettled (Rejected (ErrorObject "Failed to fetch")) 0; KlinesSettled NotOk]) =
    cryptoData afterBitcoin /\
  historicalPrices
    (run (fetchCryptoData "moonrocket" afterBitcoin)
       [TickerSettled (Rejected (ErrorObject "Failed to fetch")) 0; KlinesSettled NotOk]) =
    historicalPrices afterBitcoin.
Proof.
  assert (H0 : normalizeSymbol "moonrocket" = None \/
               forall data,
                 @Rejected TickerData (ErrorObject "Failed to fetch") <> Body data).
  { left. vm_compute. reflexivity. }
  split; [exact H0|].
  exact (proj2 (proj2
           (partial_failure_atomicity afterBitcoin "moonrocket"
              (Rejected (ErrorObject "Failed to fetch")) 0 NotOk H0))).
Defined.

(** A refused ticker request and an unknown name: the snapshot and the series
    of the earlier bitcoin query are still there, and the apology is spoken. *)
Example refused_ticker :
  symbol <$> cryptoData
    (run (mounted true true)
       (take 5 bitcoinThenEthereum ++ [TickerSettled NotOk 0])) = Some "BTCUSDT"%string /\
  error
    (run (mounted true true)
       (take 5 bitcoinThenEthereum ++ [TickerSettled NotOk 0])) =
    Some "Failed to fetch data for ETHUSDT"%string /\
  utterance
    (run (mounted true true)
       (take 5 bitcoinThenEthereum ++ [TickerSettled NotOk 0])) =
    Some "I'm sorry, I couldn't retrieve data for ethereum. Failed to fetch data for ETHUSDT"%string.
Proof. vm_compute. repeat split. Qed.

Example unknown_alias :
  utterance (fetchCryptoData "moonrocket" (mounted true true)) =
    Some "I'm sorry, I couldn't retrieve data for moonrocket. Could not recognize cryptocurrency: moonrocket"%string.
Proof. vm_compute. reflexivity. Qed.

(** C9, as stated, fails: the recogniser is already stopped and the
    component already idle while the confirmation is being rendered, the end
    of the utterance stops nothing, and [stopListening] has been called
    twice. *)
Lemma stop_listening_counterexample :
  utterance (step (mounted true true) (Transcript "stop listening" oracle0)) =
    Some "I've stopped listening. Click the microphone button when you want me to listen again."%string /\
  speaking (step (mounted true true) (Transcript "stop listening" oracle0)) = true /\
  recognizing (step (mounted true true) (Transcript "stop listening" oracle0)) = false /\
  listening (step (mounted true true) (Transcript "stop listening" oracle0)) = false /\
  calls (run (mounted true true) [Transcript "stop listening" oracle0; SpeechEnd]) =
    [startListening; stopListening; speechCancel;
     speechSpeak "I've stopped listening. Click the microphone button when you want me to listen again.";
     resetTranscript; stopListening].
Proof. vm_compute. repeat split. Qed.

Lemma stop_listening_sequence_witness :
  reachable (mounted true true) /\
  listening (mounted true true) = true /\
  processingCommand (mounted true true) = false /\
  branch (Js.toLowerCase "Stop listening") = BStop /\
  listening (step (mounted true true) (Transcript "Stop listening" oracle0)) = false /\
  recognizing (step (mounted true true) (Transcript "Stop listening" oracle0)) = false /\
  processingCommand (step (mounted true true) (Transcript "Stop listening" oracle0)) = true.
Proof.
  assert (Hr : reachable (mounted true true)) by apply reachable_mounted.
  split; [exact Hr|]. do 3 (split; [reflexivity|]).
  pose proof (stop_listening_sequence (mounted true true) "Stop listening" oracle0
                Hr eq_refl eq_refl eq_refl) as (H1 & _ & H3 & H4 & _).
  split; [exact H1|]. split; [exact H3|exact H4].
Defined.

(** The stop phrase comes last in the cascade. *)
Example stop_shadowed :
  classify "stop listening to bitcoin" = Some (CryptoQuery "bitcoin") /\
  classify "hi, stop listening" = Some (Conversational Greeting) /\
  classify "this is it, stop listening" = Some (Conversational Greeting).
Proof. repeat split. Qed.

(** ** Instances of the further properties *)

Lemma normalizeSymbol_insensitive_witness :
  Js.all Js.is_space "  " = true /\
  Js.all Js.is_space " " = true /\
  normalizeSymbol ("  " ++ "DogeCoin" ++ " ")%string =
    normalizeSymbol (Js.toLowerCase "DogeCoin") /\
  normalizeSymbol (Js.toLowerCase "DogeCoin") = normalizeSymbol "DogeCoin".
Proof.
  split; [reflexivity|]. split; [reflexivity|].
  exact (normalizeSymbol_insensitive "  " "DogeCoin" " " eq_refl eq_refl).
Defined.

Lemma resolved_pair_witness :
  normalizeSymbolValue " Shiba Inu " = Some (OwnValue "SHIBUSDT") /\
  ((exists base,
       base <> EmptyString /\
       OwnValue "SHIBUSDT" = OwnValue (base ++ "USDT") /\
       Js.replaceFirst (base ++ "USDT") "USDT" "" = base /\
       (exists keyword,
           keyword ∈ cryptoKeywords /\
           normalizeSymbolValue keyword = Some (OwnValue "SHIBUSDT"))) \/
   (OwnValue "SHIBUSDT" = Inherited (Js.trim (Js.toLowerCase " Shiba Inu ")) /\
    (Js.trim (Js.toLowerCase " Shiba Inu ") = "constructor"%string \/
     Js.trim (Js.toLowerCase " Shiba Inu ") = "__proto__"%string))).
Proof.
  assert (Hn : normalizeSymbolValue " Shiba Inu " = Some (OwnValue "SHIBUSDT"))
    by (vm_compute; reflexivity).
  split; [exact Hn|].
  exact (resolved_pair " Shiba Inu " (OwnValue "SHIBUSDT") Hn).
Defined.

Lemma formatText_idempotent_witness :
  Js.all (fun a => negb (Js.is_digit a)) "Up   a few %, in $" = true /\
  Speech.formatText (Speech.formatText "Up   a few %, in $") =
    Speech.formatText "Up   a few %, in $".
Proof.
  assert (Hd : Js.all (fun a => negb (Js.is_digit a)) "Up   a few %, in $" = true)
    by (vm_compute; reflexivity).
  split; [exact Hd|].
  exact (formatText_idempotent "Up   a few %, in $" Hd).
Defined.

Lemma cascade_monotone_witness :
  conversationQuery "how are you" = true /\
  branch ("jarvis, " ++ "how are you" ++ " and how is bitcoin")%string = BConversation.
Proof.
  assert (Hq : conversationQuery "how are you" = true) by (vm_compute; reflexivity).
  split; [exact Hq|].
  exact (proj1 (cascade_monotone "jarvis, " "how are you" " and how is bitcoin") Hq).
Defined.

Lemma microphone_agrees_witness :
  reachable (mounted true true) /\
  View.transcriptBox (mounted true true) = recognizing (mounted true true).
Proof.
  assert (Hr : reachable (mounted true true)) by apply reachable_mounted.
  split; [exact Hr|].
  exact (proj1 (microphone_agrees (mounted true true) Hr)).
Defined.

Lemma spinner_and_animation_witness :
  reachable (step (mounted true true) (Transcript "bitcoin" oracle0)) /\
  View.spinner (step (mounted true true) (Transcript "bitcoin" oracle0)) =
    View.present (suspended (step (mounted true true) (Transcript "bitcoin" oracle0))).
Proof.
  assert (Hr : reachable (step (mounted true true) (Transcript "bitcoin" oracle0))).
  { apply reachable_step. apply reachable_mounted. }
  split; [exact Hr|].
  exact (proj1 (spinner_and_animation
                  (step (mounted true true) (Transcript "bitcoin" oracle0)) Hr)).
Defined.

Lemma cycle_completes_witness :
  reachable (mounted true true) /\
  speechSynthesisInWindow (mounted true true) = true /\
  listening (mounted true true) = true /\
  processingCommand (mounted true true) = false /\
  branch (Js.toLowerCase "Bitcoin") <> BNone /\
  processingCommand
    (run (mounted true true)
       [Transcript "Bitcoin" oracle0; TickerSettled (Body btcTicker) 1793600000000;
        KlinesSettled NotOk; SpeechEnd]) = false.
Proof.
  assert (Hr : reachable (mounted true true)) by apply reachable_mounted.
  assert (Hsy : speechSynthesisInWindow (mounted true true) = true)
    by (vm_compute; reflexivity).
  assert (Hl : listening (mounted true true) = true) by (vm_compute; reflexivity).
  assert (Hp : processingCommand (mounted true true) = false) by (vm_compute; reflexivity).
  assert (Hb : branch (Js.toLowerCase "Bitcoin") <> BNone) by (vm_compute; discriminate).
  split; [exact Hr|]. split; [exact Hsy|]. split; [exact Hl|]. split; [exact Hp|].
  split; [exact Hb|].
  exact (proj1 (cycle_completes (mounted true true) "Bitcoin" oracle0 (Body btcTicker)
                  1793600000000 NotOk Hr Hsy Hl Hp Hb)).
Defined.

Lemma successful_query_witness :
  listening (mounted true true) = true /\
  processingCommand (mounted true true) = false /\
  branch (Js.toLowerCase "Bitcoin") = BCrypto "bitcoin" /\
  normalizeSymbol "bitcoin" = Some "BTCUSDT"%string /\
  cryptoData
    (run (mounted true true)
       [Transcript "Bitcoin" oracle0; TickerSettled (Body btcTicker) 1793600000000;
        KlinesSettled (Body btcKlines)]) = Some (cryptoDataOf "BTCUSDT" btcTicker).
Proof.
  assert (Hl : listening (mounted true true) = true) by (vm_compute; reflexivity).
  assert (Hp : processingCommand (mounted true true) = false) by (vm_compute; reflexivity).
  assert (Hb : branch (Js.toLowerCase "Bitcoin") = BCrypto "bitcoin")
    by (vm_compute; reflexivity).
  assert (Hn : normalizeSymbol "bitcoin" = Some "BTCUSDT"%string)
    by (vm_compute; reflexivity).
  split; [exact Hl|]. split; [exact Hp|]. split; [exact Hb|]. split; [exact Hn|].
  exact (proj1 (proj2 (successful_query (mounted true true) "Bitcoin" "bitcoin" "BTCUSDT"
                         oracle0 btcTicker 1793600000000 btcKlines Hl Hp Hb Hn))).
Defined.

Lemma failed_query_witness :
  suspended (step (mounted true true) (Transcript "bitcoin" oracle0)) =
    Some (AwaitTicker "bitcoin" "BTCUSDT") /\
  (forall data : TickerData, NotOk <> Body data) /\
  View.spinner
    (step (step (mounted true true) (Transcript "bitcoin" oracle0))
       (TickerSettled NotOk 1793600000000)) = false.
Proof.
  assert (Hs : suspended (step (mounted true true) (Transcript "bitcoin" oracle0)) =
               Some (AwaitTicker "bitcoin" "BTCUSDT")) by (vm_compute; reflexivity).
  assert (Hf : forall data : TickerData, NotOk <> Body data) by (intros data; discriminate).
  split; [exact Hs|]. split; [exact Hf|].
  exact (proj1 (proj2 (proj2
           (failed_query (step (mounted true true) (Transcript "bitcoin" oracle0))
              "bitcoin" "BTCUSDT" NotOk 1793600000000 Hs Hf)))).
Defined.

Lemma cards_exclusive_witness :
  View.analysis afterBitcoin = true /\
  View.assistant afterBitcoin = false /\ View.invitation afterBitcoin = false.
Proof.
  assert (Ha : View.analysis afterBitcoin = true) by (vm_compute; reflexivity).
  split; [exact Ha|].
  exact (proj1 (cards_exclusive afterBitcoin) Ha).
Defined.

Lemma snapshot_kept_witness :
  is_Some (cryptoData afterBitcoin) /\
  is_Some (cryptoData (run afterBitcoin [Transcript "hello" oracle0; SpeechEnd])) /\
  View.invitation (run afterBitcoin [Transcript "hello" oracle0; SpeechEnd]) = false /\
  View.assistant (run afterBitcoin [Transcript "hello" oracle0; SpeechEnd]) = false /\
  (lastInteraction (run afterBitcoin [Transcript "hello" oracle0; SpeechEnd]) =
     "conversation"%string ->
   View.analysis (run afterBitcoin [Transcript "hello" oracle0; SpeechEnd]) = false /\
   View.chart (run afterBitcoin [Transcript "hello" oracle0; SpeechEnd]) = false).
Proof.
  assert (Hc : is_Some (cryptoData afterBitcoin)).
  { exists (cryptoDataOf "BTCUSDT" btcTicker). vm_compute. reflexivity. }
  split; [exact Hc|].
  exact (snapshot_kept afterBitcoin [Transcript "hello" oracle0; SpeechEnd] Hc).
Defined.

Lemma toggle_keeps_query_witness :
  reachable (step (mounted true true) (Transcript "bitcoin" oracle0)) /\
  listening (step (mounted true true) (Transcript "bitcoin" oracle0)) = true /\
  suspended (step (mounted true true) (Transcript "bitcoin" oracle0)) =
    Some (AwaitTicker "bitcoin" "BTCUSDT") /\
  listening (step (step (mounted true true) (Transcript "bitcoin" oracle0)) Toggle) = false.
Proof.
  assert (Hr : reachable (step (mounted true true) (Transcript "bitcoin" oracle0))).
  { apply reachable_step. apply reachable_mounted. }
  assert (Hl : listening (step (mounted true true) (Transcript "bitcoin" oracle0)) = true)
    by (vm_compute; reflexivity).
  assert (Hs : suspended (step (mounted true true) (Transcript "bitcoin" oracle0)) =
               Some (AwaitTicker "bitcoin" "BTCUSDT")) by (vm_compute; reflexivity).
  split; [exact Hr|]. split; [exact Hl|]. split; [exact Hs|].
  exact (proj1 (toggle_keeps_query (step (mounted true true) (Transcript "bitcoin" oracle0))
                  "bitcoin" "BTCUSDT" btcTicker 1793600000000 Hr Hl Hs)).
Defined.

Lemma resume_after_stop_witness :
  reachable (mounted true true) /\
  speechSynthesisInWindow (mounted true true) = true /\
  listening (mounted true true) = true /\
  processingCommand (mounted true true) = false /\
  branch (Js.toLowerCase "Stop listening") = BStop /\
  branch (Js.toLowerCase "Bitcoin") <> BNone /\
  listening
    (run (mounted true true) [Transcript "Stop listening" oracle0; SpeechEnd; Toggle]) = true.
Proof.
  assert (Hr : reachable (mounted true true)) by apply reachable_mounted.
  assert (Hsy : speechSynthesisInWindow (mounted true true) = true)
    by (vm_compute; reflexivity).
  assert (Hl : listening (mounted true true) = true) by (vm_compute; reflexivity).
  assert (Hp : processingCommand (mounted true true) = false) by (vm_compute; reflexivity).
  assert (Hb : branch (Js.toLowerCase "Stop listening") = BStop)
    by (vm_compute; reflexivity).
  assert (Hn : branch (Js.toLowerCase "Bitcoin") <> BNone) by (vm_compute; discriminate).
  split; [exact Hr|]. split; [exact Hsy|]. split; [exact Hl|]. split; [exact Hp|].
  split; [exact Hb|]. split; [exact Hn|].
  exact (proj1 (proj2 (resume_after_stop (mounted true true) "Stop listening" "Bitcoin"
                         oracle0 oracle0 Hr Hsy Hl Hp Hb Hn))).
Defined.

Lemma same_pair_witness :
  reachable (step (mounted true true) (Transcript "bitcoin" oracle0)) /\
  suspended (step (mounted true true) (Transcript "bitcoin" oracle0)) =
    Some (AwaitTicker "bitcoin" "BTCUSDT") /\
  calls (step (step (mounted true true) (Transcript "bitcoin" oracle0))
           (TickerSettled (Body btcTicker) 1793600000000)) =
    calls (step (mounted true true) (Transcript "bitcoin" oracle0)) ++
    [fetchKlines "BTCUSDT" (1793600000000 - 604800000) 1793600000000].
Proof.
  assert (Hr : reachable (step (mounted true true) (Transcript "bitcoin" oracle0))).
  { apply reachable_step. apply reachable_mounted. }
  assert (Hs : suspended (step (mounted true true) (Transcript "bitcoin" oracle0)) =
               Some (AwaitTicker "bitcoin" "BTCUSDT")) by (vm_compute; reflexivity).
  split; [exact Hr|]. split; [exact Hs|].
  exact (proj1 (same_pair (step (mounted true true) (Transcript "bitcoin" oracle0))
                  "bitcoin" "BTCUSDT" btcTicker 1793600000000 NotOk Hr Hs)).
Defined.

Lemma snapshot_listed_witness :
  reachable afterBitcoin /\
  cryptoData afterBitcoin = Some (cryptoDataOf "BTCUSDT" btcTicker) /\
  exists base,
    base <> EmptyString /\
    symbol (cryptoDataOf "BTCUSDT" btcTicker) = (base ++ "USDT")%string /\
    View.chartLabel afterBitcoin = (base ++ " Price (USD)")%string.
Proof.
  assert (Hr : reachable afterBitcoin).
  { unfold afterBitcoin. apply reachable_run. apply reachable_mounted. }
  assert (Hc : cryptoData afterBitcoin = Some (cryptoDataOf "BTCUSDT" btcTicker))
    by (vm_compute; reflexivity).
  split; [exact Hr|]. split; [exact Hc|].
  exact (snapshot_listed afterBitcoin (cryptoDataOf "BTCUSDT" btcTicker) Hr Hc).
Defined.

Lemma spoken_asset_resolves_witness :
  listening (mounted true true) = true /\
  processingCommand (mounted true true) = false /\
  branch (Js.toLowerCase "Ethereum please") = BCrypto "ethereum" /\
  exists normalizedSymbol,
    normalizeSymbol "ethereum" = Some normalizedSymbol /\
    suspended (step (mounted true true) (Transcript "Ethereum please" oracle0)) =
      Some (AwaitTicker "ethereum" normalizedSymbol) /\
    calls (step (mounted true true) (Transcript "Ethereum please" oracle0)) =
      calls (wakeWord (Js.toLowerCase "Ethereum please") (mounted true true)) ++
      [fetchTicker normalizedSymbol] /\
    View.banner (step (mounted true true) (Transcript "Ethereum please" oracle0)) = false /\
    View.spinner (step (mounted true true) (Transcript "Ethereum please" oracle0)) = true.
Proof.
  assert (Hl : listening (mounted true true) = true) by (vm_compute; reflexivity).
  assert (Hp : processingCommand (mounted true true) = false) by (vm_compute; reflexivity).
  assert (Hb : branch (Js.toLowerCase "Ethereum please") = BCrypto "ethereum")
    by (vm_compute; reflexivity).
  split; [exact Hl|]. split; [exact Hp|]. split; [exact Hb|].
  exact (spoken_asset_resolves (mounted true true) "Ethereum please" "ethereum" oracle0
           Hl Hp Hb).
Defined.


Lemma unsupported_inert_witness :
  reachable (mounted true false) /\
  browserSupportsSpeechRecognition (mounted true false) = false /\
  View.unsupported (mounted true false) = true /\
  calls (mounted true false) = [] /\
  run (mounted true false)
    [Toggle; Transcript "bitcoin" oracle0; TickerSettled (Body btcTicker) 1793600000000;
     SpeechEnd; TimerFired] = mounted true false.
Proof.
  assert (Hr : reachable (mounted true false)) by apply reachable_mounted.
  assert (Hs : browserSupportsSpeechRecognition (mounted true false) = false)
    by (vm_compute; reflexivity).
  split; [exact Hr|]. split; [exact Hs|].
  exact (unsupported_inert (mounted true false)
           [Toggle; Transcript "bitcoin" oracle0;
            TickerSettled (Body btcTicker) 1793600000000; SpeechEnd; TimerFired] Hr Hs).
Defined.

Lemma wake_label_witness :
  reachablePage (happen (mountedPage true true) (Hook.Heard "hey jarvis", oracle0)) /\
  is_Some (timeout (Hook.world
                      (happen (mountedPage true true) (Hook.Heard "hey jarvis", oracle0)))) /\
  View.wakeLabel
    (Hook.world
       (happen (happen (mountedPage true true) (Hook.Heard "hey jarvis", oracle0))
          (Hook.TimerElapsed, oracle0))) =
    listening (Hook.world
                 (happen (mountedPage true true) (Hook.Heard "hey jarvis", oracle0))) &&
    Js.truthy (Hook.transcript
                 (happen (mountedPage true true) (Hook.Heard "hey jarvis", oracle0))) &&
    negb (processingCommand
            (Hook.world
               (happen (mountedPage true true) (Hook.Heard "hey jarvis", oracle0)))) &&
    Js.includes
      (Js.toLowerCase
         (Hook.transcript
            (happen (mountedPage true true) (Hook.Heard "hey jarvis", oracle0))))
      "jarvis".
Proof.
  assert (Hr : reachablePage
                 (happen (mountedPage true true) (Hook.Heard "hey jarvis", oracle0))).
  { apply reachablePage_happen. apply reachablePage_mounted. }
  assert (Ht : is_Some (timeout (Hook.world
                 (happen (mountedPage true true) (Hook.Heard "hey jarvis", oracle0))))).
  { exists 1. vm_compute. reflexivity. }
  split; [exact Hr|]. split; [exact Ht|].
  exact (proj1 (proj2 (proj2
           (wake_label (happen (mountedPage true true) (Hook.Heard "hey jarvis", oracle0))
              oracle0 Hr))) Ht).
Defined.

(** The label that never goes off: with "hey jarvis" left in the hook every
    expiry of the timer arms the next one. *)
Example label_comes_back :
  View.wakeLabel
    (Hook.world
       (play (mountedPage true true)
          [(Hook.Heard "hey jarvis", oracle0); (Hook.TimerElapsed, oracle0)])) = true /\
  calls
    (Hook.world
       (play (mountedPage true true)
          [(Hook.Heard "hey jarvis", oracle0); (Hook.TimerElapsed, oracle0)])) =
    [startListening; setTimeout 0; clearTimeout 0; setTimeout 1; clearTimeout 1;
     setTimeout 2; clearTimeout 2; setTimeout 3].
Proof. vm_compute. by split. Qed.

Lemma one_command_at_a_time_witness :
  reachablePage (happen (mountedPage true true) (Hook.Heard "bitcoin", oracle0)) /\
  inFlight (Hook.world (happen (mountedPage true true) (Hook.Heard "bitcoin", oracle0))) /\
  Hook.world
    (happen (happen (mountedPage true true) (Hook.Heard "bitcoin", oracle0))
       (Hook.Heard "ethereum", oracle0)) =
    Hook.world (happen (mountedPage true true) (Hook.Heard "bitcoin", oracle0)).
Proof.
  assert (Hr : reachablePage
                 (happen (mountedPage true true) (Hook.Heard "bitcoin", oracle0))).
  { apply reachablePage_happen. apply reachablePage_mounted. }
  assert (Hin : inFlight
                  (Hook.world
                     (happen (mountedPage true true) (Hook.Heard "bitcoin", oracle0)))).
  { left. vm_compute. discriminate. }
  split; [exact Hr|]. split; [exact Hin|].
  exact (proj1 (proj2
           (one_command_at_a_time
              (happen (mountedPage true true) (Hook.Heard "bitcoin", oracle0))
              Hook.UtteranceEnd oracle0 Hr Hin)) "ethereum"%string).
Defined.
